(** * MomentumLongV5: a shallow embedding of [legacy/momentum_long_v5.py]

    The strategy's [run] coroutine decides, once per bar and symbol, whether
    to buy or sell.  It reads and writes module-level dictionaries of
    [liualgotrader.common.trading_data] and two class-level dictionaries
    ([whipsawed], [down_cross]); it may raise.  The embedding therefore
    threads an explicit [State] through an exception monad: every
    computation returns either a value or the raised exception, together
    with the dictionaries as they are at that moment.

    Numbers.  Python floats are modelled as exact rationals extended with
    [nan] (the value TA-Lib and pandas use for "no reading").  Arithmetic is
    exact: binary rounding error and the infinities are outside the model,
    and an operation that numpy answers with an infinity (a zero divisor)
    yields [nan] here.  Comparisons follow IEEE: any comparison with [nan]
    is false.

    Rounding decides one result of [run], the number of shares of lines
    197-205.  Those lines are therefore embedded a second time, over
    binary64 numbers ([Double], [Sizing]), with every operation rounded as
    the interpreter and numpy round it.

    Time.  A [datetime] is the number of microseconds since an epoch.

    External code.  TA-Lib's [MACD] and [RSI], the base class's
    [is_buy_time] / [is_sell_time] and [config.market_open] / [config.risk]
    are not part of this file's source; they are Section variables.  The
    broker's [get_account] is an input of [run]. *)

From Stdlib Require Import ZArith QArith Qabs Qround Qcanon List Bool Lia.
From Stdlib Require SpecFloat.
From stdpp Require Import gmap strings.
Import ListNotations.

Local Open Scope Z_scope.

(** ** Numbers *)

Module Float.

Inductive float : Type :=
| nan
| fin (q : Q).

Definition lift2 (f : Q -> Q -> Q) (a b : float) : float :=
  match a, b with
  | fin x, fin y => fin (Qred (f x y))
  | _, _ => nan
  end.

Definition add := lift2 Qplus.
Definition sub := lift2 Qminus.
Definition mul := lift2 Qmult.

(** True division; numpy answers a zero divisor with an infinity or nan and
    a warning, never with an exception. *)
Definition div (a b : float) : float :=
  match a, b with
  | fin x, fin y => if Qeq_bool y 0 then nan else fin (Qred (x / y))
  | _, _ => nan
  end.

(** [a // b]: the floor of the quotient, still a float. *)
Definition floordiv (a b : float) : float :=
  match a, b with
  | fin x, fin y =>
      if Qeq_bool y 0 then nan else fin (inject_Z (Qfloor (x / y)))
  | _, _ => nan
  end.

Definition of_Z (z : Z) : float := fin (inject_Z z).

Definition leb (a b : float) : bool :=
  match a, b with
  | fin x, fin y => Qle_bool x y
  | _, _ => false
  end.

Definition ltb (a b : float) : bool :=
  match a, b with
  | fin x, fin y => negb (Qle_bool y x)
  | _, _ => false
  end.

Definition gtb (a b : float) : bool := ltb b a.
Definition geb (a b : float) : bool := leb b a.

Definition is_nan (a : float) : bool :=
  match a with nan => true | fin _ => false end.

(** Truth value of a float: zero is false, everything else (nan too) true. *)
Definition truthy (a : float) : bool :=
  match a with
  | nan => true
  | fin x => negb (Qeq_bool x 0)
  end.

(** The builtin [max(a, b)]: the first argument unless the second is
    strictly greater. *)
Definition max (a b : float) : float := if gtb b a then b else a.

Definition abs (a : float) : float :=
  match a with
  | nan => nan
  | fin x => fin (Qabs x)
  end.

(** [round(x, ndigits)]: to the nearest multiple of [10^-ndigits], ties to
    the even one. *)
Definition round_half_even (q : Q) : Z :=
  let f := Qfloor q in
  match ((q - inject_Z f) ?= 1 # 2)%Q with
  | Lt => f
  | Gt => f + 1
  | Eq => if Z.even f then f else f + 1
  end.

Definition round (a : float) (ndigits : Z) : float :=
  match a with
  | nan => nan
  | fin x =>
      let scale := Qpower 10 ndigits in
      fin (Qred (inject_Z (round_half_even (x * scale)) / scale))
  end.

End Float.

Export Float (float, nan, fin).

Declare Scope float_scope.
Delimit Scope float_scope with float.
Bind Scope float_scope with float.
Infix "+" := Float.add : float_scope.
Infix "-" := Float.sub : float_scope.
Infix "*" := Float.mul : float_scope.
Infix "/" := Float.div : float_scope.
Infix "//" := Float.floordiv (at level 40, left associativity) : float_scope.
Infix "<?" := Float.ltb : float_scope.
Infix "<=?" := Float.leb : float_scope.
Infix ">?" := Float.gtb : float_scope.
Infix ">=?" := Float.geb : float_scope.

(** A decimal literal [x] of the source is written [fin x]. *)
Arguments fin q%_Q_scope.

(** ** Numbers in double precision *)

(** IEEE 754 binary64, the format of a Python [float] and of a numpy
    [float64]: the Standard Library's specification of the format at
    precision 53 and maximal exponent 1024.  Sum, difference, product and
    quotient round to the nearest double, ties to the even one. *)
Module Double.
Import SpecFloat.

Definition prec : Z := 53.
Definition emax : Z := 1024.

Definition double : Type := spec_float.

(** [float(n)] for an int [n]: the nearest double.  An int beyond the
    range of the doubles, which Python refuses to convert, gives an
    infinity here. *)
Definition of_Z (n : Z) : double := binary_normalize prec emax n 0 false.

Definition zero : double := S754_zero false.
Definition one : double := of_Z 1.

Definition add : double -> double -> double := SFadd prec emax.
Definition sub : double -> double -> double := SFsub prec emax.
Definition mul : double -> double -> double := SFmul prec emax.
Definition div : double -> double -> double := SFdiv prec emax.

Definition eqb : double -> double -> bool := SFeqb.
Definition ltb : double -> double -> bool := SFltb.
Definition leb : double -> double -> bool := SFleb.
Definition gtb (a b : double) : bool := ltb b a.

Definition is_nan (a : double) : bool :=
  match a with S754_nan => true | _ => false end.

(** Truth value: both zeros are false, everything else (nan too) true. *)
Definition truthy (a : double) : bool := negb (eqb a zero).

(** The double a decimal literal denotes, for a literal whose numerator and
    denominator are below 2^53: both are doubles then, and their quotient
    rounds once, to the double nearest to the literal. *)
Definition literal (q : Q) : double :=
  div (of_Z (Qnum q)) (of_Z (Zpos (Qden q))).

Definition sign_bit (a : double) : bool :=
  match a with
  | S754_zero s | S754_infinity s | S754_finite s _ _ => s
  | S754_nan => false
  end.

(** C's [fmod(a, b)]: the remainder of the division truncated towards zero,
    with the sign of [a]; it is a double, so nothing rounds. *)
Definition fmod (a b : double) : double :=
  match a, b with
  | S754_nan, _ | _, S754_nan => S754_nan
  | S754_infinity _, _ => S754_nan
  | _, S754_zero _ => S754_nan
  | S754_zero _, _ => a
  | _, S754_infinity _ => a
  | S754_finite sa ma ea, S754_finite _ mb eb =>
      let e := Z.min ea eb in
      let r := (Zpos ma * 2 ^ (ea - e)) `mod` (Zpos mb * 2 ^ (eb - e)) in
      binary_normalize prec emax (if sa then - r else r) e sa
  end.

(** C's [floor(a)]: the largest integral double not above [a]. *)
Definition floor (a : double) : double :=
  match a with
  | S754_finite s m e =>
      if 0 <=? e then a
      else binary_normalize prec emax
             ((if s then Zneg m else Zpos m) `div` 2 ^ (- e)) 0 s
  | _ => a
  end.

(** [a // b] on numpy doubles, [npy_floor_divide]: the plain quotient for a
    zero divisor (an infinity or nan, with a warning); otherwise the
    quotient of [a - fmod(a, b)] by [b], less one when the remainder and
    the divisor differ in sign, snapped to the integral double next to
    it. *)
Definition floordiv (a b : double) : double :=
  if eqb b zero then div a b
  else
    let mod_ := fmod a b in
    let div_ := div (sub a mod_) b in
    let div_ :=
      if truthy mod_ && xorb (ltb b zero) (ltb mod_ zero)
      then sub div_ one
      else div_ in
    if truthy div_ then
      let floordiv_ := floor div_ in
      if gtb (sub div_ floordiv_) (literal 0.5)
      then add floordiv_ one
      else floordiv_
    else S754_zero (sign_bit (div a b)).

End Double.

Declare Scope double_scope.
Delimit Scope double_scope with double.
Infix "+" := Double.add : double_scope.
Infix "-" := Double.sub : double_scope.
Infix "*" := Double.mul : double_scope.
Infix "/" := Double.div : double_scope.
Infix "//" := Double.floordiv (at level 40, left associativity) : double_scope.
Infix "<?" := Double.ltb : double_scope.
Infix "<=?" := Double.leb : double_scope.
Infix ">?" := Double.gtb : double_scope.

Arguments Double.literal q%_Q_scope.

(** ** Exceptions and the evaluation monad *)

Inductive exn : Type :=
| IndexError
| KeyError (dict key : string)
| TypeError
| ConnectionError
| Exception (msg : string).

Inductive res (A : Type) : Type :=
| Ok (a : A)
| Raise (e : exn).
Arguments Ok {A} a.
Arguments Raise {A} e.

(** ** Sequences: negative indexing and tail slices *)

Section Seq.
Context {A : Type}.

(** [l[-k]] for [k >= 1]. *)
Definition back (l : list A) (k : nat) : res A :=
  match nth_error (rev l) (Nat.pred k) with
  | Some x => Ok x
  | None => Raise IndexError
  end.

(** [l[-k:]]: the last [k] elements, or all of them. *)
Definition tail_slice (l : list A) (k : nat) : list A :=
  skipn (length l - k)%nat l.

(** [l[-1] = x]. *)
Definition set_last (l : list A) (x : A) : res (list A) :=
  match rev l with
  | [] => Raise IndexError
  | _ :: r => Ok (rev (x :: r))
  end.
End Seq.


(** ** Time *)

(** A [datetime], in microseconds since the epoch. *)
Abbreviation datetime := Z (only parsing).

Definition minutes (n : Z) : Z := n * 60000000.

(** [now.replace(second=0, microsecond=0)]. *)
Definition truncate_to_minute (now : datetime) : datetime :=
  now - now `mod` 60000000.

(** [(a - b).seconds]: the seconds field of the normalised [timedelta]
    (days, seconds, microseconds), always in [0, 86400). *)
Definition timedelta_seconds (a b : datetime) : Z :=
  ((a - b) `div` 1000000) `mod` 86400.

(** Microseconds since midnight. *)
Definition time_of_day (t : datetime) : Z := t `mod` 86400000000.

(** ** Price history *)

(** One row of [minute_history]. *)
Record bar : Type := Bar {
  time : datetime;
  close : float;
  volume : float;
  vwap : float;
  average : float
}.

(** A pandas Series over a DatetimeIndex. *)
Abbreviation series := (list (Z * float)) (only parsing).

(** [minute_history["close"]]. *)
Definition close_column (h : list bar) : series :=
  map (fun b => (time b, close b)) h.

Definition values (s : series) : list float := map snd s.

(** [Series.dropna()]. *)
Definition dropna (s : series) : series :=
  List.filter (fun p => negb (Float.is_nan (snd p))) s.

(** [Series.between_time("9:30", "16:00")], both ends included. *)
Definition between_time (s : series) : series :=
  List.filter (fun p => (minutes 570 <=? time_of_day (fst p))
                   && (time_of_day (fst p) <=? minutes 960)) s.

(** [Series.resample("5min").last()] followed by [dropna()], on a series
    whose index increases: the last value of every non-empty five-minute
    bucket, labelled with the start of the bucket. *)
Definition bucket (t : datetime) : datetime := t - t `mod` minutes 5.

Fixpoint resample_5min_last (s : series) : series :=
  match s with
  | [] => []
  | (t, x) :: rest =>
      match rest with
      | (t', _) :: _ =>
          if bucket t =? bucket t'
          then resample_5min_last rest
          else (bucket t, x) :: resample_5min_last rest
      | [] => [(bucket t, x)]
      end
  end.

(** [Series[t0:]]: the rows labelled [t0] or later. *)
Definition since (s : series) (t0 : datetime) : series :=
  List.filter (fun p => t0 <=? fst p) s.

(** [Series.max()]: the largest value that is not nan, nan if there is
    none. *)
Definition series_max (s : series) : float :=
  fold_left
    (fun acc p =>
       match acc, snd p with
       | _, nan => acc
       | nan, x => x
       | _, x => Float.max acc x
       end)
    s nan.

(** ** Orders and audit records *)

Inductive side : Type := buy | sell.
Inductive order_type : Type := market | limit.

(** A quantity is [str(...)] of a float on the buy side and of an int on the
    sell side. *)
Inductive quantity : Type :=
| qty_float (x : float)
| qty_int (n : Z).

(** The order dictionary, before its numbers are turned into strings. *)
Record order : Type := Order {
  o_side : side;
  o_qty : quantity;
  o_type : order_type;
  o_limit_price : option float
}.

(** What [run] returns: [(False, {})] is [(false, None)]. *)
Abbreviation decision := (bool * option order)%type (only parsing).

Definition no_action : bool * option order := (false, None).

Record buy_indicator : Type := BuyIndicator {
  bi_macd : list float;
  bi_macd_signal : list float;
  bi_vwap : float;
  bi_avg : float;
  bi_reason : list string
}.

Record sell_indicator : Type := SellIndicator {
  si_rsi : list float;
  si_movement : float;
  si_sell_macd : list float;
  si_sell_macd_signal : list float;
  si_vwap : float;
  si_avg : float;
  si_reasons : string
}.

(** ** The dictionaries shared between calls *)

(** The module-level dictionaries of [trading_data] that [run] touches, the
    two class-level dictionaries of the strategy, and the number of
    [get_account] calls made so far.  A dictionary whose values may be
    [None] maps to an [option]. *)
Record State : Type := mkState {
  cool_down : gmap string (option Z);
  latest_cost_basis : gmap string float;
  latest_scalp_basis : gmap string float;
  open_orders : gmap string (option Z);
  buy_indicators : gmap string buy_indicator;
  sell_indicators : gmap string sell_indicator;
  stop_prices : gmap string float;
  target_prices : gmap string float;
  buy_time : gmap string Z;
  last_used_strategy : gmap string string;
  whipsawed : gmap string bool;
  down_cross : gmap string (option float);
  api_calls : nat
}.

Definition set_cool_down (f : gmap string (option Z) -> gmap string (option Z))
    (st : State) : State :=
  mkState (f (cool_down st)) (latest_cost_basis st) (latest_scalp_basis st)
    (open_orders st) (buy_indicators st) (sell_indicators st)
    (stop_prices st) (target_prices st) (buy_time st)
    (last_used_strategy st) (whipsawed st) (down_cross st) (api_calls st).

Definition set_latest_cost_basis (f : gmap string float -> gmap string float)
    (st : State) : State :=
  mkState (cool_down st) (f (latest_cost_basis st)) (latest_scalp_basis st)
    (open_orders st) (buy_indicators st) (sell_indicators st)
    (stop_prices st) (target_prices st) (buy_time st)
    (last_used_strategy st) (whipsawed st) (down_cross st) (api_calls st).

Definition set_latest_scalp_basis (f : gmap string float -> gmap string float)
    (st : State) : State :=
  mkState (cool_down st) (latest_cost_basis st) (f (latest_scalp_basis st))
    (open_orders st) (buy_indicators st) (sell_indicators st)
    (stop_prices st) (target_prices st) (buy_time st)
    (last_used_strategy st) (whipsawed st) (down_cross st) (api_calls st).

Definition set_buy_indicators
    (f : gmap string buy_indicator -> gmap string buy_indicator)
    (st : State) : State :=
  mkState (cool_down st) (latest_cost_basis st) (latest_scalp_basis st)
    (open_orders st) (f (buy_indicators st)) (sell_indicators st)
    (stop_prices st) (target_prices st) (buy_time st)
    (last_used_strategy st) (whipsawed st) (down_cross st) (api_calls st).

Definition set_sell_indicators
    (f : gmap string sell_indicator -> gmap string sell_indicator)
    (st : State) : State :=
  mkState (cool_down st) (latest_cost_basis st) (latest_scalp_basis st)
    (open_orders st) (buy_indicators st) (f (sell_indicators st))
    (stop_prices st) (target_prices st) (buy_time st)
    (last_used_strategy st) (whipsawed st) (down_cross st) (api_calls st).

Definition set_stop_prices (f : gmap string float -> gmap string float)
    (st : State) : State :=
  mkState (cool_down st) (latest_cost_basis st) (latest_scalp_basis st)
    (open_orders st) (buy_indicators st) (sell_indicators st)
    (f (stop_prices st)) (target_prices st) (buy_time st)
    (last_used_strategy st) (whipsawed st) (down_cross st) (api_calls st).

Definition set_target_prices (f : gmap string float -> gmap string float)
    (st : State) : State :=
  mkState (cool_down st) (latest_cost_basis st) (latest_scalp_basis st)
    (open_orders st) (buy_indicators st) (sell_indicators st)
    (stop_prices st) (f (target_prices st)) (buy_time st)
    (last_used_strategy st) (whipsawed st) (down_cross st) (api_calls st).

Definition set_whipsawed (f : gmap string bool -> gmap string bool)
    (st : State) : State :=
  mkState (cool_down st) (latest_cost_basis st) (latest_scalp_basis st)
    (open_orders st) (buy_indicators st) (sell_indicators st)
    (stop_prices st) (target_prices st) (buy_time st)
    (last_used_strategy st) (f (whipsawed st)) (down_cross st) (api_calls st).

Definition set_down_cross
    (f : gmap string (option float) -> gmap string (option float))
    (st : State) : State :=
  mkState (cool_down st) (latest_cost_basis st) (latest_scalp_basis st)
    (open_orders st) (buy_indicators st) (sell_indicators st)
    (stop_prices st) (target_prices st) (buy_time st)
    (last_used_strategy st) (whipsawed st) (f (down_cross st)) (api_calls st).

Definition set_api_calls (f : nat -> nat) (st : State) : State :=
  mkState (cool_down st) (latest_cost_basis st) (latest_scalp_basis st)
    (open_orders st) (buy_indicators st) (sell_indicators st)
    (stop_prices st) (target_prices st) (buy_time st)
    (last_used_strategy st) (whipsawed st) (down_cross st) (f (api_calls st)).

(** ** The evaluation monad: state that survives an exception *)

Definition M (A : Type) : Type := State -> res A * State.

Definition ret {A} (a : A) : M A := fun st => (Ok a, st).

Definition raise {A} (e : exn) : M A := fun st => (Raise e, st).

Definition bind {A B} (m : M A) (k : A -> M B) : M B :=
  fun st =>
    match m st with
    | (Ok a, st') => k a st'
    | (Raise e, st') => (Raise e, st')
    end.

Definition lift {A} (r : res A) : M A := fun st => (r, st).

Definition gets {A} (f : State -> A) : M A := fun st => (Ok (f st), st).

Definition modify (f : State -> State) : M unit := fun st => (Ok tt, f st).

Notation "'let*' x ':=' m 'in' k" := (bind m (fun x => k))
  (at level 10, x binder, m at level 100, k at level 200).
Notation "'do' m 'then' k" := (bind m (fun _ => k))
  (at level 10, m at level 100, k at level 200).

(** [a and b] of two conditions: [b] is evaluated only if [a] holds. *)
Definition andM (a b : M bool) : M bool :=
  let* x := a in if x then b else ret false.

Infix "&&&" := andM (at level 40, left associativity).

(** [d[key]]: raises [KeyError] when the key is absent. *)
Definition subscript {V} (name : string) (d : State -> gmap string V)
    (key : string) : M V :=
  fun st =>
    match d st !! key with
    | Some v => (Ok v, st)
    | None => (Raise (KeyError name key), st)
    end.

(** Truth value of [d.get(key, None)] for the dictionaries used as flags. *)
Definition get_truthy {V} (truth : V -> bool) (m : gmap string (option V))
    (key : string) : bool :=
  match m !! key with
  | Some (Some v) => truth v
  | _ => false
  end.

(** [l[-k]] inside the monad. *)
Definition idx {A} (l : list A) (k : nat) : M A := lift (back l k).

(** [a r b]: both operands are evaluated, then compared. *)
Definition cmp (a : M float) (r : float -> float -> bool) (b : M float)
    : M bool :=
  let* x := a in let* y := b in ret (r x y).

(** The chained comparison [a r1 b r2 c]: [c] is evaluated only if
    [a r1 b] holds. *)
Definition chain (a : M float) (r1 : float -> float -> bool) (b : M float)
    (r2 : float -> float -> bool) (c : M float) : M bool :=
  let* x := a in
  let* y := b in
  if r1 x y then let* z := c in ret (r2 y z) else ret false.

(** [try: m except ConnectionError: handler]. *)
Definition except_ConnectionError {A} (m handler : M A) : M A :=
  fun st =>
    match m st with
    | (Raise ConnectionError, st') => handler st'
    | r => r
    end.

(** ** The broker *)

(** What the [n]-th call of [trading_api.get_account()] does: it returns an
    account with a portfolio value, or raises. *)
Inductive response : Type :=
| account (portfolio_value : float)
| fails (e : exn).

Abbreviation tradeapi := (nat -> response) (only parsing).

(** [float(trading_api.get_account().portfolio_value)]. *)
Definition get_account (api : nat -> response) : M float :=
  let* n := gets api_calls in
  do modify (set_api_calls S) then
  match api n with
  | account v => ret v
  | fails e => raise e
  end.

(** ** The strategy *)

Section MomentumLongV5.

(** [talib.MACD(real, fastperiod, slowperiod)], with its default signal
    period of 9: the oscillator, its signal line and their difference. *)
Variable MACD : list float -> Z -> Z -> list float * list float * list float.

(** [talib.RSI(real, timeperiod)]. *)
Variable RSI : list float -> Z -> list float.

(** [Strategy.is_buy_time] and [Strategy.is_sell_time] of the base class. *)
Variable is_buy_time : Z -> bool.
Variable is_sell_time : Z -> bool.

(** [config.market_open] and [config.risk]. *)
Variable market_open : Z.
Variable risk : float.

Definition name : string := "momentum_long_v5".

Definition buy_callback (symbol : string) (price : float) (qty : Z) : M unit :=
  do modify (set_latest_scalp_basis <[symbol := price]>) then
  modify (set_latest_cost_basis <[symbol := price]>).

Definition sell_callback (symbol : string) (price : float) (qty : Z) : M unit :=
  modify (set_latest_scalp_basis <[symbol := price]>).

(** The condition of lines 53-57: the symbol has an entry, the entry is
    not [None], and it is not before the current minute. *)
Definition cooling (cd : gmap string (option Z)) (symbol : string)
    (now : Z) : bool :=
  match cd !! symbol with
  | Some (Some until) => truncate_to_minute now <=? until
  | _ => false
  end.

Definition should_cool_down (symbol : string) (now : Z) : M bool :=
  let* cd := gets cool_down in
  if cooling cd symbol now then ret true
  else
    do modify (set_cool_down <[symbol := None]>) then
    ret false.

(** [self.down_cross.get(symbol, None)] as a condition. *)
Definition down_cross_set (symbol : string) : M bool :=
  let* dc := gets down_cross in
  ret (get_truthy Float.truthy dc symbol).

(** [self.down_cross[symbol]] as a number. *)
Definition down_cross_price (symbol : string) : M float :=
  let* v := subscript "down_cross" down_cross symbol in
  match v with
  | Some x => ret x
  | None => raise TypeError
  end.

(** [open_orders.get(symbol, None)] as a condition. *)
Definition has_open_order (symbol : string) : M bool :=
  let* oo := gets open_orders in
  ret (get_truthy (fun _ : Z => true) oo symbol).

(** [morning_rush]: within the first 30 minutes after the open. *)
Definition morning_rush (now : Z) : bool :=
  timedelta_seconds now market_open `div` 60 <? 30.

(** The retry loop of the buy path, lines 173-185: [retry] attempts are
    left; [None] when all of them failed to connect. *)
Fixpoint fetch_portfolio_value (api : nat -> response) (retry : nat)
    : M (option float) :=
  match retry with
  | O => ret None
  | S retry' =>
      except_ConnectionError
        (let* v := get_account api in ret (Some v))
        (fetch_portfolio_value api retry')
  end.

(** Lines 170-195: the portfolio value to size with, or [None] when the
    evaluation is to end with no action. *)
Definition obtain_portfolio_value (portfolio_value : option float)
    (trading_api : option (nat -> response)) : M (option float) :=
  match portfolio_value with
  | Some v => ret (Some v)
  | None =>
      match trading_api with
      | Some api =>
          let* fetched := fetch_portfolio_value api 3 in
          match fetched with
          | Some v => if Float.truthy v then ret (Some v) else ret None
          | None => ret None
          end
      | None =>
          raise (Exception
            "momentum_long_v5: both portfolio_value and trading_api can't be None")
      end
  end.

(** Lines 197-204: [shares_to_buy] after the position is subtracted.  A
    zero quotient is replaced by the int 1, so the result is an int in
    that case and a float otherwise. *)
Definition shares_to_buy (portfolio_value close_price stop_price : float)
    (position : Z) : quantity :=
  let shares := (portfolio_value * risk // (close_price - stop_price))%float in
  if Float.truthy shares
  then qty_float (shares - Float.of_Z position)%float
  else qty_int (1 - position).

Definition positive (q : quantity) : bool :=
  match q with
  | qty_float x => (x >? fin 0)%float
  | qty_int n => n >? 0
  end.

(** Lines 165-235: pricing, sizing and the buy order. *)
Definition size_and_buy (symbol : string) (position : Z) (data : bar)
    (now : Z) (portfolio_value : option float)
    (trading_api : option (nat -> response))
    (macd macd_signal : list float) (reason : list string)
    : M (bool * option order) :=
  let stop_price := (close data * fin 0.96)%float in
  let* anchor := down_cross_price symbol in
  let target_price := (anchor * fin 1.12)%float in
  do modify (set_target_prices <[symbol := target_price]>) then
  do modify (set_stop_prices <[symbol := stop_price]>) then
  let* pv := obtain_portfolio_value portfolio_value trading_api in
  match pv with
  | None => ret no_action
  | Some pv =>
      let* stop := subscript "stop_prices" stop_prices symbol in
      let shares := shares_to_buy pv (close data) stop position in
      if positive shares then
        do modify (set_whipsawed <[symbol := false]>) then
        let buy_price := Float.max (close data) (vwap data) in
        do modify (set_buy_indicators
                     <[symbol := BuyIndicator (tail_slice macd 5)
                                   (tail_slice macd_signal 5)
                                   (vwap data) (average data) reason]>) then
        ret (true,
             Some (if negb (morning_rush now)
                   then Order buy shares limit (Some buy_price)
                   else Order buy shares market None))
      else ret no_action
  end.

(** Lines 140-235: the overbought gate, then [size_and_buy]. *)
Definition risk_gate (symbol : string) (position : Z) (data : bar)
    (close_series : list float) (now : Z) (portfolio_value : option float)
    (trading_api : option (nat -> response))
    (macd macd_signal : list float) (reason : list string)
    : M (bool * option order) :=
  let rsi := RSI close_series 14 in
  let rsi_limit := fin 75 in
  let* latest := idx rsi 1 in
  if (latest <? rsi_limit)%float then
    size_and_buy symbol position data now portfolio_value trading_api
      macd macd_signal reason
  else
    do modify (set_cool_down
                 <[symbol := Some (truncate_to_minute now + minutes 5)]>) then
    ret no_action.

(** Lines 125-130: the condition of the trend test. *)
Definition trend_up (symbol : string) (macd macd_signal : list float)
    : M bool :=
  down_cross_set symbol
  &&& chain (idx macd 1) Float.gtb (idx macd 2) Float.gtb (idx macd 3)
  &&& chain (idx macd 1) Float.gtb (idx macd_signal 1)
        Float.gtb (idx macd_signal 2)
  &&& cmp (idx macd 2) Float.gtb (idx macd_signal 2).

(** Lines 122-138: [to_buy]. *)
Definition to_buy (symbol : string) (data : bar)
    (macd macd_signal : list float) : M bool :=
  let* up := trend_up symbol macd macd_signal in
  if up
  then cmp (ret (close data)) Float.ltb (down_cross_price symbol)
  else ret false.

(** Lines 89-235: the body of the buy branch. *)
Definition entry (symbol : string) (position : Z) (minute_history : list bar)
    (data : bar) (now : Z) (portfolio_value : option float)
    (trading_api : option (nat -> response)) : M (bool * option order) :=
  let close_series :=
    between_time (dropna (close_column minute_history)) in
  let close_5min :=
    dropna (resample_5min_last
              (between_time (dropna (close_column minute_history)))) in
  let '(macd, macd_signal, _) := MACD (values close_5min) 13 21 in
  let* crossed_down :=
    chain (idx macd 1) Float.ltb (ret (fin 0)) Float.leb (idx macd 2)
    &&& (let* anchored := down_cross_set symbol in ret (negb anchored)) in
  if crossed_down then
    do modify (set_down_cross <[symbol := Some (close data)]>) then
    ret no_action
  else
    let* crossed_up :=
      down_cross_set symbol
      &&& cmp (idx macd 1) Float.geb (ret (fin 0)) in
    if crossed_up then
      do modify (set_down_cross <[symbol := None]>) then
      ret no_action
    else
      let* buying := to_buy symbol data macd macd_signal in
      if buying then
        risk_gate symbol position data (values close_series) now
          portfolio_value trading_api macd macd_signal ["MACD signal"%string]
      else ret no_action.

(** *** The sell branch *)

(** Lines 279-281. *)
Definition round_factor (macd_val macd_signal_val : float) : Z :=
  if (macd_val >=? fin 0.1)%float || (macd_signal_val >=? fin 0.1)%float
  then 2 else 3.

(** Lines 286-288. *)
Definition macd_below_signal (macd_val macd_signal_val : float) : bool :=
  let round_factor := round_factor macd_val macd_signal_val in
  (Float.round macd_val round_factor
     <? Float.round macd_signal_val round_factor)%float.

(** [round(macd[-1], round_factor) < round(macd[-2], round_factor)]. *)
Definition macd_falling (macd : list float) (round_factor : Z) : M bool :=
  cmp (let* m := idx macd 1 in ret (Float.round m round_factor))
      Float.ltb
      (let* m := idx macd 2 in ret (Float.round m round_factor)).

(** The flags of lines 310-313 once the cascade of lines 314-337 has
    run. *)
Record verdict : Type := Verdict {
  to_sell : bool;
  partial_sell : bool;
  limit_sell : bool;
  sell_reasons : list string
}.

(** Lines 309-337: the first condition that holds sets the flags; the
    conditions after it are not evaluated. *)
Definition sell_cascade (symbol : string) (data : bar) (now : Z)
    (macd rsi : list float) (bail_out scalp bail_on_whipsawed : bool)
    : M verdict :=
  let rsi_limit := if negb (morning_rush now) then fin 79 else fin 85 in
  let* stopped :=
    cmp (ret (close data)) Float.leb
        (subscript "stop_prices" stop_prices symbol) in
  if stopped then ret (Verdict true false false ["stopped"%string])
  else
    let* above_target :=
      cmp (ret (close data)) Float.geb
          (subscript "target_prices" target_prices symbol)
      &&& cmp (idx macd 1) Float.leb (ret (fin 0)) in
    if above_target then
      ret (Verdict true false false ["above target & macd negative"%string])
    else
      let* overbought := cmp (idx rsi 1) Float.geb (ret rsi_limit) in
      if overbought then
        do modify (set_cool_down
                     <[symbol := Some (truncate_to_minute now + minutes 5)]>) then
        ret (Verdict true false false
               ["rsi max, cool-down for 5 minutes"%string])
      else if bail_out then
        ret (Verdict true false false ["bail"%string])
      else if scalp then
        ret (Verdict true true false ["scale-out"%string])
      else if bail_on_whipsawed then
        ret (Verdict true false true ["bail post whipsawed"%string])
      else ret (Verdict false false false []).

(** Lines 355-394: the order the flags stand for. *)
Definition sell_order (position : Z) (data : bar) (v : verdict) : order :=
  if negb (partial_sell v) then
    if negb (limit_sell v)
    then Order sell (qty_int position) market None
    else Order sell (qty_int position) limit (Some (close data))
  else
    let qty := if position >? 1 then Z.quot position 2 else 1 in
    Order sell (qty_int qty) limit (Some (close data)).

(** Lines 243-394: the body of the sell branch. *)
Definition exit (symbol : string) (position : Z) (minute_history : list bar)
    (data : bar) (now : Z) : M (bool * option order) :=
  let* flagged := gets (fun st => default false (whipsawed st !! symbol)) in
  let* slipped :=
    ret (negb flagged)
    &&& cmp (ret (close data)) Float.ltb
          (let* basis :=
             subscript "latest_cost_basis" latest_cost_basis symbol in
           ret (basis * fin 0.99)%float) in
  do (if slipped then modify (set_whipsawed <[symbol := true]>)
      else ret tt) then
  let serie := values (between_time (dropna (close_column minute_history))) in
  let* serie :=
    if Float.truthy (vwap data) then lift (set_last serie (vwap data))
    else ret serie in
  let '(macd, macd_signal, _) := MACD serie 13 21 in
  let rsi :=
    RSI (values (between_time (dropna (close_column minute_history)))) 14 in
  let* scalp_basis :=
    subscript "latest_scalp_basis" latest_scalp_basis symbol in
  let movement := ((close data - scalp_basis) / scalp_basis)%float in
  let* bought_at := subscript "buy_time" buy_time symbol in
  let max_movement :=
    ((series_max (since (close_column minute_history) bought_at)
      - scalp_basis) / scalp_basis)%float in
  let* macd_val := idx macd 1 in
  let* macd_signal_val := idx macd_signal 1 in
  let round_factor := round_factor macd_val macd_signal_val in
  let* target := subscript "target_prices" target_prices symbol in
  let scalp_threshold := ((target + scalp_basis) / fin 2)%float in
  let macd_below_signal := macd_below_signal macd_val macd_signal_val in
  let* cost_basis :=
    subscript "latest_cost_basis" latest_cost_basis symbol in
  let* bail_out :=
    ret ((scalp_basis >? cost_basis)%float
         || ((max_movement >? fin 0.02)%float
             && (max_movement >? movement)%float))
    &&& ret macd_below_signal
    &&& macd_falling macd round_factor in
  let* flagged := gets (fun st => default false (whipsawed st !! symbol)) in
  let* bail_on_whipsawed :=
    ret flagged
    &&& ret (movement >? fin 0.01)%float
    &&& ret macd_below_signal
    &&& macd_falling macd round_factor in
  let scalp :=
    (movement >? fin 0.04)%float || (vwap data >? scalp_threshold)%float in
  let below_cost_base := (vwap data <? cost_basis)%float in
  let* v := sell_cascade symbol data now macd rsi
              bail_out scalp bail_on_whipsawed in
  if to_sell v then
    do modify (set_sell_indicators
                 <[symbol := SellIndicator (tail_slice rsi 3) movement
                               (tail_slice macd 5) (tail_slice macd_signal 5)
                               (vwap data) (average data)
                               (String.concat " AND " (sell_reasons v))]>) then
    ret (true, Some (sell_order position data v))
  else ret no_action.

(** *** [run] *)

(** The condition of the buy branch, lines 82-88. *)
Definition buy_guard (symbol : string) (position : Z) (data : bar)
    (now : Z) : M bool :=
  ret (is_buy_time now)
  &&& ret (position =? 0)
  &&& (let* pending := has_open_order symbol in ret (negb pending))
  &&& (let* cooling := should_cool_down symbol now in ret (negb cooling))
  &&& ret (volume data >? fin 500)%float.

(** The condition of the sell branch, lines 236-242. *)
Definition sell_guard (symbol : string) (position : Z) (now : Z) : M bool :=
  ret (is_sell_time now)
  &&& ret (position >? 0)
  &&& gets (fun st => bool_decide (is_Some (latest_cost_basis st !! symbol)))
  &&& (let* owner :=
         subscript "last_used_strategy" last_used_strategy symbol in
       ret (String.eqb owner name))
  &&& (let* pending := has_open_order symbol in ret (negb pending)).

Definition run (symbol : string) (shortable : bool) (position : Z)
    (minute_history : list bar) (now : Z) (portfolio_value : option float)
    (trading_api : option (nat -> response)) (debug backtesting : bool)
    : M (bool * option order) :=
  let* data := idx minute_history 1 in
  let* prev_min := idx minute_history 2 in
  let* buying := buy_guard symbol position data now in
  if buying then
    entry symbol position minute_history data now portfolio_value trading_api
  else
    let* selling := sell_guard symbol position now in
    if selling then exit symbol position minute_history data now
    else ret no_action.

End MomentumLongV5.

Arguments name : simpl never.
Arguments should_cool_down : simpl never.
Arguments Float.ltb : simpl never.
Arguments Float.leb : simpl never.
Arguments Float.gtb : simpl never.
Arguments Float.geb : simpl never.
Arguments Float.mul : simpl never.
Arguments Float.sub : simpl never.
Arguments Float.add : simpl never.
Arguments Float.div : simpl never.
Arguments Float.floordiv : simpl never.
Arguments Float.round : simpl never.
Arguments Float.truthy : simpl never.
Arguments Float.max : simpl never.

(** ** Position sizing in double precision *)

(** Lines 165 and 197-235 of [run] over [Double].  [portfolio_value] and
    [config.risk] are Python floats, [data.close] and the stored stop numpy
    doubles: product and difference round as doubles, and [//] is
    numpy's. *)
Module Sizing.

(** The value of [shares_to_buy] at line 205: a numpy double, or the int
    that took the place of a zero quotient. *)
Inductive quantity : Type :=
| qty_float (x : Double.double)
| qty_int (n : Z).

(** Line 165: [data.close * 0.96]. *)
Definition stop_price (close_price : Double.double) : Double.double :=
  (close_price * Double.literal 0.96)%double.

(** Lines 197-204.  The position is an int; to subtract it from a double
    it is converted to the nearest double. *)
Definition shares_to_buy
    (risk portfolio_value close_price stop_price : Double.double)
    (position : Z) : quantity :=
  let shares :=
    (portfolio_value * risk // (close_price - stop_price))%double in
  if Double.truthy shares
  then qty_float (shares - Double.of_Z position)%double
  else qty_int (1 - position).

(** Line 205: [shares_to_buy > 0]. *)
Definition positive (q : quantity) : bool :=
  match q with
  | qty_float x => (x >? Double.zero)%double
  | qty_int n => n >? 0
  end.


End Sizing.

(** * Vocabulary of the statements *)

(** The state after [k] more calls of [get_account]. *)
Definition called (k : nat) (st : State) : State :=
  set_api_calls (fun n => (k + n)%nat) st.

(** The buy order of lines 221-235. *)
Definition buy_order (market_open : Z) (data : bar) (now : Z)
    (shares : quantity) : order :=
  if negb (morning_rush market_open now)
  then Order buy shares limit (Some (Float.max (close data) (vwap data)))
  else Order buy shares market None.

(** The dictionaries once stop and target have been stored. *)
Definition priced (symbol : string) (data : bar) (anchor : float)
    (st : State) : State :=
  set_stop_prices <[symbol := (close data * fin 0.96)%float]>
    (set_target_prices <[symbol := (anchor * fin 1.12)%float]> st).

(** The dictionaries once the buy has been decided. *)
Definition bought (symbol : string) (data : bar)
    (macd macd_signal : list float) (reason : list string) (st : State)
    : State :=
  set_buy_indicators
    <[symbol := BuyIndicator (tail_slice macd 5) (tail_slice macd_signal 5)
                  (vwap data) (average data) reason]>
    (set_whipsawed <[symbol := false]> st).

(** [m] evaluates to [x] in [st] and leaves [st] as it is. *)
Definition reads {A} (m : M A) (st : State) (x : A) : Prop :=
  m st = (Ok x, st).

(** The series the buy branch hands to [MACD]. *)
Definition close_5min (minute_history : list bar) : list float :=
  values (dropna (resample_5min_last
                    (between_time (dropna (close_column minute_history))))).

(** The series both branches hand to [RSI]. *)
Definition session_close (minute_history : list bar) : list float :=
  values (between_time (dropna (close_column minute_history))).

(** The trend test of lines 125-137 on the five readings it compares. *)
Definition rising (m1 m2 m3 s1 s2 : float) : bool :=
  (m1 >? m2)%float && (m2 >? m3)%float
  && ((m1 >? s1)%float && (s1 >? s2)%float)
  && (m2 >? s2)%float.



(** The dictionaries once a five-minute cool-down has been set. *)
Definition cooled (symbol : string) (now : Z) (st : State) : State :=
  set_cool_down <[symbol := Some (truncate_to_minute now + minutes 5)]> st.

(** The six sell conditions, in the order of the specification. *)
Inductive exit_rule : Type :=
| StopHit
| TargetHit
| Overbought
| BailOut
| ScaleOut
| WhipsawBail.

Definition priority : list exit_rule :=
  [StopHit; TargetHit; Overbought; BailOut; ScaleOut; WhipsawBail].

(** The numbers and flags the conditions are about. *)
Record exit_readings : Type := ExitReadings {
  x_close : float;
  x_vwap : float;
  x_cost_basis : float;
  x_scalp_basis : float;
  x_target : float;
  x_stop : float;
  x_max_close : float;
  x_macd : float;
  x_macd_prev : float;
  x_signal : float;
  x_rsi : float;
  x_whipsawed : bool;
  x_morning_rush : bool
}.

Definition movement (x : exit_readings) : float :=
  ((x_close x - x_scalp_basis x) / x_scalp_basis x)%float.

Definition max_movement (x : exit_readings) : float :=
  ((x_max_close x - x_scalp_basis x) / x_scalp_basis x)%float.

Definition scalp_threshold (x : exit_readings) : float :=
  ((x_target x + x_scalp_basis x) / fin 2)%float.

Definition falling (x : exit_readings) : bool :=
  let precision := round_factor (x_macd x) (x_signal x) in
  (Float.round (x_macd x) precision
     <? Float.round (x_macd_prev x) precision)%float.

(** Each condition as section 4.3 of the specification states it. *)
Definition holds (x : exit_readings) (r : exit_rule) : bool :=
  match r with
  | StopHit => (x_close x <=? x_stop x)%float
  | TargetHit =>
      (x_close x >=? x_target x)%float && (x_macd x <=? fin 0)%float
  | Overbought =>
      (x_rsi x >=? (if x_morning_rush x then fin 85 else fin 79))%float
  | BailOut =>
      ((x_scalp_basis x >? x_cost_basis x)%float
       || ((max_movement x >? fin 0.02)%float
           && (max_movement x >? movement x)%float))
      && macd_below_signal (x_macd x) (x_signal x)
      && falling x
  | ScaleOut =>
      (movement x >? fin 0.04)%float
      || (x_vwap x >? scalp_threshold x)%float
  | WhipsawBail =>
      x_whipsawed x
      && (movement x >? fin 0.01)%float
      && macd_below_signal (x_macd x) (x_signal x)
      && falling x
  end.

(** The order each condition calls for. *)
Definition action (position : Z) (x : exit_readings) (r : exit_rule) : order :=
  match r with
  | StopHit | TargetHit | Overbought | BailOut =>
      Order sell (qty_int position) market None
  | ScaleOut =>
      Order sell (qty_int (if position >? 1 then Z.quot position 2 else 1))
        limit (Some (x_close x))
  | WhipsawBail =>
      Order sell (qty_int position) limit (Some (x_close x))
  end.

(** The first condition of the list that holds decides. *)
Definition first_match (position : Z) (x : exit_readings)
    : bool * option order :=
  match find (holds x) priority with
  | Some r => (true, Some (action position x r))
  | None => no_action
  end.

(** The series the sell branch hands to [MACD]: the session's closes, the
    last one replaced by the bar's VWAP when that is not zero. *)
Definition exit_serie (minute_history : list bar) (data : bar)
    : res (list float) :=
  let serie := values (between_time (dropna (close_column minute_history))) in
  if Float.truthy (vwap data) then set_last serie (vwap data) else Ok serie.

(** Whether the symbol counts as whipsawed once lines 243-247 have run. *)
Definition whipsawed_now (st : State) (symbol : string) (data : bar)
    (cost_basis : float) : bool :=
  default false (whipsawed st !! symbol)
  || (close data <? cost_basis * fin 0.99)%float.

(** The readings of one evaluation. *)
Definition readings_of (market_open : Z) (st : State) (symbol : string)
    (minute_history : list bar) (data : bar) (now : Z)
    (cost_basis scalp_basis target stop m1 m2 s1 r1 : float) (bought_at : Z)
    : exit_readings :=
  ExitReadings (close data) (vwap data) cost_basis scalp_basis target stop
    (series_max (since (close_column minute_history) bought_at))
    m1 m2 s1 r1
    (whipsawed_now st symbol data cost_basis)
    (morning_rush market_open now).

(** The flags the cascade leaves for each rule. *)
Definition verdict_of (r : option exit_rule) : verdict :=
  match r with
  | Some StopHit => Verdict true false false ["stopped"%string]
  | Some TargetHit =>
      Verdict true false false ["above target & macd negative"%string]
  | Some Overbought =>
      Verdict true false false ["rsi max, cool-down for 5 minutes"%string]
  | Some BailOut => Verdict true false false ["bail"%string]
  | Some ScaleOut => Verdict true true false ["scale-out"%string]
  | Some WhipsawBail => Verdict true false true ["bail post whipsawed"%string]
  | None => Verdict false false false []
  end.

(** The guard of the sell branch, lines 236-242. *)
Definition sell_preconditions (is_sell_time : Z -> bool) (st : State)
    (symbol : string) (position : Z) (now : Z) : Prop :=
  is_sell_time now = true
  /\ 0 < position
  /\ is_Some (latest_cost_basis st !! symbol)
  /\ last_used_strategy st !! symbol = Some name
  /\ get_truthy (fun _ : Z => true) (open_orders st) symbol = false.


(** An assumption on the indicator library, which is not part of the
    source: TA-Lib returns series as long as its input. *)
Definition same_length
    (MACD : list float -> Z -> Z -> list float * list float * list float)
    (RSI : list float -> Z -> list float) : Prop :=
  (forall xs : list float,
     length (fst (fst (MACD xs 13 21))) = length xs
     /\ length (snd (fst (MACD xs 13 21))) = length xs)
  /\ (forall xs : list float, length (RSI xs 14) = length xs).

(** The entries the sell branch subscripts besides the cost basis. *)
Definition store_complete (st : State) (symbol : string) : Prop :=
  is_Some (latest_scalp_basis st !! symbol)
  /\ is_Some (buy_time st !! symbol)
  /\ is_Some (target_prices st !! symbol)
  /\ is_Some (stop_prices st !! symbol).

(** The precision as the specification words it: two decimals when either
    number is at least 0.1 in magnitude. *)
Definition round_factor_by_magnitude (macd_val macd_signal_val : float) : Z :=
  if (Float.abs macd_val >=? fin 0.1)%float
     || (Float.abs macd_signal_val >=? fin 0.1)%float
  then 2 else 3.

(** [round(q, ndigits)] as a rational. *)
Definition rounded (q : Q) (ndigits : Z) : Q :=
  inject_Z (Float.round_half_even (q * Qpower 10 ndigits)) / Qpower 10 ndigits.

(** The trend test as the specification words it: three consecutive
    non-decreasing readings, the latest above its signal, the signal
    rising, the prior reading above the prior signal. *)
Definition rising_or_level (m1 m2 m3 s1 s2 : float) : bool :=
  (m1 >=? m2)%float && (m2 >=? m3)%float
  && ((m1 >? s1)%float && (s1 >? s2)%float)
  && (m2 >? s2)%float.

(** ** Outcomes of a computation *)

(** From a state in which [P] holds, [m] returns a value and a state
    related by [Q], or raises an exception in a state related by [E]. *)
Definition triple {A} (P : State -> Prop) (m : M A)
    (Q : A -> State -> Prop) (E : exn -> State -> Prop) : Prop :=
  forall st, P st ->
    match m st with
    | (Ok a, st') => Q a st'
    | (Raise e, st') => E e st'
    end.

(** [I] holds after [m], returned or raised, whenever it held before. *)
Definition inv {A} (I : State -> Prop) (m : M A) : Prop :=
  triple I m (fun _ => I) (fun _ => I).

(** What the sell branch writes: the symbol's whipsaw flag, cool-down and
    sell audit record. *)
Definition survives_exit (symbol : string) (I : State -> Prop) : Prop :=
  (forall st, I st -> I (set_whipsawed <[symbol := true]> st))
  /\ (forall st t, I st -> I (set_cool_down <[symbol := Some t]> st))
  /\ (forall st r, I st -> I (set_sell_indicators <[symbol := r]> st)).

(** What the buy branch writes before it turns to the portfolio value: the
    symbol's anchor, cool-down, target and stop. *)
Definition survives_entry (symbol : string) (I : State -> Prop) : Prop :=
  (forall st a, I st -> I (set_down_cross <[symbol := a]> st))
  /\ (forall st t, I st -> I (set_cool_down <[symbol := Some t]> st))
  /\ (forall st x, I st -> I (set_target_prices <[symbol := x]> st))
  /\ (forall st x, I st -> I (set_stop_prices <[symbol := x]> st)).

(** What the buy branch writes once it has the portfolio value: the
    symbol's whipsaw flag and buy audit record. *)
Definition survives_order (symbol : string) (I : State -> Prop) : Prop :=
  (forall st, I st -> I (set_whipsawed <[symbol := false]> st))
  /\ (forall st r, I st -> I (set_buy_indicators <[symbol := r]> st)).

(** What a call of the broker writes. *)
Definition survives_call (I : State -> Prop) : Prop :=
  forall st, I st -> I (set_api_calls S st).

(** What the cool-down check writes. *)
Definition survives_guard (symbol : string) (I : State -> Prop) : Prop :=
  forall st, I st -> I (set_cool_down <[symbol := None]> st).

(** Every value [m] returns satisfies [Q]. *)
Definition yields {A} (m : M A) (Q : A -> Prop) : Prop :=
  triple (fun _ => True) m (fun a _ => Q a) (fun _ _ => True).

(** An order is at market with no price, or a limit order at [price]. *)
Definition priced_at (price : float) (o : order) : Prop :=
  (o_type o = market /\ o_limit_price o = None)
  \/ (o_type o = limit /\ o_limit_price o = Some price).

(** A sell of between one share and the whole position, at market or at a
    limit of the bar's close. *)
Definition sell_shaped (position : Z) (data : bar) (o : order) : Prop :=
  o_side o = sell
  /\ (exists n, o_qty o = qty_int n /\ 1 <= n <= position)
  /\ priced_at (close data) o.

(** A buy of a positive quantity, at market or at a limit of the larger of
    the bar's close and VWAP. *)
Definition buy_shaped (data : bar) (o : order) : Prop :=
  o_side o = buy
  /\ positive (o_qty o) = true
  /\ priced_at (Float.max (close data) (vwap data)) o.

(** What [run] may return with [position] shares held. *)
Definition well_formed (position : Z) (data : bar)
    (d : bool * option order) : Prop :=
  d = no_action
  \/ exists o, d = (true, Some o)
               /\ ((position = 0 /\ buy_shaped data o)
                   \/ (0 < position /\ sell_shaped position data o)).

(** The label each rule records as the reason of the sale. *)
Definition label (r : exit_rule) : string :=
  match r with
  | StopHit => "stopped"
  | TargetHit => "above target & macd negative"
  | Overbought => "rsi max, cool-down for 5 minutes"
  | BailOut => "bail"
  | ScaleOut => "scale-out"
  | WhipsawBail => "bail post whipsawed"
  end.

(** The dictionaries after the sell branch: the whipsaw flag is raised
    when the close is more than 1% below the cost basis; a sale leaves an
    audit record; the overbought sale also starts a cool-down. *)
Definition exit_state (symbol : string) (data : bar) (now : Z)
    (rsi macd macd_signal : list float) (x : exit_readings) (st : State)
    : State :=
  let st1 :=
    if negb (default false (whipsawed st !! symbol))
       && (close data <? x_cost_basis x * fin 0.99)%float
    then set_whipsawed <[symbol := true]> st
    else st in
  match find (holds x) priority with
  | None => st1
  | Some r =>
      set_sell_indicators
        <[symbol := SellIndicator (tail_slice rsi 3) (movement x)
                      (tail_slice macd 5) (tail_slice macd_signal 5)
                      (vwap data) (average data) (label r)]>
        (match r with
         | Overbought => cooled symbol now st1
         | _ => st1
         end)
  end.

(** What the dictionaries hold for the symbol once a buy is decided. *)
Definition prepared (symbol : string) (data : bar) (s : State) : Prop :=
  stop_prices s !! symbol = Some (close data * fin 0.96)%float
  /\ is_Some (target_prices s !! symbol)
  /\ whipsawed s !! symbol = Some false
  /\ is_Some (buy_indicators s !! symbol).

(** ** Fixtures for the worked examples *)

Module Fixture.
(** An indicator library that answers with fixed series. *)
Definition macd_of (macd macd_signal : list float)
    : list float -> Z -> Z -> list float * list float * list float :=
  fun _ _ _ => (macd, macd_signal, []).

Definition rsi_of (rsi : list float) : list float -> Z -> list float :=
  fun _ _ => rsi.

(** An indicator library with no valid reading yet. *)
Definition macd_warming_up
    : list float -> Z -> Z -> list float * list float * list float :=
  fun xs _ _ =>
    (repeat nan (length xs), repeat nan (length xs), repeat nan (length xs)).

Definition rsi_warming_up : list float -> Z -> list float :=
  fun xs _ => repeat nan (length xs).

Definition always (b : bool) : Z -> bool := fun _ => b.

(** 09:30 of day 0, and a time of that day. *)
Definition the_open : Z := minutes 570.
Definition at_ (h m s : Z) : Z := minutes (60 * h + m) + s * 1000000.

Definition flat_bar (t : Z) (price vol : float) : bar :=
  Bar t price vol price price.

Definition empty : State :=
  mkState ∅ ∅ ∅ ∅ ∅ ∅ ∅ ∅ ∅ ∅ ∅ ∅ 0.
End Fixture.

(** ** Scenarios for the worked examples *)

Module Scenario.
(** Ten shares bought at 50 and scalped at 40, stop 47, target 44. *)
Definition held : State :=
  mkState ∅ {["AAPL"%string := fin 50]} {["AAPL"%string := fin 40]} ∅ ∅ ∅
    {["AAPL"%string := fin 47]} {["AAPL"%string := fin 44]}
    {["AAPL"%string := Fixture.at_ 10 0 0]} {["AAPL"%string := name]}
    ∅ ∅ 0.

(** No position, an anchor at 52. *)
Definition anchored : State :=
  set_down_cross <["AAPL"%string := Some (fin 52)]> Fixture.empty.

(** Two bars, 10:14 and 10:15, closing at [price] on a volume of [vol]. *)
Definition bars (price vol : float) : list bar :=
  [Fixture.flat_bar (Fixture.at_ 10 14 0) price vol;
   Fixture.flat_bar (Fixture.at_ 10 15 0) price vol].

Definition last_bar (price vol : float) : bar :=
  Fixture.flat_bar (Fixture.at_ 10 15 0) price vol.

Definition first_bar (price vol : float) : bar :=
  Fixture.flat_bar (Fixture.at_ 10 14 0) price vol.

(** An oscillator rising below zero, above a rising signal. *)
Definition rising_macd
    : list float -> Z -> Z -> list float * list float * list float :=
  Fixture.macd_of [fin (-0.5); fin (-0.4); fin (-0.3)]
    [fin (-0.7); fin (-0.6); fin (-0.5)].

(** An oscillator and a signal that do not move. *)
Definition flat_macd
    : list float -> Z -> Z -> list float * list float * list float :=
  Fixture.macd_of [fin 0.1; fin 0.2] [fin 0.1; fin 0.1].

(** [run] for AAPL at 10:15:20, buy and sell time, risk 1%. *)
Definition run_at_1015
    (MACD : list float -> Z -> Z -> list float * list float * list float)
    (rsi : list float) (position : Z) (history : list bar)
    (portfolio_value : option float) (trading_api : option (nat -> response))
    : M (bool * option order) :=
  run MACD (Fixture.rsi_of rsi) (Fixture.always true) (Fixture.always true)
    Fixture.the_open (fin 0.01) "AAPL" false position history
    (Fixture.at_ 10 15 20) portfolio_value trading_api false false.
End Scenario.

(** * Properties *)

(** ** Evaluation lemmas for the monad *)

Lemma subscript_Some {V} (dict : string) (d : State -> gmap string V)
    (key : string) (v : V) (st : State) :
  d st !! key = Some v -> subscript dict d key st = (Ok v, st).
Proof. intros H. unfold subscript. now rewrite H. Qed.

Lemma idx_Ok {A} (l : list A) (k : nat) (x : A) (st : State) :
  back l k = Ok x -> idx l k st = (Ok x, st).
Proof. intros H. unfold idx, lift. now rewrite H. Qed.

Lemma bind_Ok {A B} (m : M A) (k : A -> M B) (a : A) (st st' : State) :
  m st = (Ok a, st') -> bind m k st = k a st'.
Proof. intros H. unfold bind. now rewrite H. Qed.

(** ** Indexing from the back *)

Lemma back_length {A} (l : list A) (k : nat) :
  (1 <= k <= length l)%nat -> exists x, back l k = Ok x.
Proof.
  intros Hk. unfold back.
  destruct (nth_error (rev l) (Nat.pred k)) as [x|] eqn:E; [now exists x|].
  apply nth_error_None in E. rewrite length_rev in E. lia.
Qed.


(** ** The two guards of [run] *)

Section Guards.
Variable MACD : list float -> Z -> Z -> list float * list float * list float.
Variable RSI : list float -> Z -> list float.
Variable is_buy_time is_sell_time : Z -> bool.
Variable market_open : Z.
Variable risk : float.

Lemma should_cool_down_eval (symbol : string) (now : Z) (st : State) :
  should_cool_down symbol now st
  = if cooling (cool_down st) symbol now then (Ok true, st)
    else (Ok false, set_cool_down <[symbol := None]> st).
Proof.
  unfold should_cool_down, bind, gets. cbn.
  now destruct (cooling (cool_down st) symbol now).
Qed.

Lemma buy_guard_eval (symbol : string) (position : Z) (data : bar)
    (now : Z) (st : State) :
  buy_guard is_buy_time symbol position data now st
  = if is_buy_time now && (position =? 0)
       && negb (get_truthy (fun _ : Z => true) (open_orders st) symbol)
    then
      if cooling (cool_down st) symbol now then (Ok false, st)
      else (Ok (volume data >? fin 500)%float,
            set_cool_down <[symbol := None]> st)
    else (Ok false, st).
Proof.
  unfold buy_guard, andM, has_open_order, bind, ret, gets.
  destruct (is_buy_time now); cbn; [|reflexivity].
  destruct (position =? 0); cbn; [|reflexivity].
  destruct (get_truthy _ (open_orders st) symbol); cbn; [reflexivity|].
  rewrite should_cool_down_eval.
  destruct (cooling (cool_down st) symbol now); cbn; [reflexivity|].
  now destruct (volume data >? fin 500)%float.
Qed.

Lemma sell_guard_flat (symbol : string) (position : Z) (now : Z) (st : State) :
  position <= 0 ->
  sell_guard is_sell_time symbol position now st = (Ok false, st).
Proof.
  intros Hp. unfold sell_guard, andM, bind, ret.
  destruct (is_sell_time now); cbn; [|reflexivity].
  replace (position >? 0) with false; [reflexivity|].
  symmetry. rewrite Z.gtb_ltb. apply Z.ltb_ge. exact Hp.
Qed.

(** With a position held, the sell preconditions met and two bars of
    history, [run] is the sell branch. *)
Lemma run_sell_branch (symbol : string) (shortable : bool) (position : Z)
    (minute_history : list bar) (data prev_min : bar) (now : Z)
    (portfolio_value : option float) (trading_api : option (nat -> response))
    (debug backtesting : bool) (st : State) :
  back minute_history 1 = Ok data ->
  back minute_history 2 = Ok prev_min ->
  is_sell_time now = true ->
  0 < position ->
  is_Some (latest_cost_basis st !! symbol) ->
  last_used_strategy st !! symbol = Some name ->
  get_truthy (fun _ : Z => true) (open_orders st) symbol = false ->
  run MACD RSI is_buy_time is_sell_time market_open risk symbol shortable position
    minute_history now portfolio_value trading_api debug backtesting st
  = exit MACD RSI market_open symbol position minute_history data now st.
Proof.
  intros Hd Hp Hsell Hpos Hcb Hown Hoo. unfold run.
  rewrite (bind_Ok _ _ data st st) by now apply idx_Ok.
  rewrite (bind_Ok _ _ prev_min st st) by now apply idx_Ok.
  assert (Hz : (position =? 0) = false) by (apply Z.eqb_neq; lia).
  rewrite (bind_Ok _ _ false st st).
  2:{ rewrite buy_guard_eval, Hz, andb_false_r. reflexivity. }
  rewrite (bind_Ok _ _ true st st); [reflexivity|].
  unfold sell_guard, andM, has_open_order, bind, ret, gets, subscript.
  rewrite Hsell. cbn.
  replace (position >? 0) with true by (symmetry; apply Z.gtb_lt; lia).
  rewrite bool_decide_eq_true_2 by exact Hcb.
  rewrite Hown, String.eqb_refl, Hoo. reflexivity.
Qed.

(** With no position and two bars of history, [run] either stops at the
    buy guard or is the buy branch; the cool-down entry is cleared when
    the guard gets as far as [should_cool_down] and finds it expired. *)
Lemma run_flat (symbol : string) (shortable : bool)
    (minute_history : list bar) (data prev_min : bar) (now : Z)
    (portfolio_value : option float) (trading_api : option (nat -> response))
    (debug backtesting : bool) (st : State) :
  back minute_history 1 = Ok data ->
  back minute_history 2 = Ok prev_min ->
  run MACD RSI is_buy_time is_sell_time market_open risk symbol shortable 0
    minute_history now portfolio_value trading_api debug backtesting st
  = if is_buy_time now
       && negb (get_truthy (fun _ : Z => true) (open_orders st) symbol)
    then
      if cooling (cool_down st) symbol now then (Ok no_action, st)
      else
        let st' := set_cool_down <[symbol := None]> st in
        if (volume data >? fin 500)%float
        then entry MACD RSI market_open risk symbol 0 minute_history data now
               portfolio_value trading_api st'
        else (Ok no_action, st')
    else (Ok no_action, st).
Proof.
  intros Hd Hp. unfold run.
  rewrite (bind_Ok _ _ data st st) by now apply idx_Ok.
  rewrite (bind_Ok _ _ prev_min st st) by now apply idx_Ok.
  unfold bind at 1. rewrite buy_guard_eval. cbn [Z.eqb andb].
  rewrite andb_true_r.
  destruct (is_buy_time now && negb _) eqn:G.
  - destruct (cooling (cool_down st) symbol now).
    + rewrite (bind_Ok _ _ false st st); [reflexivity|].
      now apply sell_guard_flat.
    + cbn zeta. destruct (volume data >? fin 500)%float; [reflexivity|].
      rewrite (bind_Ok _ _ false _ _
                 (sell_guard_flat symbol 0 now _ (Z.le_refl 0))).
      reflexivity.
  - rewrite (bind_Ok _ _ false st st); [reflexivity|].
    now apply sell_guard_flat.
Qed.
End Guards.

(** ** Cool-down *)

(** C6.  [should_cool_down] answers [True] and leaves the dictionary as it is
    when the symbol's entry is set and not before the current minute; in
    that case [run], called with no position, returns no action and changes
    nothing.  Otherwise (no entry, [None], or a time before the current
    minute) it answers [False] and stores [None] for the symbol, and [run]
    goes on into the buy branch; asking again with the same [now] answers
    [False] again. *)
Theorem cool_down_is_one_shot
    (MACD : list float -> Z -> Z -> list float * list float * list float)
    (RSI : list float -> Z -> list float) (is_buy_time is_sell_time : Z -> bool)
    (market_open : Z) (risk : float) (symbol : string) (shortable : bool)
    (minute_history : list bar) (data prev_min : bar) (now : Z)
    (portfolio_value : option float) (trading_api : option (nat -> response))
    (debug backtesting : bool) (st : State) (entry_ : option (option Z)) :
  back minute_history 1 = Ok data ->
  back minute_history 2 = Ok prev_min ->
  is_buy_time now = true ->
  get_truthy (fun _ : Z => true) (open_orders st) symbol = false ->
  (volume data >? fin 500)%float = true ->
  cool_down st !! symbol = entry_ ->
  let cleared := set_cool_down <[symbol := None]> st in
  let suppressed :=
    should_cool_down symbol now st = (Ok true, st)
    /\ run MACD RSI is_buy_time is_sell_time market_open risk symbol shortable 0
         minute_history now portfolio_value trading_api debug backtesting st
       = (Ok no_action, st) in
  let consumed :=
    should_cool_down symbol now st = (Ok false, cleared)
    /\ cool_down cleared !! symbol = Some None
    /\ run MACD RSI is_buy_time is_sell_time market_open risk symbol shortable 0
         minute_history now portfolio_value trading_api debug backtesting st
       = entry MACD RSI market_open risk symbol 0 minute_history data now
           portfolio_value trading_api cleared
    /\ should_cool_down symbol now cleared = (Ok false, cleared) in
  match entry_ with
  | Some (Some until) =>
      if truncate_to_minute now <=? until then suppressed else consumed
  | Some None | None => consumed
  end.
Proof.
  intros Hd Hp Hbuy Hoo Hvol Hcd cleared suppressed consumed.
  assert (Hrun := run_flat MACD RSI is_buy_time is_sell_time market_open risk
                    symbol shortable minute_history data prev_min now
                    portfolio_value trading_api debug backtesting st Hd Hp).
  rewrite Hbuy, Hoo, Hvol in Hrun. cbn [andb negb] in Hrun.
  assert (Hcleared : cool_down cleared !! symbol = Some None).
  { unfold cleared. cbn. apply lookup_insert_eq. }
  assert (Hagain : should_cool_down symbol now cleared = (Ok false, cleared)).
  { rewrite should_cool_down_eval. unfold cooling. rewrite Hcleared.
    f_equal. unfold cleared, set_cool_down. cbn. f_equal.
    apply insert_insert_eq. }
  assert (Hconsumed : cooling (cool_down st) symbol now = false -> consumed).
  { intros Hc. unfold consumed.
    rewrite should_cool_down_eval, Hrun, Hc. auto. }
  assert (Hsuppressed : cooling (cool_down st) symbol now = true -> suppressed).
  { intros Hc. unfold suppressed.
    rewrite should_cool_down_eval, Hrun, Hc. auto. }
  unfold cooling in Hconsumed, Hsuppressed. rewrite Hcd in *.
  destruct entry_ as [[until|]|]; auto.
  destruct (truncate_to_minute now <=? until); auto.
Qed.

(** An entry that expired five minutes ago is consumed by the first call. *)
Lemma cool_down_is_one_shot_witness :
  let st := set_cool_down <["AAPL"%string := Some (Fixture.at_ 9 40 0)]>
              Fixture.empty in
  let now := Fixture.at_ 9 45 30 in
  let history := [Fixture.flat_bar (Fixture.at_ 9 44 0) (fin 10) (fin 1000);
                  Fixture.flat_bar (Fixture.at_ 9 45 0) (fin 10) (fin 1000)] in
  let cleared := set_cool_down <["AAPL"%string := None]> st in
  should_cool_down "AAPL" now st = (Ok false, cleared)
  /\ cool_down cleared !! "AAPL"%string = Some None
  /\ run Fixture.macd_warming_up Fixture.rsi_warming_up (Fixture.always true)
       (Fixture.always true) Fixture.the_open (fin 0.01) "AAPL" false 0
       history now None None false false st
     = entry Fixture.macd_warming_up Fixture.rsi_warming_up Fixture.the_open
         (fin 0.01) "AAPL" 0 history
         (Fixture.flat_bar (Fixture.at_ 9 45 0) (fin 10) (fin 1000)) now
         None None cleared
  /\ should_cool_down "AAPL" now cleared = (Ok false, cleared).
Proof.
  intros st now history cleared.
  exact (cool_down_is_one_shot Fixture.macd_warming_up Fixture.rsi_warming_up
           (Fixture.always true) (Fixture.always true) Fixture.the_open
           (fin 0.01) "AAPL" false history
           (Fixture.flat_bar (Fixture.at_ 9 45 0) (fin 10) (fin 1000))
           (Fixture.flat_bar (Fixture.at_ 9 44 0) (fin 10) (fin 1000))
           now None None false false st (Some (Some (Fixture.at_ 9 40 0)))
           eq_refl eq_refl eq_refl eq_refl eq_refl eq_refl).
Defined.

(** ** Fetching the portfolio value *)

Lemma called_0 (st : State) : called 0 st = st.
Proof. now destruct st. Qed.

Lemma called_called (j k : nat) (st : State) :
  called j (called k st) = called (j + k) st.
Proof. unfold called, set_api_calls. cbn. f_equal. lia. Qed.

Lemma api_calls_called (k : nat) (st : State) :
  api_calls (called k st) = (k + api_calls st)%nat.
Proof. reflexivity. Qed.

Lemma get_account_eval (api : nat -> response) (st : State) :
  get_account api st
  = (match api (api_calls st) with
     | account v => Ok v
     | fails e => Raise e
     end, called 1 st).
Proof.
  unfold get_account, bind, gets, modify. cbn.
  now destruct (api (api_calls st)).
Qed.

(** One turn of the loop: a value ends it, a connection error goes round
    again with one attempt fewer, any other exception leaves the loop and
    [run]. *)
Lemma fetch_portfolio_value_step (api : nat -> response) (retry : nat)
    (st : State) :
  fetch_portfolio_value api (S retry) st
  = match api (api_calls st) with
    | account v => (Ok (Some v), called 1 st)
    | fails ConnectionError => fetch_portfolio_value api retry (called 1 st)
    | fails e => (Raise e, called 1 st)
    end.
Proof.
  cbn [fetch_portfolio_value]. unfold except_ConnectionError, bind.
  rewrite get_account_eval.
  destruct (api (api_calls st)) as [v|[]]; reflexivity.
Qed.

(** The loop calls the broker at most [retry] times and touches nothing but
    the call counter. *)
Lemma fetch_portfolio_value_calls (api : nat -> response) (retry : nat)
    (st : State) :
  exists k, (k <= retry)%nat
            /\ snd (fetch_portfolio_value api retry st) = called k st.
Proof.
  revert st. induction retry as [|retry IH]; intros st.
  - exists 0%nat. split; [lia|]. cbn. now rewrite called_0.
  - rewrite fetch_portfolio_value_step.
    destruct (api (api_calls st)) as [v|e].
    + exists 1%nat. split; [lia|reflexivity].
    + destruct e; try (exists 1%nat; split; [lia|reflexivity]).
      destruct (IH (called 1 st)) as (k & Hk & E).
      exists (k + 1)%nat. split; [lia|]. rewrite E.
      apply called_called.
Qed.

Lemma obtain_portfolio_value_calls (portfolio_value : option float)
    (trading_api : option (nat -> response)) (st : State) :
  exists k, (k <= 3)%nat
            /\ snd (obtain_portfolio_value portfolio_value trading_api st)
               = called k st.
Proof.
  unfold obtain_portfolio_value.
  destruct portfolio_value as [v|].
  { exists 0%nat. split; [lia|]. now rewrite called_0. }
  destruct trading_api as [api|].
  2:{ exists 0%nat. split; [lia|]. now rewrite called_0. }
  destruct (fetch_portfolio_value_calls api 3 st) as (k & Hk & E).
  exists k. split; [exact Hk|]. unfold bind.
  destruct (fetch_portfolio_value api 3 st) as [[[v|]|e] st'];
    cbn [snd] in *; try exact E.
  destruct (Float.truthy v); exact E.
Qed.

(** ** Pricing and sizing *)

Section Buying.
Variable market_open : Z.
Variable risk : float.

(** [size_and_buy] with a usable anchor: stop and target are stored first;
    what follows depends on how the portfolio value was obtained. *)
Lemma size_and_buy_eval (symbol : string) (position : Z) (data : bar)
    (now : Z) (portfolio_value : option float)
    (trading_api : option (nat -> response)) (macd macd_signal : list float)
    (reason : list string) (anchor : float) (st : State) :
  down_cross st !! symbol = Some (Some anchor) ->
  size_and_buy market_open risk symbol position data now portfolio_value
    trading_api macd macd_signal reason st
  = match obtain_portfolio_value portfolio_value trading_api
            (priced symbol data anchor st) with
    | (Ok (Some pv), st') =>
        let shares :=
          shares_to_buy risk pv (close data) (close data * fin 0.96)%float
            position in
        if positive shares
        then (Ok (true, Some (buy_order market_open data now shares)),
              bought symbol data macd macd_signal reason st')
        else (Ok no_action, st')
    | (Ok None, st') => (Ok no_action, st')
    | (Raise e, st') => (Raise e, st')
    end.
Proof.
  intros Hdc. unfold size_and_buy, down_cross_price.
  rewrite (bind_Ok _ _ anchor st st).
  2:{ rewrite (bind_Ok _ _ (Some anchor) st st); [reflexivity|].
      now apply subscript_Some. }
  unfold bind at 1. cbn [modify]. unfold bind at 1. cbn [modify].
  fold (priced symbol data anchor st).
  destruct (obtain_portfolio_value_calls portfolio_value trading_api
              (priced symbol data anchor st)) as (k & _ & E).
  unfold bind at 1.
  destruct (obtain_portfolio_value portfolio_value trading_api
              (priced symbol data anchor st)) as [[[pv|]|e] st'];
    try reflexivity.
  cbn [snd] in E. subst st'.
  erewrite bind_Ok.
  2:{ apply subscript_Some. cbn. apply lookup_insert_eq. }
  cbv zeta.
  destruct (positive _); reflexivity.
Qed.

(** Stop and target as stored survive whatever the rest of [size_and_buy]
    does. *)
Lemma size_and_buy_stores (symbol : string) (position : Z) (data : bar)
    (now : Z) (portfolio_value : option float)
    (trading_api : option (nat -> response)) (macd macd_signal : list float)
    (reason : list string) (anchor : float) (st : State) :
  down_cross st !! symbol = Some (Some anchor) ->
  let st' := snd (size_and_buy market_open risk symbol position data now
                    portfolio_value trading_api macd macd_signal reason st) in
  stop_prices st' !! symbol = Some (close data * fin 0.96)%float
  /\ target_prices st' !! symbol = Some (anchor * fin 1.12)%float.
Proof.
  intros Hdc. cbv zeta.
  rewrite (size_and_buy_eval _ _ _ _ _ _ _ _ _ anchor st Hdc).
  destruct (obtain_portfolio_value_calls portfolio_value trading_api
              (priced symbol data anchor st)) as (k & _ & E).
  destruct (obtain_portfolio_value portfolio_value trading_api
              (priced symbol data anchor st)) as [[[pv|]|e] st'];
    cbn [snd] in E; subst st'.
  - cbv zeta. destruct (positive _); cbn; split; apply lookup_insert_eq.
  - cbn; split; apply lookup_insert_eq.
  - cbn; split; apply lookup_insert_eq.
Qed.
End Buying.

(** What [obtain_portfolio_value] does with no value supplied, spelled out
    on the broker's next three responses. *)
Lemma obtain_portfolio_value_fetch (api : nat -> response) (st : State) :
  let n := api_calls st in
  let value (v : float) (k : nat) : res (option float) * State :=
    (Ok (if Float.truthy v then Some v else None), called k st) in
  obtain_portfolio_value None (Some api) st
  = match api n with
    | account v => value v 1%nat
    | fails ConnectionError =>
        match api (S n) with
        | account v => value v 2%nat
        | fails ConnectionError =>
            match api (S (S n)) with
            | account v => value v 3%nat
            | fails ConnectionError => (Ok None, called 3 st)
            | fails e => (Raise e, called 3 st)
            end
        | fails e => (Raise e, called 2 st)
        end
    | fails e => (Raise e, called 1 st)
    end.
Proof.
  cbv zeta. unfold obtain_portfolio_value, bind.
  rewrite fetch_portfolio_value_step.
  destruct (api (api_calls st)) as [v|e].
  { now destruct (Float.truthy v). }
  destruct e; try reflexivity.
  rewrite fetch_portfolio_value_step, api_calls_called. cbn [Nat.add].
  destruct (api (S (api_calls st))) as [v|e].
  { rewrite called_called. now destruct (Float.truthy v). }
  destruct e; rewrite ?called_called; try reflexivity.
  rewrite fetch_portfolio_value_step, api_calls_called. cbn [Nat.add].
  destruct (api (S (S (api_calls st)))) as [v|e].
  { rewrite !called_called. now destruct (Float.truthy v). }
  destruct e; rewrite ?called_called; reflexivity.
Qed.

(** C8.  In the buy path with no portfolio value supplied, the broker is
    asked at most three times; a further attempt is made only after a
    [ConnectionError], a value or any other exception ends the loop at once;
    after three connection errors the evaluation returns no action and
    raises nothing; with neither a value nor a broker it raises the
    configuration error. *)
Theorem portfolio_value_fetch_is_bounded
    (market_open : Z) (risk : float) (symbol : string) (position : Z)
    (data : bar) (now : Z) (macd macd_signal : list float)
    (reason : list string) (anchor : float) (api : nat -> response)
    (st : State) :
  down_cross st !! symbol = Some (Some anchor) ->
  let n := api_calls st in
  let evaluation (trading_api : option (nat -> response)) :=
    size_and_buy market_open risk symbol position data now None trading_api
      macd macd_signal reason st in
  let value (v : float) (k : nat) : res (option float) * State :=
    (Ok (if Float.truthy v then Some v else None), called k st) in
  (exists k, (k <= 3)%nat
             /\ api_calls (snd (evaluation (Some api))) = (k + n)%nat)
  /\ obtain_portfolio_value None (Some api) st
     = match api n with
       | account v => value v 1%nat
       | fails ConnectionError =>
           match api (S n) with
           | account v => value v 2%nat
           | fails ConnectionError =>
               match api (S (S n)) with
               | account v => value v 3%nat
               | fails ConnectionError => (Ok None, called 3 st)
               | fails e => (Raise e, called 3 st)
               end
           | fails e => (Raise e, called 2 st)
           end
       | fails e => (Raise e, called 1 st)
       end
  /\ (api n = fails ConnectionError ->
      api (S n) = fails ConnectionError ->
      api (S (S n)) = fails ConnectionError ->
      fst (evaluation (Some api)) = Ok no_action
      /\ api_calls (snd (evaluation (Some api))) = (3 + n)%nat)
  /\ fst (evaluation None)
     = Raise (Exception
         "momentum_long_v5: both portfolio_value and trading_api can't be None").
Proof.
  intros Hdc n evaluation value.
  split; [|split; [|split]].
  - unfold evaluation.
    rewrite (size_and_buy_eval _ _ _ _ _ _ _ _ _ _ _ anchor st Hdc).
    destruct (obtain_portfolio_value_calls None (Some api)
                (priced symbol data anchor st)) as (k & Hk & E).
    exists k. split; [exact Hk|].
    destruct (obtain_portfolio_value None (Some api)
                (priced symbol data anchor st)) as [[[pv|]|e] st'];
      cbn [snd] in E; subst st'; try reflexivity.
    cbv zeta. destruct (positive _); reflexivity.
  - apply obtain_portfolio_value_fetch.
  - intros H1 H2 H3. unfold evaluation.
    rewrite (size_and_buy_eval _ _ _ _ _ _ _ _ _ _ _ anchor st Hdc).
    rewrite obtain_portfolio_value_fetch.
    change (api_calls (priced symbol data anchor st)) with n.
    rewrite H1, H2, H3. split; reflexivity.
  - unfold evaluation.
    rewrite (size_and_buy_eval _ _ _ _ _ _ _ _ _ _ _ anchor st Hdc).
    reflexivity.
Qed.

(** ** Conditions that only read *)

Lemma reads_ret {A} (x : A) (st : State) : reads (ret x) st x.
Proof. reflexivity. Qed.

Lemma reads_eq {A} (m : M A) (st : State) (x y : A) :
  reads m st x -> x = y -> reads m st y.
Proof. now intros H <-. Qed.

Lemma reads_idx {A} (l : list A) (k : nat) (x : A) (st : State) :
  back l k = Ok x -> reads (idx l k) st x.
Proof. apply idx_Ok. Qed.

Lemma reads_bind {A B} (m : M A) (k : A -> M B) (st : State) (x : A) (y : B) :
  reads m st x -> reads (k x) st y -> reads (bind m k) st y.
Proof. unfold reads. intros Hm Hk. now rewrite (bind_Ok _ _ _ _ _ Hm). Qed.

Lemma reads_cmp (a b : M float) (r : float -> float -> bool) (st : State)
    (x y : float) :
  reads a st x -> reads b st y -> reads (cmp a r b) st (r x y).
Proof.
  intros Ha Hb. unfold cmp.
  apply (reads_bind _ _ _ x); [exact Ha|].
  apply (reads_bind _ _ _ y); [exact Hb|apply reads_ret].
Qed.

Lemma reads_chain (a b c : M float) (r1 r2 : float -> float -> bool)
    (st : State) (x y z : float) :
  reads a st x -> reads b st y -> (r1 x y = true -> reads c st z) ->
  reads (chain a r1 b r2 c) st (r1 x y && r2 y z).
Proof.
  intros Ha Hb Hc. unfold chain.
  apply (reads_bind _ _ _ x); [exact Ha|].
  apply (reads_bind _ _ _ y); [exact Hb|].
  destruct (r1 x y); [|apply reads_ret].
  apply (reads_bind _ _ _ z); [now apply Hc|apply reads_ret].
Qed.

Lemma reads_andM (a b : M bool) (st : State) (x y : bool) :
  reads a st x -> (x = true -> reads b st y) -> reads (a &&& b) st (x && y).
Proof.
  intros Ha Hb. unfold andM.
  apply (reads_bind _ _ _ x); [exact Ha|].
  destruct x; [now apply Hb|apply reads_ret].
Qed.

Lemma reads_down_cross_set (symbol : string) (st : State) :
  reads (down_cross_set symbol) st
    (get_truthy Float.truthy (down_cross st) symbol).
Proof. reflexivity. Qed.

Lemma reads_down_cross_price (symbol : string) (st : State) (anchor : float) :
  down_cross st !! symbol = Some (Some anchor) ->
  reads (down_cross_price symbol) st anchor.
Proof.
  intros H. unfold down_cross_price.
  apply (reads_bind _ _ _ (Some anchor)); [|apply reads_ret].
  now apply subscript_Some.
Qed.

Lemma reads_subscript {V} (dict : string) (d : State -> gmap string V)
    (key : string) (v : V) (st : State) :
  d st !! key = Some v -> reads (subscript dict d key) st v.
Proof. apply subscript_Some. Qed.

(** ** The buy branch *)

Section Entry.
Variable MACD : list float -> Z -> Z -> list float * list float * list float.
Variable RSI : list float -> Z -> list float.
Variable market_open : Z.
Variable risk : float.

Lemma reads_trend_up (symbol : string) (macd macd_signal : list float)
    (m1 m2 m3 s1 s2 : float) (st : State) :
  back macd 1 = Ok m1 -> back macd 2 = Ok m2 -> back macd 3 = Ok m3 ->
  back macd_signal 1 = Ok s1 -> back macd_signal 2 = Ok s2 ->
  reads (trend_up symbol macd macd_signal) st
    (get_truthy Float.truthy (down_cross st) symbol
     && ((m1 >? m2)%float && (m2 >? m3)%float)
     && ((m1 >? s1)%float && (s1 >? s2)%float)
     && (m2 >? s2)%float).
Proof.
  intros H1 H2 H3 G1 G2. unfold trend_up.
  repeat apply reads_andM; intros;
    try apply reads_chain; try apply reads_cmp; intros;
    try (apply reads_idx; eassumption).
  apply reads_down_cross_set.
Qed.

(** With an anchor stored, [to_buy] is the trend test together with the
    close being below the anchor. *)
Lemma reads_to_buy (symbol : string) (data : bar)
    (macd macd_signal : list float) (m1 m2 m3 s1 s2 anchor : float)
    (st : State) :
  back macd 1 = Ok m1 -> back macd 2 = Ok m2 -> back macd 3 = Ok m3 ->
  back macd_signal 1 = Ok s1 -> back macd_signal 2 = Ok s2 ->
  down_cross st !! symbol = Some (Some anchor) ->
  reads (to_buy symbol data macd macd_signal) st
    (Float.truthy anchor && rising m1 m2 m3 s1 s2
     && (close data <? anchor)%float).
Proof.
  intros H1 H2 H3 G1 G2 Hdc. unfold to_buy.
  eapply reads_bind; [now apply (reads_trend_up _ _ _ m1 m2 m3 s1 s2)|].
  unfold get_truthy. rewrite Hdc.
  replace (Float.truthy anchor && ((m1 >? m2)%float && (m2 >? m3)%float)
           && ((m1 >? s1)%float && (s1 >? s2)%float) && (m2 >? s2)%float)
    with (Float.truthy anchor && rising m1 m2 m3 s1 s2)
    by (unfold rising; now rewrite !andb_assoc).
  destruct (Float.truthy anchor && rising m1 m2 m3 s1 s2); cbn [andb].
  - apply reads_cmp; [apply reads_ret|now apply reads_down_cross_price].
  - apply reads_ret.
Qed.

(** The buy branch with an anchor set and enough readings to compare: a
    latest reading at or above zero resets the anchor; otherwise the trend
    test decides between the risk gate and no action. *)
Lemma entry_anchored (symbol : string) (position : Z)
    (minute_history : list bar) (data : bar) (now : Z)
    (portfolio_value : option float) (trading_api : option (nat -> response))
    (macd macd_signal hist : list float) (m1 m2 m3 s1 s2 anchor : float)
    (st : State) :
  MACD (close_5min minute_history) 13 21 = (macd, macd_signal, hist) ->
  back macd 1 = Ok m1 -> back macd 2 = Ok m2 -> back macd 3 = Ok m3 ->
  back macd_signal 1 = Ok s1 -> back macd_signal 2 = Ok s2 ->
  down_cross st !! symbol = Some (Some anchor) ->
  Float.truthy anchor = true ->
  entry MACD RSI market_open risk symbol position minute_history data now
    portfolio_value trading_api st
  = if (m1 >=? fin 0)%float
    then (Ok no_action, set_down_cross <[symbol := None]> st)
    else if rising m1 m2 m3 s1 s2 && (close data <? anchor)%float
         then risk_gate RSI market_open risk symbol position data
                (session_close minute_history) now portfolio_value trading_api
                macd macd_signal ["MACD signal"%string] st
         else (Ok no_action, st).
Proof.
  intros HM H1 H2 H3 G1 G2 Hdc Hset. unfold entry.
  fold (close_5min minute_history). rewrite HM.
  assert (Hanch : get_truthy Float.truthy (down_cross st) symbol = true).
  { unfold get_truthy. now rewrite Hdc. }
  erewrite bind_Ok.
  2:{ apply reads_andM.
      - apply (reads_chain _ _ _ _ _ _ m1 (fin 0) m2);
          [now apply reads_idx|apply reads_ret|intros; now apply reads_idx].
      - intros _. eapply reads_bind; [apply reads_down_cross_set|].
        apply reads_ret. }
  rewrite Hanch. cbn [negb]. rewrite andb_false_r.
  erewrite bind_Ok.
  2:{ apply reads_andM; [apply reads_down_cross_set|].
      intros _. apply reads_cmp; [apply reads_idx; eassumption|apply reads_ret]. }
  rewrite Hanch. cbn [andb].
  destruct (m1 >=? fin 0)%float; [reflexivity|].
  erewrite bind_Ok.
  2:{ apply (reads_to_buy _ _ _ _ m1 m2 m3 s1 s2 anchor); assumption. }
  rewrite Hset. cbn [andb].
  destruct (rising m1 m2 m3 s1 s2 && _); reflexivity.
Qed.
End Entry.

(** ** Arithmetic of share quantities *)

Lemma truthy_of_Z (n : Z) : Float.truthy (Float.of_Z n) = negb (n =? 0).
Proof.
  unfold Float.truthy, Float.of_Z, Qeq_bool, inject_Z. cbn.
  now rewrite Z.mul_1_r.
Qed.

(** The quotient of [shares_to_buy] on finite numbers with a non-zero
    denominator is the floor of the exact quotient. *)
Lemma floordiv_fin (pv risk close_price stop_price : Q) :
  ~ (close_price - stop_price == 0)%Q ->
  (fin pv * fin risk // (fin close_price - fin stop_price))%float
  = Float.of_Z (Qfloor (pv * risk / (close_price - stop_price))).
Proof.
  intros Hne.
  unfold Float.mul, Float.sub, Float.lift2, Float.floordiv, Float.of_Z.
  destruct (Qeq_bool (Qred (close_price - stop_price)) 0) eqn:E.
  { apply Qeq_bool_eq in E. rewrite Qred_correct in E. contradiction. }
  do 2 f_equal. apply Qfloor_comp. now rewrite !Qred_correct.
Qed.






(** ** The risk gate *)

Section RiskGate.
Variable RSI : list float -> Z -> list float.
Variable market_open : Z.
Variable risk : float.

Lemma risk_gate_eval (symbol : string) (position : Z) (data : bar)
    (close_series : list float) (now : Z) (portfolio_value : option float)
    (trading_api : option (nat -> response)) (macd macd_signal : list float)
    (reason : list string) (latest : float) (st : State) :
  back (RSI close_series 14) 1 = Ok latest ->
  risk_gate RSI market_open risk symbol position data close_series now
    portfolio_value trading_api macd macd_signal reason st
  = if (latest <? fin 75)%float
    then size_and_buy market_open risk symbol position data now
           portfolio_value trading_api macd macd_signal reason st
    else (Ok no_action, cooled symbol now st).
Proof.
  intros Hr. unfold risk_gate.
  rewrite (bind_Ok _ _ latest st st) by now apply idx_Ok.
  destruct (latest <? fin 75)%float; reflexivity.
Qed.
End RiskGate.

Lemma truncate_to_minute_spec (now : Z) :
  truncate_to_minute now `mod` 60000000 = 0
  /\ truncate_to_minute now <= now < truncate_to_minute now + 60000000.
Proof.
  unfold truncate_to_minute.
  pose proof (Z.mod_pos_bound now 60000000 eq_refl) as Hb.
  split; [|lia].
  rewrite Zminus_mod, Z.mod_mod, Z.sub_diag by lia. reflexivity.
Qed.

Lemma geb_not_ltb (x y : float) : (x >=? y)%float = true -> (x <? y)%float = false.
Proof.
  unfold Float.geb, Float.leb, Float.ltb.
  destruct x, y; try discriminate. intros ->. reflexivity.
Qed.

(** C5.  In a buy attempt whose trend test has passed, a latest RSI reading
    of 75 or more ends the evaluation with no action and stores, as the
    symbol's cool-down, the current minute plus five minutes; a reading
    below 75 lets the attempt go on to pricing and sizing. *)
Theorem overbought_gate_cools_down
    (MACD : list float -> Z -> Z -> list float * list float * list float)
    (RSI : list float -> Z -> list float) (market_open : Z) (risk : float)
    (symbol : string) (position : Z) (minute_history : list bar) (data : bar)
    (now : Z) (portfolio_value : option float)
    (trading_api : option (nat -> response))
    (macd macd_signal hist : list float) (m1 m2 m3 s1 s2 anchor latest : float)
    (st : State) :
  MACD (close_5min minute_history) 13 21 = (macd, macd_signal, hist) ->
  back macd 1 = Ok m1 -> back macd 2 = Ok m2 -> back macd 3 = Ok m3 ->
  back macd_signal 1 = Ok s1 -> back macd_signal 2 = Ok s2 ->
  down_cross st !! symbol = Some (Some anchor) ->
  Float.truthy anchor = true ->
  (m1 >=? fin 0)%float = false ->
  rising m1 m2 m3 s1 s2 = true ->
  (close data <? anchor)%float = true ->
  back (RSI (session_close minute_history) 14) 1 = Ok latest ->
  let evaluation :=
    entry MACD RSI market_open risk symbol position minute_history data now
      portfolio_value trading_api st in
  ((latest >=? fin 75)%float = true ->
   evaluation = (Ok no_action, cooled symbol now st)
   /\ cool_down (cooled symbol now st) !! symbol
      = Some (Some (truncate_to_minute now + minutes 5)))
  /\ ((latest <? fin 75)%float = true ->
      evaluation
      = size_and_buy market_open risk symbol position data now portfolio_value
          trading_api macd macd_signal ["MACD signal"%string] st)
  /\ truncate_to_minute now `mod` minutes 1 = 0
  /\ truncate_to_minute now <= now < truncate_to_minute now + minutes 1.
Proof.
  intros HM H1 H2 H3 G1 G2 Hdc Hset Hm1 Hrise Hbelow Hrsi evaluation.
  assert (E : evaluation
              = if (latest <? fin 75)%float
                then size_and_buy market_open risk symbol position data now
                       portfolio_value trading_api macd macd_signal
                       ["MACD signal"%string] st
                else (Ok no_action, cooled symbol now st)).
  { unfold evaluation.
    rewrite (entry_anchored MACD RSI market_open risk symbol position
               minute_history data now portfolio_value trading_api
               macd macd_signal hist m1 m2 m3 s1 s2 anchor st) by assumption.
    rewrite Hm1, Hrise, Hbelow. cbn [andb].
    now apply risk_gate_eval. }
  repeat split.
  - rewrite E, (geb_not_ltb _ _ H). reflexivity.
  - unfold cooled. cbn. apply lookup_insert_eq.
  - intros Hlt. now rewrite E, Hlt.
  - apply truncate_to_minute_spec.
  - apply truncate_to_minute_spec.
  - apply truncate_to_minute_spec.
Qed.

(** A confirmed trend with the RSI at 80, at 10:15:20: no action, and a
    cool-down until 10:20. *)
Lemma overbought_gate_cools_down_witness :
  let st := set_down_cross <["AAPL"%string := Some (fin 52)]> Fixture.empty in
  let data := Fixture.flat_bar (Fixture.at_ 10 15 0) (fin 50) (fin 1000) in
  let history := [Fixture.flat_bar (Fixture.at_ 10 14 0) (fin 50) (fin 1000);
                  data] in
  let now := Fixture.at_ 10 15 20 in
  let macd := [fin (-0.5); fin (-0.4); fin (-0.3)] in
  let macd_signal := [fin (-0.7); fin (-0.6); fin (-0.5)] in
  entry (Fixture.macd_of macd macd_signal) (Fixture.rsi_of [fin 80])
    Fixture.the_open (fin 0.01) "AAPL" 0 history data now (Some (fin 100000))
    None st
  = (Ok no_action, cooled "AAPL" now st)
  /\ cool_down (cooled "AAPL" now st) !! "AAPL"%string
     = Some (Some (Fixture.at_ 10 20 0)).
Proof.
  intros st data history now macd macd_signal.
  destruct (overbought_gate_cools_down
              (Fixture.macd_of macd macd_signal) (Fixture.rsi_of [fin 80])
              Fixture.the_open (fin 0.01) "AAPL" 0 history data now
              (Some (fin 100000)) None macd macd_signal []
              (fin (-0.3)) (fin (-0.4)) (fin (-0.5)) (fin (-0.5)) (fin (-0.6))
              (fin 52) (fin 80) st
              eq_refl eq_refl eq_refl eq_refl eq_refl eq_refl eq_refl eq_refl
              eq_refl eq_refl eq_refl eq_refl) as (H & _).
  exact (H eq_refl).
Defined.

(** C10.  Once a buy attempt has passed the risk gate, the symbol's stop
    (close x 0.96) and target (anchor x 1.12) are in the dictionaries
    whatever the evaluation then does; in particular they are there, in
    place of any earlier values, after each of its three aborts: the
    configuration error, three failed attempts to reach the broker, and a
    net quantity that is not positive. *)
Theorem stop_and_target_survive_abort
    (MACD : list float -> Z -> Z -> list float * list float * list float)
    (RSI : list float -> Z -> list float) (market_open : Z) (risk : float)
    (symbol : string) (position : Z) (minute_history : list bar) (data : bar)
    (now : Z) (portfolio_value : option float)
    (trading_api : option (nat -> response))
    (macd macd_signal hist : list float) (m1 m2 m3 s1 s2 anchor latest : float)
    (st : State) :
  MACD (close_5min minute_history) 13 21 = (macd, macd_signal, hist) ->
  back macd 1 = Ok m1 -> back macd 2 = Ok m2 -> back macd 3 = Ok m3 ->
  back macd_signal 1 = Ok s1 -> back macd_signal 2 = Ok s2 ->
  down_cross st !! symbol = Some (Some anchor) ->
  Float.truthy anchor = true ->
  (m1 >=? fin 0)%float = false ->
  rising m1 m2 m3 s1 s2 = true ->
  (close data <? anchor)%float = true ->
  back (RSI (session_close minute_history) 14) 1 = Ok latest ->
  (latest <? fin 75)%float = true ->
  let evaluation :=
    entry MACD RSI market_open risk symbol position minute_history data now
      portfolio_value trading_api st in
  (stop_prices (snd evaluation) !! symbol = Some (close data * fin 0.96)%float
   /\ target_prices (snd evaluation) !! symbol
      = Some (anchor * fin 1.12)%float)
  /\ (portfolio_value = None -> trading_api = None ->
      fst evaluation
      = Raise (Exception
          "momentum_long_v5: both portfolio_value and trading_api can't be None"))
  /\ (forall api : nat -> response,
      portfolio_value = None -> trading_api = Some api ->
      api (api_calls st) = fails ConnectionError ->
      api (S (api_calls st)) = fails ConnectionError ->
      api (S (S (api_calls st))) = fails ConnectionError ->
      fst evaluation = Ok no_action)
  /\ (forall pv : float,
      portfolio_value = Some pv ->
      positive (shares_to_buy risk pv (close data)
                  (close data * fin 0.96)%float position) = false ->
      fst evaluation = Ok no_action).
Proof.
  intros HM H1 H2 H3 G1 G2 Hdc Hset Hm1 Hrise Hbelow Hrsi Hlt evaluation.
  assert (E : evaluation
              = size_and_buy market_open risk symbol position data now
                  portfolio_value trading_api macd macd_signal
                  ["MACD signal"%string] st).
  { unfold evaluation.
    rewrite (entry_anchored MACD RSI market_open risk symbol position
               minute_history data now portfolio_value trading_api
               macd macd_signal hist m1 m2 m3 s1 s2 anchor st) by assumption.
    rewrite Hm1, Hrise, Hbelow. cbn [andb].
    rewrite (risk_gate_eval _ _ _ _ _ _ _ _ _ _ _ _ _ latest st Hrsi).
    now rewrite Hlt. }
  rewrite E. split; [|split; [|split]].
  - now apply size_and_buy_stores.
  - intros -> ->.
    rewrite (size_and_buy_eval _ _ _ _ _ _ _ _ _ _ _ anchor st Hdc).
    reflexivity.
  - intros api -> -> A1 A2 A3.
    rewrite (size_and_buy_eval _ _ _ _ _ _ _ _ _ _ _ anchor st Hdc).
    rewrite obtain_portfolio_value_fetch.
    change (api_calls (priced symbol data anchor st)) with (api_calls st).
    now rewrite A1, A2, A3.
  - intros pv -> Hneg.
    rewrite (size_and_buy_eval _ _ _ _ _ _ _ _ _ _ _ anchor st Hdc).
    cbn [obtain_portfolio_value ret]. cbv zeta. now rewrite Hneg.
Qed.

(** Old stop and target of 1 and 2; the evaluation raises the configuration
    error, and the dictionaries hold 48 and 52 x 1.12. *)
Lemma stop_and_target_survive_abort_witness :
  let st := set_stop_prices <["AAPL"%string := fin 1]>
              (set_target_prices <["AAPL"%string := fin 2]>
                 (set_down_cross <["AAPL"%string := Some (fin 52)]>
                    Fixture.empty)) in
  let data := Fixture.flat_bar (Fixture.at_ 10 15 0) (fin 50) (fin 1000) in
  let history := [Fixture.flat_bar (Fixture.at_ 10 14 0) (fin 50) (fin 1000);
                  data] in
  let macd := [fin (-0.5); fin (-0.4); fin (-0.3)] in
  let macd_signal := [fin (-0.7); fin (-0.6); fin (-0.5)] in
  let evaluation :=
    entry (Fixture.macd_of macd macd_signal) (Fixture.rsi_of [fin 60])
      Fixture.the_open (fin 0.01) "AAPL" 0 history data (Fixture.at_ 10 15 20)
      None None st in
  (stop_prices (snd evaluation) !! "AAPL"%string = Some (fin 48)
   /\ target_prices (snd evaluation) !! "AAPL"%string
      = Some (fin 52 * fin 1.12)%float)
  /\ fst evaluation
     = Raise (Exception
         "momentum_long_v5: both portfolio_value and trading_api can't be None").
Proof.
  intros st data history macd macd_signal evaluation.
  destruct (stop_and_target_survive_abort
              (Fixture.macd_of macd macd_signal) (Fixture.rsi_of [fin 60])
              Fixture.the_open (fin 0.01) "AAPL" 0 history data
              (Fixture.at_ 10 15 20) None None macd macd_signal []
              (fin (-0.3)) (fin (-0.4)) (fin (-0.5)) (fin (-0.5)) (fin (-0.6))
              (fin 52) (fin 60) st
              eq_refl eq_refl eq_refl eq_refl eq_refl eq_refl eq_refl eq_refl
              eq_refl eq_refl eq_refl eq_refl eq_refl) as (Hs & Hc & _).
  split; [exact Hs|exact (Hc eq_refl eq_refl)].
Defined.

(** Three connection errors in a row: no action, three calls. *)
Lemma portfolio_value_fetch_is_bounded_witness :
  let st := set_down_cross <["AAPL"%string := Some (fin 52)]> Fixture.empty in
  let data := Fixture.flat_bar (Fixture.at_ 10 15 0) (fin 50) (fin 1000) in
  let evaluation :=
    size_and_buy Fixture.the_open (fin 0.01) "AAPL" 0 data
      (Fixture.at_ 10 15 20) None (Some (fun _ => fails ConnectionError))
      [] [] [] st in
  fst evaluation = Ok no_action /\ api_calls (snd evaluation) = 3%nat.
Proof.
  intros st data evaluation.
  destruct (portfolio_value_fetch_is_bounded Fixture.the_open (fin 0.01)
              "AAPL" 0 data (Fixture.at_ 10 15 20) [] [] [] (fin 52)
              (fun _ => fails ConnectionError) st eq_refl) as (_ & _ & H & _).
  exact (H eq_refl eq_refl eq_refl).
Defined.

(** ** The sell branch as a table of rules *)

Section Exit.
Variable MACD : list float -> Z -> Z -> list float * list float * list float.
Variable RSI : list float -> Z -> list float.
Variable market_open : Z.

(** The cascade of lines 314-337 picks the first rule of [priority] that
    holds; only the overbought rule touches the dictionaries. *)
Lemma sell_cascade_eval (symbol : string) (data : bar) (now : Z)
    (macd rsi : list float) (x : exit_readings) (st : State) :
  x_close x = close data ->
  x_morning_rush x = morning_rush market_open now ->
  stop_prices st !! symbol = Some (x_stop x) ->
  target_prices st !! symbol = Some (x_target x) ->
  back macd 1 = Ok (x_macd x) ->
  back rsi 1 = Ok (x_rsi x) ->
  sell_cascade market_open symbol data now macd rsi
    (holds x BailOut) (holds x ScaleOut) (holds x WhipsawBail) st
  = (Ok (verdict_of (find (holds x) priority)),
     match find (holds x) priority with
     | Some Overbought => cooled symbol now st
     | _ => st
     end).
Proof.
  intros Hc Hr Hsp Htg Hm Hrsi. unfold sell_cascade, priority. cbn [find].
  set (bail := holds x BailOut). set (scale := holds x ScaleOut).
  set (whip := holds x WhipsawBail). clearbody bail scale whip.
  cbn [holds]. rewrite <- Hc, Hr.
  erewrite bind_Ok.
  2:{ apply reads_cmp; [apply reads_ret|apply reads_subscript, Hsp]. }
  destruct (x_close x <=? x_stop x)%float; [reflexivity|].
  erewrite bind_Ok.
  2:{ apply reads_andM.
      - apply reads_cmp; [apply reads_ret|apply reads_subscript, Htg].
      - intros _. apply reads_cmp; [apply reads_idx, Hm|apply reads_ret]. }
  destruct ((x_close x >=? x_target x)%float && (x_macd x <=? fin 0)%float);
    [reflexivity|].
  erewrite bind_Ok.
  2:{ apply reads_cmp; [apply reads_idx, Hrsi|apply reads_ret]. }
  destruct (morning_rush market_open now); cbn [negb];
    (destruct (x_rsi x >=? _)%float; [reflexivity|]);
    destruct bail; try reflexivity;
    destruct scale; try reflexivity;
    destruct whip; reflexivity.
Qed.

Lemma sell_order_action (position : Z) (data : bar) (x : exit_readings)
    (r : exit_rule) :
  x_close x = close data ->
  sell_order position data (verdict_of (Some r)) = action position x r.
Proof.
  intros Hc. destruct r; cbn; unfold sell_order; cbn; now rewrite ?Hc.
Qed.
End Exit.

Section ExitEval.
Variable MACD : list float -> Z -> Z -> list float * list float * list float.
Variable RSI : list float -> Z -> list float.
Variable market_open : Z.

(** When every dictionary entry and every reading it asks for is there, the
    sell branch returns what the first matching rule calls for. *)
Lemma exit_eval (symbol : string) (position : Z) (minute_history : list bar)
    (data : bar) (now : Z) (st : State)
    (cost_basis scalp_basis target stop : float) (bought_at : Z)
    (serie macd macd_signal hist : list float) (m1 m2 s1 r1 : float) :
  latest_cost_basis st !! symbol = Some cost_basis ->
  latest_scalp_basis st !! symbol = Some scalp_basis ->
  buy_time st !! symbol = Some bought_at ->
  target_prices st !! symbol = Some target ->
  stop_prices st !! symbol = Some stop ->
  exit_serie minute_history data = Ok serie ->
  MACD serie 13 21 = (macd, macd_signal, hist) ->
  back macd 1 = Ok m1 ->
  back macd 2 = Ok m2 ->
  back macd_signal 1 = Ok s1 ->
  back (RSI (session_close minute_history) 14) 1 = Ok r1 ->
  fst (exit MACD RSI market_open symbol position minute_history data now st)
  = Ok (first_match position
          (readings_of market_open st symbol minute_history data now
             cost_basis scalp_basis target stop m1 m2 s1 r1 bought_at)).
Proof.
  intros Hcb Hsb Hbt Htg Hsp Hserie HM Hm1 Hm2 Hs1 Hr1.
  set (x := readings_of market_open st symbol minute_history data now
              cost_basis scalp_basis target stop m1 m2 s1 r1 bought_at).
  unfold exit.
  (* lines 243-247 *)
  erewrite bind_Ok by reflexivity.
  erewrite bind_Ok.
  2:{ apply reads_andM; [apply reads_ret|]. intros _.
      apply reads_cmp; [apply reads_ret|].
      eapply reads_bind; [apply reads_subscript, Hcb|apply reads_ret]. }
  set (flagged := default false (whipsawed st !! symbol)).
  set (slipped := negb flagged && (close data <? cost_basis * fin 0.99)%float).
  set (st1 := if slipped then set_whipsawed <[symbol := true]> st else st).
  erewrite (bind_Ok _ _ tt st st1) by (unfold st1; now destruct slipped).
  assert (Hcb1 : latest_cost_basis st1 !! symbol = Some cost_basis)
    by (unfold st1; now destruct slipped).
  assert (Hsb1 : latest_scalp_basis st1 !! symbol = Some scalp_basis)
    by (unfold st1; now destruct slipped).
  assert (Hbt1 : buy_time st1 !! symbol = Some bought_at)
    by (unfold st1; now destruct slipped).
  assert (Htg1 : target_prices st1 !! symbol = Some target)
    by (unfold st1; now destruct slipped).
  assert (Hsp1 : stop_prices st1 !! symbol = Some stop)
    by (unfold st1; now destruct slipped).
  assert (Hws1 : default false (whipsawed st1 !! symbol) = x_whipsawed x).
  { unfold st1, slipped, flagged, x, readings_of, whipsawed_now.
    cbn [x_whipsawed].
    destruct (default false (whipsawed st !! symbol)) eqn:F;
      cbn [negb andb orb]; [exact F|].
    destruct (close data <? cost_basis * fin 0.99)%float; [|exact F].
    cbn. now rewrite lookup_insert_eq. }
  clearbody st1. clear slipped flagged.
  (* lines 249-267 *)
  erewrite (bind_Ok _ _ serie st1 st1).
  2:{ unfold exit_serie in Hserie.
      destruct (Float.truthy (vwap data)); unfold lift, ret;
        [now rewrite Hserie|congruence]. }
  rewrite HM.
  (* lines 269-288 *)
  erewrite bind_Ok by (apply reads_subscript, Hsb1).
  erewrite bind_Ok by (apply reads_subscript, Hbt1).
  erewrite bind_Ok by (apply reads_idx, Hm1).
  erewrite bind_Ok by (apply reads_idx, Hs1).
  erewrite bind_Ok by (apply reads_subscript, Htg1).
  erewrite bind_Ok by (apply reads_subscript, Hcb1).
  (* lines 290-305 *)
  assert (Hfall : reads (macd_falling macd (round_factor m1 s1)) st1 (falling x)).
  { unfold macd_falling, falling. apply reads_cmp.
    - eapply reads_bind; [apply reads_idx, Hm1|apply reads_ret].
    - eapply reads_bind; [apply reads_idx, Hm2|apply reads_ret]. }
  erewrite (bind_Ok _ _ (holds x BailOut) st1 st1).
  2:{ cbn [holds]. repeat apply reads_andM; intros; try apply reads_ret.
      exact Hfall. }
  erewrite bind_Ok by reflexivity.
  erewrite (bind_Ok _ _ (holds x WhipsawBail) st1 st1).
  2:{ cbn [holds]. rewrite <- Hws1.
      repeat apply reads_andM; intros; try apply reads_ret. exact Hfall. }
  (* lines 306-394 *)
  erewrite bind_Ok.
  2:{ apply (sell_cascade_eval market_open symbol data now macd
               (RSI (session_close minute_history) 14) x st1);
        try reflexivity; assumption. }
  unfold first_match.
  destruct (find (holds x) priority) as [r|] eqn:F; [|reflexivity].
  replace (to_sell (verdict_of (Some r))) with true by now destruct r.
  unfold bind, modify, ret. cbn [fst].
  now rewrite (sell_order_action position data x r eq_refl).
Qed.
End ExitEval.

(** ** The sell branch of [run] *)

(** C1.  When the sell branch runs and its reads succeed, [run] returns what
    the first rule of the list stop-hit, target-hit, overbought, bail-out,
    scale-out, whipsaw-bail that holds calls for, and no action if none
    holds.  In particular, whenever the close is at or below the stop, the
    result is a market sell of the whole position, also when the scale-out
    condition holds on the same bar. *)
Theorem exit_rules_fire_in_priority_order
    (MACD : list float -> Z -> Z -> list float * list float * list float)
    (RSI : list float -> Z -> list float) (is_buy_time is_sell_time : Z -> bool)
    (market_open : Z) (risk : float) (symbol : string) (shortable : bool)
    (position : Z) (minute_history : list bar) (data prev_min : bar) (now : Z)
    (portfolio_value : option float) (trading_api : option (nat -> response))
    (debug backtesting : bool) (st : State)
    (cost_basis scalp_basis target stop : float) (bought_at : Z)
    (serie macd macd_signal hist : list float) (m1 m2 s1 r1 : float) :
  back minute_history 1 = Ok data ->
  back minute_history 2 = Ok prev_min ->
  sell_preconditions is_sell_time st symbol position now ->
  latest_cost_basis st !! symbol = Some cost_basis ->
  latest_scalp_basis st !! symbol = Some scalp_basis ->
  buy_time st !! symbol = Some bought_at ->
  target_prices st !! symbol = Some target ->
  stop_prices st !! symbol = Some stop ->
  exit_serie minute_history data = Ok serie ->
  MACD serie 13 21 = (macd, macd_signal, hist) ->
  back macd 1 = Ok m1 ->
  back macd 2 = Ok m2 ->
  back macd_signal 1 = Ok s1 ->
  back (RSI (session_close minute_history) 14) 1 = Ok r1 ->
  let result :=
    fst (run MACD RSI is_buy_time is_sell_time market_open risk symbol
           shortable position minute_history now portfolio_value trading_api
           debug backtesting st) in
  let x := readings_of market_open st symbol minute_history data now
             cost_basis scalp_basis target stop m1 m2 s1 r1 bought_at in
  result
  = Ok (match find (holds x) priority with
        | Some r => (true, Some (action position x r))
        | None => no_action
        end)
  /\ ((close data <=? stop)%float = true ->
      (((close data - scalp_basis) / scalp_basis >? fin 0.04)%float
       || (vwap data >? (target + scalp_basis) / fin 2)%float) = true ->
      result = Ok (true, Some (Order sell (qty_int position) market None))).
Proof.
  intros Hd Hp (Hsell & Hpos & Hhas & Hown & Hoo) Hcb Hsb Hbt Htg Hsp Hserie
    HM Hm1 Hm2 Hs1 Hr1 result x.
  assert (E : result = Ok (first_match position x)).
  { unfold result.
    rewrite (run_sell_branch MACD RSI is_buy_time is_sell_time market_open
               risk symbol shortable position minute_history data prev_min
               now portfolio_value trading_api debug backtesting st)
      by assumption.
    now apply (exit_eval MACD RSI market_open symbol position minute_history
                 data now st cost_basis scalp_basis target stop bought_at
                 serie macd macd_signal hist). }
  split; [exact E|].
  intros Hstop _. rewrite E. unfold first_match, priority. cbn [find].
  replace (holds x StopHit) with true by (symmetry; exact Hstop).
  reflexivity.
Qed.

(** Ten shares bought at 50 and scalped at 40, stop 47, target 44; the bar
    closes at 46: at the stop, and 15% above the scalp basis. *)
Lemma exit_rules_fire_in_priority_order_witness :
  let st :=
    mkState ∅ {["AAPL"%string := fin 50]} {["AAPL"%string := fin 40]} ∅ ∅ ∅
      {["AAPL"%string := fin 47]} {["AAPL"%string := fin 44]}
      {["AAPL"%string := Fixture.at_ 10 0 0]} {["AAPL"%string := name]}
      ∅ ∅ 0 in
  let data := Fixture.flat_bar (Fixture.at_ 10 15 0) (fin 46) (fin 1000) in
  let prev_min := Fixture.flat_bar (Fixture.at_ 10 14 0) (fin 48) (fin 1000) in
  fst (run (Fixture.macd_of [fin 0.1; fin 0.2] [fin 0.1; fin 0.1])
         (Fixture.rsi_of [fin 50; fin 50]) (Fixture.always true)
         (Fixture.always true) Fixture.the_open (fin 0.01) "AAPL" false 10
         [prev_min; data] (Fixture.at_ 10 15 20) None None false false st)
  = Ok (true, Some (Order sell (qty_int 10) market None)).
Proof.
  intros st data prev_min.
  assert (Hpre : sell_preconditions (Fixture.always true) st "AAPL" 10
                   (Fixture.at_ 10 15 20)).
  { unfold sell_preconditions. repeat split; try reflexivity.
    exists (fin 50). reflexivity. }
  destruct (exit_rules_fire_in_priority_order
              (Fixture.macd_of [fin 0.1; fin 0.2] [fin 0.1; fin 0.1])
              (Fixture.rsi_of [fin 50; fin 50]) (Fixture.always true)
              (Fixture.always true) Fixture.the_open (fin 0.01) "AAPL" false
              10 [prev_min; data] data prev_min (Fixture.at_ 10 15 20) None
              None false false st (fin 50) (fin 40) (fin 44) (fin 47)
              (Fixture.at_ 10 0 0) [fin 48; fin 46]
              [fin 0.1; fin 0.2] [fin 0.1; fin 0.1] []
              (fin 0.2) (fin 0.1) (fin 0.1) (fin 50)
              eq_refl eq_refl Hpre eq_refl eq_refl eq_refl eq_refl eq_refl
              eq_refl eq_refl eq_refl eq_refl eq_refl eq_refl) as (_ & H).
  exact (H eq_refl eq_refl).
Defined.

(** ** Short histories *)

Lemma length_set_last {A} (l l' : list A) (x : A) :
  set_last l x = Ok l' -> length l' = length l.
Proof.
  unfold set_last. intros H.
  destruct (rev l) as [|y r] eqn:E; [discriminate|].
  injection H as <-.
  transitivity (length (x :: r)); [apply (length_rev (x :: r))|].
  rewrite <- (length_rev l), E. reflexivity.
Qed.

Lemma set_last_nonempty {A} (l : list A) (x : A) :
  (1 <= length l)%nat -> exists l', set_last l x = Ok l'.
Proof.
  intros H. unfold set_last. rewrite <- (length_rev l) in H.
  destruct (rev l) as [|y r]; [cbn in H; lia|eauto].
Qed.

Lemma exit_serie_length (minute_history : list bar) (data : bar)
    (serie : list float) :
  exit_serie minute_history data = Ok serie ->
  length serie
  = length (values (between_time (dropna (close_column minute_history)))).
Proof.
  unfold exit_serie. destruct (Float.truthy (vwap data)); intros H.
  - now apply length_set_last in H.
  - now injection H as <-.
Qed.

Lemma exit_serie_nonempty (minute_history : list bar) (data : bar) :
  (1 <= length (values (between_time (dropna (close_column minute_history)))))%nat ->
  exists serie, exit_serie minute_history data = Ok serie.
Proof.
  intros H. unfold exit_serie. destruct (Float.truthy (vwap data)).
  - now apply set_last_nonempty.
  - eauto.
Qed.

Lemma length_filter_le {A} (f : A -> bool) (l : list A) :
  (length (List.filter f l) <= length l)%nat.
Proof.
  induction l as [|a l IH]; cbn; [lia|]. destruct (f a); cbn; lia.
Qed.

Lemma length_session_series (minute_history : list bar) :
  (length (between_time (dropna (close_column minute_history)))
   <= length minute_history)%nat.
Proof.
  unfold between_time, dropna, close_column.
  etransitivity; [apply length_filter_le|].
  etransitivity; [apply length_filter_le|].
  now rewrite length_map.
Qed.



Section ShortHistory.
Variable MACD : list float -> Z -> Z -> list float * list float * list float.
Variable RSI : list float -> Z -> list float.
Variable market_open : Z.
Variable risk : float.

End ShortHistory.



Lemma length_session_close (minute_history : list bar) :
  (length (session_close minute_history) <= length minute_history)%nat.
Proof.
  unfold session_close, values. rewrite length_map.
  apply length_session_series.
Qed.



(** ** Reads of the sell branch *)

(** The claim of C7 at a store that meets the preconditions and has no
    scalp basis for the symbol: [run] raises [KeyError]. *)
Lemma exit_read_raises_KeyError :
  let st :=
    mkState ∅ {["AAPL"%string := fin 50]} ∅ ∅ ∅ ∅
      {["AAPL"%string := fin 48]} {["AAPL"%string := fin 56]}
      {["AAPL"%string := Fixture.at_ 9 31 0]} {["AAPL"%string := name]}
      ∅ ∅ 0 in
  let data := Fixture.flat_bar (Fixture.at_ 10 15 0) (fin 49) (fin 1000) in
  let prev_min := Fixture.flat_bar (Fixture.at_ 10 14 0) (fin 49) (fin 1000) in
  sell_preconditions (Fixture.always true) st "AAPL" 10 (Fixture.at_ 10 15 20)
  /\ fst (run (Fixture.macd_of [fin 0.1; fin 0.2] [fin 0.1; fin 0.1])
            (Fixture.rsi_of [fin 50; fin 50]) (Fixture.always true)
            (Fixture.always true) Fixture.the_open (fin 0.01) "AAPL" false 10
            [prev_min; data] (Fixture.at_ 10 15 20) None None false false st)
     = Raise (KeyError "latest_scalp_basis" "AAPL").
Proof.
  cbv zeta. split.
  - unfold sell_preconditions. repeat split; try reflexivity.
    exists (fin 50). reflexivity.
  - vm_compute. reflexivity.
Qed.

(** C7, as the code has it.  Under the sell preconditions [run] returns a
    decision and raises nothing provided the dictionaries also hold a scalp
    basis, a buy time, a target and a stop for the symbol and the session
    has at least two closes (the indicator series being as long as their
    input). *)
Theorem exit_is_total_on_a_complete_store
    (MACD : list float -> Z -> Z -> list float * list float * list float)
    (RSI : list float -> Z -> list float) (is_buy_time is_sell_time : Z -> bool)
    (market_open : Z) (risk : float) (symbol : string) (shortable : bool)
    (position : Z) (minute_history : list bar) (now : Z)
    (portfolio_value : option float) (trading_api : option (nat -> response))
    (debug backtesting : bool) (st : State) :
  same_length MACD RSI ->
  sell_preconditions is_sell_time st symbol position now ->
  store_complete st symbol ->
  (2 <= length (session_close minute_history))%nat ->
  exists (decision : bool * option order) (st' : State),
    run MACD RSI is_buy_time is_sell_time market_open risk symbol shortable
      position minute_history now portfolio_value trading_api debug
      backtesting st
    = (Ok decision, st').
Proof.
  intros [HlenM HlenR] Hpre (Hsb & Hbt & Htg & Hsp) Hlen.
  pose proof (length_session_close minute_history) as Hh.
  destruct (back_length minute_history 1) as [data Hd]; [lia|].
  destruct (back_length minute_history 2) as [prev_min Hp]; [lia|].
  destruct Hpre as (Hsell & Hpos & Hhas & Hown & Hoo).
  destruct Hhas as [cost_basis Hcb]. destruct Hsb as [scalp_basis Hsb].
  destruct Hbt as [bought_at Hbt]. destruct Htg as [target Htg].
  destruct Hsp as [stop Hsp].
  destruct (exit_serie_nonempty minute_history data) as [serie Hserie].
  { fold (session_close minute_history). lia. }
  pose proof (exit_serie_length _ _ _ Hserie) as Hls.
  fold (session_close minute_history) in Hls.
  destruct (HlenM serie) as [Lm Ls].
  destruct (MACD serie 13 21) as [[macd macd_signal] hist] eqn:HM.
  cbn [fst snd] in Lm, Ls.
  destruct (back_length macd 1) as [m1 Hm1]; [lia|].
  destruct (back_length macd 2) as [m2 Hm2]; [lia|].
  destruct (back_length macd_signal 1) as [s1 Hs1]; [lia|].
  destruct (back_length (RSI (session_close minute_history) 14) 1)
    as [r1 Hr1]; [rewrite HlenR; lia|].
  pose proof (exit_eval MACD RSI market_open symbol position minute_history
                data now st cost_basis scalp_basis target stop bought_at
                serie macd macd_signal hist m1 m2 s1 r1 Hcb Hsb Hbt Htg Hsp
                Hserie HM Hm1 Hm2 Hs1 Hr1) as E.
  rewrite (run_sell_branch MACD RSI is_buy_time is_sell_time market_open
             risk symbol shortable position minute_history data prev_min
             now portfolio_value trading_api debug backtesting st);
    try assumption; [|now exists cost_basis].
  destruct (exit MACD RSI market_open symbol position minute_history data
              now st) as [r st'].
  cbn [fst] in E. subst r. eauto.
Qed.

(** A complete store and a two-bar session: [run] returns. *)
Lemma exit_is_total_on_a_complete_store_witness :
  let st :=
    mkState ∅ {["AAPL"%string := fin 50]} {["AAPL"%string := fin 50]} ∅ ∅ ∅
      {["AAPL"%string := fin 48]} {["AAPL"%string := fin 56]}
      {["AAPL"%string := Fixture.at_ 9 31 0]} {["AAPL"%string := name]}
      ∅ ∅ 0 in
  let data := Fixture.flat_bar (Fixture.at_ 10 15 0) (fin 49) (fin 1000) in
  let prev_min := Fixture.flat_bar (Fixture.at_ 10 14 0) (fin 49) (fin 1000) in
  exists (decision : bool * option order) (st' : State),
    run Fixture.macd_warming_up Fixture.rsi_warming_up (Fixture.always true)
      (Fixture.always true) Fixture.the_open (fin 0.01) "AAPL" false 10
      [prev_min; data] (Fixture.at_ 10 15 20) None None false false st
    = (Ok decision, st').
Proof.
  intros st data prev_min.
  apply exit_is_total_on_a_complete_store.
  - split; intros xs;
      unfold Fixture.macd_warming_up, Fixture.rsi_warming_up; cbn [fst snd];
      rewrite ?repeat_length; auto.
  - unfold sell_preconditions. repeat split; try reflexivity.
    exists (fin 50). reflexivity.
  - unfold store_complete. repeat split; eexists; reflexivity.
  - vm_compute. lia.
Defined.

(** ** Comparison precision *)

(** The claim of C9 at an oscillator of -0.1236 and a signal of -0.1226:
    both are above 0.1 in magnitude, yet [run] compares them at three
    decimals and finds the oscillator below its signal, which at two
    decimals it is not. *)
Lemma precision_ignores_magnitude :
  round_factor_by_magnitude (fin (-0.1236)) (fin (-0.1226)) = 2
  /\ round_factor (fin (-0.1236)) (fin (-0.1226)) = 3
  /\ macd_below_signal (fin (-0.1236)) (fin (-0.1226)) = true
  /\ (Float.round (fin (-0.1236)) 2 <? Float.round (fin (-0.1226)) 2)%float
     = false.
Proof. repeat split. Qed.

Lemma ltb_fin (a b : Q) : (fin a <? fin b)%float = true <-> (a < b)%Q.
Proof.
  unfold Float.ltb. rewrite negb_true_iff.
  split.
  - intros H. apply Qnot_le_lt. intros Hle.
    apply Qle_bool_iff in Hle. congruence.
  - intros H. destruct (Qle_bool b a) eqn:E; [|reflexivity].
    apply Qle_bool_iff in E. exfalso. exact (Qlt_not_le _ _ H E).
Qed.

Lemma geb_fin (a b : Q) : (fin a >=? fin b)%float = true <-> (b <= a)%Q.
Proof. unfold Float.geb, Float.leb. apply Qle_bool_iff. Qed.

(** C9, as the code has it.  The precision is 2 when the oscillator or its
    signal is at least 0.1 as a signed number, and 3 otherwise, so also
    for numbers at or below -0.1; the oscillator counts as below its signal
    exactly when, rounded to that precision, it is strictly smaller. *)
Theorem precision_is_decided_by_signed_values (m s : Q) :
  ((0.1 <= m)%Q \/ (0.1 <= s)%Q -> round_factor (fin m) (fin s) = 2)
  /\ ((m < 0.1)%Q /\ (s < 0.1)%Q -> round_factor (fin m) (fin s) = 3)
  /\ (macd_below_signal (fin m) (fin s) = true
      <-> (rounded m (round_factor (fin m) (fin s))
           < rounded s (round_factor (fin m) (fin s)))%Q).
Proof.
  split; [|split].
  - intros H. unfold round_factor.
    destruct (fin m >=? fin 0.1)%float eqn:E1; [reflexivity|].
    destruct (fin s >=? fin 0.1)%float eqn:E2; [reflexivity|].
    destruct H as [H|H]; apply geb_fin in H; congruence.
  - intros [Hm Hs]. unfold round_factor.
    destruct (fin m >=? fin 0.1)%float eqn:E1.
    { apply geb_fin in E1. exfalso. exact (Qlt_not_le _ _ Hm E1). }
    destruct (fin s >=? fin 0.1)%float eqn:E2; [|reflexivity].
    apply geb_fin in E2. exfalso. exact (Qlt_not_le _ _ Hs E2).
  - unfold macd_below_signal, Float.round. rewrite ltb_fin.
    unfold rounded. apply Qred_lt.
Qed.

(** An oscillator of -0.5 with a signal of -0.3: precision 3. *)
Lemma precision_is_decided_by_signed_values_witness :
  round_factor (fin (-0.5)) (fin (-0.3)) = 3.
Proof.
  destruct (precision_is_decided_by_signed_values (-0.5) (-0.3))
    as (_ & H & _).
  apply H. split; reflexivity.
Defined.

(** ** The trend test *)

(** The claim of C2 at readings -0.5, -0.3, -0.3 over a signal of -0.6,
    -0.5, with the anchor at 52 and the close at 50: non-decreasing, so the
    claim sends the evaluation to the risk gate, which would have bought
    500 shares; [run]'s buy branch returns no action and touches nothing. *)
Lemma level_readings_do_not_confirm :
  let st := set_down_cross <["AAPL"%string := Some (fin 52)]> Fixture.empty in
  let data := Fixture.flat_bar (Fixture.at_ 10 15 0) (fin 50) (fin 1000) in
  let history := [Fixture.flat_bar (Fixture.at_ 10 14 0) (fin 50) (fin 1000);
                  data] in
  let now := Fixture.at_ 10 15 20 in
  let macd := [fin (-0.5); fin (-0.3); fin (-0.3)] in
  let macd_signal := [fin (-0.7); fin (-0.6); fin (-0.5)] in
  rising_or_level (fin (-0.3)) (fin (-0.3)) (fin (-0.5)) (fin (-0.5))
    (fin (-0.6)) = true
  /\ (close data <? fin 52)%float = true
  /\ entry (Fixture.macd_of macd macd_signal) (Fixture.rsi_of [fin 60])
       Fixture.the_open (fin 0.01) "AAPL" 0 history data now
       (Some (fin 100000)) None st
     = (Ok no_action, st)
  /\ fst (risk_gate (Fixture.rsi_of [fin 60]) Fixture.the_open (fin 0.01)
            "AAPL" 0 data (session_close history) now (Some (fin 100000))
            None macd macd_signal ["MACD signal"%string] st)
     = Ok (true, Some (Order buy (qty_float (fin 500)) limit (Some (fin 50)))).
Proof.
  cbv zeta. repeat split; vm_compute; reflexivity.
Qed.

(** C2, as the code has it.  With an anchor set, a latest reading at or
    above zero resets the anchor and ends the evaluation.  Otherwise the
    buy branch goes on to the risk gate exactly when the last three
    readings rise strictly (latest > prior > the one before), the latest is
    above its signal, the signal above its prior value, the prior reading
    above the prior signal, and the close below the anchor; any other
    combination ends the evaluation with no action and no change. *)
Theorem trend_needs_a_strict_rise
    (MACD : list float -> Z -> Z -> list float * list float * list float)
    (RSI : list float -> Z -> list float) (market_open : Z) (risk : float)
    (symbol : string) (position : Z) (minute_history : list bar) (data : bar)
    (now : Z) (portfolio_value : option float)
    (trading_api : option (nat -> response))
    (macd macd_signal hist : list float) (m1 m2 m3 s1 s2 anchor : float)
    (st : State) :
  MACD (close_5min minute_history) 13 21 = (macd, macd_signal, hist) ->
  back macd 1 = Ok m1 -> back macd 2 = Ok m2 -> back macd 3 = Ok m3 ->
  back macd_signal 1 = Ok s1 -> back macd_signal 2 = Ok s2 ->
  down_cross st !! symbol = Some (Some anchor) ->
  Float.truthy anchor = true ->
  entry MACD RSI market_open risk symbol position minute_history data now
    portfolio_value trading_api st
  = if (m1 >=? fin 0)%float
    then (Ok no_action, set_down_cross <[symbol := None]> st)
    else if (m1 >? m2)%float && (m2 >? m3)%float
            && ((m1 >? s1)%float && (s1 >? s2)%float)
            && (m2 >? s2)%float
            && (close data <? anchor)%float
         then risk_gate RSI market_open risk symbol position data
                (session_close minute_history) now portfolio_value trading_api
                macd macd_signal ["MACD signal"%string] st
         else (Ok no_action, st).
Proof.
  intros HM H1 H2 H3 G1 G2 Hdc Hset.
  exact (entry_anchored MACD RSI market_open risk symbol position
           minute_history data now portfolio_value trading_api
           macd macd_signal hist m1 m2 m3 s1 s2 anchor st
           HM H1 H2 H3 G1 G2 Hdc Hset).
Qed.

(** Readings -0.5, -0.4, -0.3 over the same signal: the buy branch is the
    risk gate. *)
Lemma trend_needs_a_strict_rise_witness :
  let st := set_down_cross <["AAPL"%string := Some (fin 52)]> Fixture.empty in
  let data := Fixture.flat_bar (Fixture.at_ 10 15 0) (fin 50) (fin 1000) in
  let history := [Fixture.flat_bar (Fixture.at_ 10 14 0) (fin 50) (fin 1000);
                  data] in
  let now := Fixture.at_ 10 15 20 in
  let macd := [fin (-0.5); fin (-0.4); fin (-0.3)] in
  let macd_signal := [fin (-0.7); fin (-0.6); fin (-0.5)] in
  entry (Fixture.macd_of macd macd_signal) (Fixture.rsi_of [fin 60])
    Fixture.the_open (fin 0.01) "AAPL" 0 history data now
    (Some (fin 100000)) None st
  = risk_gate (Fixture.rsi_of [fin 60]) Fixture.the_open (fin 0.01)
      "AAPL" 0 data (session_close history) now (Some (fin 100000))
      None macd macd_signal ["MACD signal"%string] st.
Proof.
  intros st data history now macd macd_signal.
  exact (trend_needs_a_strict_rise
           (Fixture.macd_of macd macd_signal) (Fixture.rsi_of [fin 60])
           Fixture.the_open (fin 0.01) "AAPL" 0 history data now
           (Some (fin 100000)) None macd macd_signal []
           (fin (-0.3)) (fin (-0.4)) (fin (-0.5)) (fin (-0.5)) (fin (-0.6))
           (fin 52) st
           eq_refl eq_refl eq_refl eq_refl eq_refl eq_refl eq_refl eq_refl).
Defined.


(** * Further properties of the code *)

(** ** Rules for outcomes *)

Lemma triple_weaken {A} (P P' : State -> Prop) (m : M A)
    (Q Q' : A -> State -> Prop) (E E' : exn -> State -> Prop) :
  triple P m Q E ->
  (forall st, P' st -> P st) ->
  (forall a st, Q a st -> Q' a st) ->
  (forall e st, E e st -> E' e st) ->
  triple P' m Q' E'.
Proof.
  intros H HP HQ HE st Hst. specialize (H st (HP st Hst)).
  destruct (m st) as [[a|e] st']; auto.
Qed.

Lemma triple_ret {A} (P : State -> Prop) (a : A)
    (Q : A -> State -> Prop) (E : exn -> State -> Prop) :
  (forall st, P st -> Q a st) -> triple P (ret a) Q E.
Proof. intros H st Hst. now apply H. Qed.

Lemma triple_raise {A} (P : State -> Prop) (e : exn)
    (Q : A -> State -> Prop) (E : exn -> State -> Prop) :
  (forall st, P st -> E e st) -> triple P (raise e) Q E.
Proof. intros H st Hst. now apply H. Qed.

Lemma triple_bind {A B} (P : State -> Prop) (m : M A) (k : A -> M B)
    (Q : A -> State -> Prop) (R : B -> State -> Prop)
    (E : exn -> State -> Prop) :
  triple P m Q E -> (forall a, triple (Q a) (k a) R E) ->
  triple P (bind m k) R E.
Proof.
  intros Hm Hk st Hst. specialize (Hm st Hst). unfold bind.
  destruct (m st) as [[a|e] st']; [now apply Hk|exact Hm].
Qed.

Lemma triple_modify (P : State -> Prop) (f : State -> State)
    (Q : unit -> State -> Prop) (E : exn -> State -> Prop) :
  (forall st, P st -> Q tt (f st)) -> triple P (modify f) Q E.
Proof. intros H st Hst. now apply H. Qed.

(** A computation that leaves the state alone. *)
Lemma triple_read {A} (P : State -> Prop) (m : M A)
    (Q : A -> State -> Prop) (E : exn -> State -> Prop) :
  (forall st, snd (m st) = st) ->
  (forall st a, P st -> m st = (Ok a, st) -> Q a st) ->
  (forall st e, P st -> m st = (Raise e, st) -> E e st) ->
  triple P m Q E.
Proof.
  intros Hro HQ HE st Hst. specialize (Hro st).
  destruct (m st) as [[a|e] st'] eqn:Em; cbn in Hro; subst st'.
  - now apply (HQ st a).
  - now apply (HE st e).
Qed.

(** ** Rules for invariants *)

Lemma inv_ret {A} (I : State -> Prop) (a : A) : inv I (ret a).
Proof. now apply triple_ret. Qed.

Lemma inv_raise {A} (I : State -> Prop) (e : exn) : inv I (@raise A e).
Proof. now apply triple_raise. Qed.

Lemma inv_lift {A} (I : State -> Prop) (r : res A) : inv I (lift r).
Proof. intros st Hst. unfold lift. now destruct r. Qed.

Lemma inv_idx {A} (I : State -> Prop) (l : list A) (k : nat) :
  inv I (idx l k).
Proof. apply inv_lift. Qed.

Lemma inv_gets {A} (I : State -> Prop) (f : State -> A) : inv I (gets f).
Proof. intros st Hst. exact Hst. Qed.

Lemma inv_subscript {V} (I : State -> Prop) (dict : string)
    (d : State -> gmap string V) (key : string) :
  inv I (subscript dict d key).
Proof. intros st Hst. unfold subscript. now destruct (d st !! key). Qed.

Lemma inv_modify (I : State -> Prop) (f : State -> State) :
  (forall st, I st -> I (f st)) -> inv I (modify f).
Proof. intros H. now apply triple_modify. Qed.

Lemma inv_bind {A B} (I : State -> Prop) (m : M A) (k : A -> M B) :
  inv I m -> (forall a, inv I (k a)) -> inv I (bind m k).
Proof. intros Hm Hk. now apply (triple_bind I m k (fun _ => I)). Qed.

Lemma inv_andM (I : State -> Prop) (a b : M bool) :
  inv I a -> inv I b -> inv I (a &&& b).
Proof.
  intros Ha Hb. unfold andM. apply inv_bind; [exact Ha|].
  intros [|]; [exact Hb|apply inv_ret].
Qed.

Lemma inv_cmp (I : State -> Prop) (a b : M float)
    (r : float -> float -> bool) :
  inv I a -> inv I b -> inv I (cmp a r b).
Proof.
  intros Ha Hb. unfold cmp. apply inv_bind; [exact Ha|]. intros x.
  apply inv_bind; [exact Hb|]. intros y. apply inv_ret.
Qed.

Lemma inv_chain (I : State -> Prop) (a b c : M float)
    (r1 r2 : float -> float -> bool) :
  inv I a -> inv I b -> inv I c -> inv I (chain a r1 b r2 c).
Proof.
  intros Ha Hb Hc. unfold chain. apply inv_bind; [exact Ha|]. intros x.
  apply inv_bind; [exact Hb|]. intros y.
  destruct (r1 x y); [|apply inv_ret].
  apply inv_bind; [exact Hc|]. intros z. apply inv_ret.
Qed.

Lemma inv_except_ConnectionError {A} (I : State -> Prop) (m handler : M A) :
  inv I m -> inv I handler -> inv I (except_ConnectionError m handler).
Proof.
  intros Hm Hh st Hst. specialize (Hm st Hst).
  unfold except_ConnectionError.
  destruct (m st) as [[a|e] st']; [exact Hm|].
  destruct e; try exact Hm. now apply Hh.
Qed.

(** One step of a proof that a computation keeps an invariant. *)
Ltac inv_step :=
  match goal with
  | |- inv _ (bind _ _) => apply inv_bind; [|intros ?]
  | |- inv _ (ret _) => apply inv_ret
  | |- inv _ (raise _) => apply inv_raise
  | |- inv _ (lift _) => apply inv_lift
  | |- inv _ (idx _ _) => apply inv_idx
  | |- inv _ (gets _) => apply inv_gets
  | |- inv _ (subscript _ _ _) => apply inv_subscript
  | |- inv _ (_ &&& _) => apply inv_andM
  | |- inv _ (cmp _ _ _) => apply inv_cmp
  | |- inv _ (chain _ _ _ _ _) => apply inv_chain
  | |- inv _ (if ?b then _ else _) => destruct b
  | |- inv _ (match ?o with Some _ => _ | None => _ end) => destruct o
  | |- inv _ (let '(_, _) := ?p in _) => destruct p
  end.

(** ** What each part of [run] can write *)

Section Writes.
Variable MACD : list float -> Z -> Z -> list float * list float * list float.
Variable RSI : list float -> Z -> list float.
Variable is_buy_time is_sell_time : Z -> bool.
Variable market_open : Z.
Variable risk : float.
Variable symbol : string.
Variable I : State -> Prop.

Lemma inv_down_cross_set : inv I (down_cross_set symbol).
Proof. unfold down_cross_set. repeat inv_step. Qed.

Lemma inv_down_cross_price : inv I (down_cross_price symbol).
Proof. unfold down_cross_price. repeat inv_step. Qed.

Lemma inv_has_open_order : inv I (has_open_order symbol).
Proof. unfold has_open_order. repeat inv_step. Qed.

Lemma inv_should_cool_down (now : Z) :
  survives_guard symbol I -> inv I (should_cool_down symbol now).
Proof.
  intros Hg. unfold should_cool_down. repeat inv_step.
  apply inv_modify. exact Hg.
Qed.

Lemma inv_get_account (api : nat -> response) :
  survives_call I -> inv I (get_account api).
Proof.
  intros Hs. unfold get_account. repeat inv_step.
  - apply inv_modify. exact Hs.
  - destruct (api a); repeat inv_step.
Qed.

Lemma inv_fetch_portfolio_value (api : nat -> response) (retry : nat) :
  survives_call I -> inv I (fetch_portfolio_value api retry).
Proof.
  intros Hs. induction retry as [|retry IH]; cbn [fetch_portfolio_value].
  - apply inv_ret.
  - apply inv_except_ConnectionError; [|exact IH].
    repeat inv_step. now apply inv_get_account.
Qed.

(** The broker is called only when no portfolio value was supplied. *)
Lemma inv_obtain_portfolio_value (portfolio_value : option float)
    (trading_api : option (nat -> response)) :
  (portfolio_value = None -> survives_call I) ->
  inv I (obtain_portfolio_value portfolio_value trading_api).
Proof.
  intros Hs. unfold obtain_portfolio_value.
  destruct portfolio_value as [v|]; [apply inv_ret|].
  destruct trading_api as [api|]; [|apply inv_raise].
  repeat inv_step. apply inv_fetch_portfolio_value. now apply Hs.
Qed.

Lemma inv_to_buy (data : bar) (macd macd_signal : list float) :
  inv I (to_buy symbol data macd macd_signal).
Proof.
  unfold to_buy, trend_up.
  repeat inv_step; try apply inv_down_cross_set; apply inv_down_cross_price.
Qed.

(** The buy branch in two stretches: [I] holds up to the point where the
    portfolio value is obtained, [I'] from there on. *)
Variable I' : State -> Prop.

Lemma triple_bind_inv {A B} (m : M A) (k : A -> M B) :
  (forall st, I st -> I' st) ->
  inv I m ->
  (forall a, triple I (k a) (fun _ => I') (fun _ => I')) ->
  triple I (bind m k) (fun _ => I') (fun _ => I').
Proof.
  intros Hsub Hm Hk. apply (triple_bind I m k (fun _ => I)); [|exact Hk].
  apply (triple_weaken I I m (fun _ => I) (fun _ => I) (fun _ => I)); auto.
Qed.

Lemma triple_of_inv {A} (m : M A) :
  (forall st, I st -> I' st) ->
  inv I m -> triple I m (fun _ => I') (fun _ => I').
Proof.
  intros Hsub Hm.
  apply (triple_weaken I I m (fun _ => I) (fun _ => I') (fun _ => I));
    auto.
Qed.

Lemma size_and_buy_outcome (position : Z) (data : bar) (now : Z)
    (portfolio_value : option float) (trading_api : option (nat -> response))
    (macd macd_signal : list float) (reason : list string) :
  (forall st, I st -> I' st) ->
  survives_entry symbol I ->
  survives_order symbol I' ->
  triple I (obtain_portfolio_value portfolio_value trading_api)
    (fun _ => I') (fun _ => I') ->
  triple I (size_and_buy market_open risk symbol position data now
              portfolio_value trading_api macd macd_signal reason)
    (fun _ => I') (fun _ => I').
Proof.
  intros Hsub (Hdc & Hcd & Htg & Hsp) (Hws & Hbi) Hpv. unfold size_and_buy.
  apply triple_bind_inv; [exact Hsub|apply inv_down_cross_price|].
  intros anchor.
  apply triple_bind_inv; [exact Hsub|apply inv_modify; intros; auto|].
  intros _.
  apply triple_bind_inv; [exact Hsub|apply inv_modify; intros; auto|].
  intros _.
  apply (triple_bind I _ _ (fun _ => I')); [exact Hpv|].
  intros [pv|]; [|apply inv_ret].
  change (inv I' (let* stop := subscript "stop_prices" stop_prices symbol in
                  let shares := shares_to_buy risk pv (close data) stop
                                  position in
                  if positive shares then
                    do modify (set_whipsawed <[symbol := false]>) then
                    let buy_price := Float.max (close data) (vwap data) in
                    do modify (set_buy_indicators
                                 <[symbol := BuyIndicator (tail_slice macd 5)
                                     (tail_slice macd_signal 5)
                                     (vwap data) (average data) reason]>) then
                    ret (true,
                         Some (if negb (morning_rush market_open now)
                               then Order buy shares limit (Some buy_price)
                               else Order buy shares market None))
                  else ret no_action)).
  apply inv_bind; [apply inv_subscript|]. intros stop. cbv zeta.
  destruct (positive _); [|apply inv_ret].
  apply inv_bind; [apply inv_modify; intros; auto|]. intros _.
  apply inv_bind; [apply inv_modify; intros; auto|]. intros _.
  apply inv_ret.
Qed.

Lemma risk_gate_outcome (position : Z) (data : bar)
    (close_series : list float) (now : Z) (portfolio_value : option float)
    (trading_api : option (nat -> response)) (macd macd_signal : list float)
    (reason : list string) :
  (forall st, I st -> I' st) ->
  survives_entry symbol I ->
  survives_order symbol I' ->
  triple I (obtain_portfolio_value portfolio_value trading_api)
    (fun _ => I') (fun _ => I') ->
  triple I (risk_gate RSI market_open risk symbol position data close_series
              now portfolio_value trading_api macd macd_signal reason)
    (fun _ => I') (fun _ => I').
Proof.
  intros Hsub Hw Ho Hpv. unfold risk_gate.
  apply triple_bind_inv; [exact Hsub|apply inv_idx|]. intros latest.
  destruct (latest <? fin 75)%float.
  - now apply size_and_buy_outcome.
  - apply triple_of_inv; [exact Hsub|].
    apply inv_bind; [|intros _; apply inv_ret].
    apply inv_modify. intros. now apply Hw.
Qed.

Lemma entry_outcome (position : Z) (minute_history : list bar) (data : bar)
    (now : Z) (portfolio_value : option float)
    (trading_api : option (nat -> response)) :
  (forall st, I st -> I' st) ->
  survives_entry symbol I ->
  survives_order symbol I' ->
  triple I (obtain_portfolio_value portfolio_value trading_api)
    (fun _ => I') (fun _ => I') ->
  triple I (entry MACD RSI market_open risk symbol position minute_history
              data now portfolio_value trading_api)
    (fun _ => I') (fun _ => I').
Proof.
  intros Hsub Hw Ho Hpv. unfold entry.
  destruct (MACD _ 13 21) as [[macd macd_signal] hist].
  apply triple_bind_inv; [exact Hsub|repeat inv_step; apply inv_down_cross_set|].
  intros crossed_down. destruct crossed_down.
  { apply triple_of_inv; [exact Hsub|].
    apply inv_bind; [|intros _; apply inv_ret].
    apply inv_modify. intros. now apply Hw. }
  apply triple_bind_inv; [exact Hsub|repeat inv_step; apply inv_down_cross_set|].
  intros crossed_up. destruct crossed_up.
  { apply triple_of_inv; [exact Hsub|].
    apply inv_bind; [|intros _; apply inv_ret].
    apply inv_modify. intros. now apply Hw. }
  apply triple_bind_inv; [exact Hsub|apply inv_to_buy|].
  intros buying. destruct buying.
  - now apply risk_gate_outcome.
  - apply triple_of_inv; [exact Hsub|apply inv_ret].
Qed.

Lemma inv_macd_falling (macd : list float) (round_factor : Z) :
  inv I (macd_falling macd round_factor).
Proof. unfold macd_falling. repeat inv_step. Qed.

Lemma inv_sell_cascade (data : bar) (now : Z) (macd rsi : list float)
    (bail_out scalp bail_on_whipsawed : bool) :
  survives_exit symbol I ->
  inv I (sell_cascade market_open symbol data now macd rsi bail_out scalp
           bail_on_whipsawed).
Proof.
  intros (Hws & Hcd & Hsi). unfold sell_cascade.
  repeat inv_step. apply inv_modify. intros. now apply Hcd.
Qed.

Lemma inv_exit (position : Z) (minute_history : list bar) (data : bar)
    (now : Z) :
  survives_exit symbol I ->
  inv I (exit MACD RSI market_open symbol position minute_history data now).
Proof.
  intros Hw. pose proof Hw as (Hws & Hcd & Hsi). unfold exit.
  repeat inv_step; try apply inv_macd_falling;
    try (apply inv_modify; intros; auto);
    now apply inv_sell_cascade.
Qed.
Lemma buy_guard_outcome (position : Z) (data : bar) (now : Z) :
  (position = 0 -> survives_guard symbol I) ->
  triple I (buy_guard is_buy_time symbol position data now)
    (fun a st => I st /\ (a = true -> position = 0)) (fun _ => I).
Proof.
  intros Hg st Hst. rewrite buy_guard_eval.
  destruct (is_buy_time now); cbn [andb]; [|now split].
  destruct (position =? 0) eqn:Ez; cbn [andb]; [|now split].
  apply Z.eqb_eq in Ez.
  destruct (negb _); [|now split].
  destruct (cooling (cool_down st) symbol now); [now split|].
  split; [now apply Hg|auto].
Qed.

Lemma sell_guard_outcome (position : Z) (now : Z) :
  triple I (sell_guard is_sell_time symbol position now)
    (fun a st => I st /\ (a = true -> 0 < position)) (fun _ => I).
Proof.
  intros st Hst. destruct (Z_lt_dec 0 position) as [Hpos|Hneg].
  - assert (H : inv I (sell_guard is_sell_time symbol position now)).
    { unfold sell_guard. repeat inv_step. apply inv_has_open_order. }
    specialize (H st Hst).
    destruct (sell_guard is_sell_time symbol position now st) as [[a|e] st'];
      auto.
  - rewrite sell_guard_flat by lia. split; [exact Hst|discriminate].
Qed.

(** [run] as a whole: each branch is entered only with the position its
    guard asks for. *)
Lemma run_outcome (shortable : bool) (position : Z)
    (minute_history : list bar) (now : Z) (portfolio_value : option float)
    (trading_api : option (nat -> response)) (debug backtesting : bool) :
  (forall st, I st -> I' st) ->
  (position = 0 ->
   survives_guard symbol I /\ survives_entry symbol I
   /\ survives_order symbol I'
   /\ triple I (obtain_portfolio_value portfolio_value trading_api)
        (fun _ => I') (fun _ => I')) ->
  (0 < position -> survives_exit symbol I) ->
  triple I (run MACD RSI is_buy_time is_sell_time market_open risk symbol
              shortable position minute_history now portfolio_value
              trading_api debug backtesting)
    (fun _ => I') (fun _ => I').
Proof.
  intros Hsub Hbuy Hsell. unfold run.
  apply triple_bind_inv; [exact Hsub|apply inv_idx|]. intros data.
  apply triple_bind_inv; [exact Hsub|apply inv_idx|]. intros prev_min.
  apply (triple_bind I _ _ (fun a st => I st /\ (a = true -> position = 0))).
  { eapply triple_weaken; [apply buy_guard_outcome|..]; auto.
    intros Hz. now apply Hbuy. }
  intros buying. destruct buying.
  - intros st [Hst Hz]. specialize (Hz eq_refl).
    destruct (Hbuy Hz) as (_ & Hw & Ho & Hpv).
    now apply (entry_outcome position minute_history data now portfolio_value
                 trading_api Hsub Hw Ho Hpv st).
  - apply (triple_bind _ _ _ (fun a st => I st /\ (a = true -> 0 < position))).
    { eapply triple_weaken; [apply sell_guard_outcome|..]; auto.
      now intros st [Hst _]. }
    intros selling. destruct selling.
    + intros st [Hst Hpos]. specialize (Hpos eq_refl).
      apply (triple_of_inv _ Hsub (inv_exit position minute_history data now
                                     (Hsell Hpos)) st Hst).
    + intros st [Hst _]. now apply Hsub.
Qed.
End Writes.

Lemma triple_snd {A} (I I' : State -> Prop) (m : M A) (st : State) :
  triple I m (fun _ => I') (fun _ => I') -> I st -> I' (snd (m st)).
Proof.
  intros H Hst. specialize (H st Hst). now destruct (m st) as [[a|e] st'].
Qed.

(** ** What [run] leaves alone *)

(** X1.  Whatever its inputs and whether it returns or raises, [run] never
    writes the cost basis, the scalp basis, the buy time, the owning
    strategy or the open orders: it only reads them. *)
Theorem run_only_reads_position_data
    (MACD : list float -> Z -> Z -> list float * list float * list float)
    (RSI : list float -> Z -> list float) (is_buy_time is_sell_time : Z -> bool)
    (market_open : Z) (risk : float) (symbol : string) (shortable : bool)
    (position : Z) (minute_history : list bar) (now : Z)
    (portfolio_value : option float) (trading_api : option (nat -> response))
    (debug backtesting : bool) (st : State) :
  let st' :=
    snd (run MACD RSI is_buy_time is_sell_time market_open risk symbol
           shortable position minute_history now portfolio_value trading_api
           debug backtesting st) in
  latest_cost_basis st' = latest_cost_basis st
  /\ latest_scalp_basis st' = latest_scalp_basis st
  /\ buy_time st' = buy_time st
  /\ last_used_strategy st' = last_used_strategy st
  /\ open_orders st' = open_orders st.
Proof.
  set (I := fun s : State =>
              latest_cost_basis s = latest_cost_basis st
              /\ latest_scalp_basis s = latest_scalp_basis st
              /\ buy_time s = buy_time st
              /\ last_used_strategy s = last_used_strategy st
              /\ open_orders s = open_orders st).
  assert (Hany : forall (f : State -> State) (s : State),
             latest_cost_basis (f s) = latest_cost_basis s ->
             latest_scalp_basis (f s) = latest_scalp_basis s ->
             buy_time (f s) = buy_time s ->
             last_used_strategy (f s) = last_used_strategy s ->
             open_orders (f s) = open_orders s ->
             I s -> I (f s)).
  { unfold I. intros f s -> -> -> -> ->. auto. }
  apply (triple_snd I I); [|unfold I; auto].
  apply run_outcome; [auto| |]; intros _.
  - split; [|split; [|split]].
    + intros s. now apply Hany.
    + split; [|split; [|split]]; intros s ?; now apply Hany.
    + split; [intros s|intros s ?]; now apply Hany.
    + apply inv_obtain_portfolio_value. intros _ s. now apply Hany.
  - split; [|split]; [intros s|intros s ?|intros s ?]; now apply Hany.
Qed.

(** X2.  [run] writes nothing under another symbol: in every dictionary it
    writes, the entry of any other symbol is what it was, whether [run]
    returns or raises. *)
Theorem run_writes_only_its_symbol
    (MACD : list float -> Z -> Z -> list float * list float * list float)
    (RSI : list float -> Z -> list float) (is_buy_time is_sell_time : Z -> bool)
    (market_open : Z) (risk : float) (symbol other : string)
    (shortable : bool) (position : Z) (minute_history : list bar) (now : Z)
    (portfolio_value : option float) (trading_api : option (nat -> response))
    (debug backtesting : bool) (st : State) :
  other <> symbol ->
  let st' :=
    snd (run MACD RSI is_buy_time is_sell_time market_open risk symbol
           shortable position minute_history now portfolio_value trading_api
           debug backtesting st) in
  cool_down st' !! other = cool_down st !! other
  /\ down_cross st' !! other = down_cross st !! other
  /\ whipsawed st' !! other = whipsawed st !! other
  /\ stop_prices st' !! other = stop_prices st !! other
  /\ target_prices st' !! other = target_prices st !! other
  /\ buy_indicators st' !! other = buy_indicators st !! other
  /\ sell_indicators st' !! other = sell_indicators st !! other.
Proof.
  intros Hne.
  set (I := fun s : State =>
              cool_down s !! other = cool_down st !! other
              /\ down_cross s !! other = down_cross st !! other
              /\ whipsawed s !! other = whipsawed st !! other
              /\ stop_prices s !! other = stop_prices st !! other
              /\ target_prices s !! other = target_prices st !! other
              /\ buy_indicators s !! other = buy_indicators st !! other
              /\ sell_indicators s !! other = sell_indicators st !! other).
  assert (Hins : forall V (m : gmap string V) (v : V),
             <[symbol := v]> m !! other = m !! other).
  { intros V m v. apply lookup_insert_ne. congruence. }
  assert (Hany : forall (f : State -> State) (s : State),
             cool_down (f s) !! other = cool_down s !! other ->
             down_cross (f s) !! other = down_cross s !! other ->
             whipsawed (f s) !! other = whipsawed s !! other ->
             stop_prices (f s) !! other = stop_prices s !! other ->
             target_prices (f s) !! other = target_prices s !! other ->
             buy_indicators (f s) !! other = buy_indicators s !! other ->
             sell_indicators (f s) !! other = sell_indicators s !! other ->
             I s -> I (f s)).
  { unfold I. intros f s -> -> -> -> -> -> ->. auto. }
  apply (triple_snd I I); [|unfold I; auto 10].
  apply run_outcome; [auto| |]; intros _.
  - split; [|split; [|split]].
    + intros s. apply Hany; cbn; now rewrite ?Hins.
    + split; [|split; [|split]]; intros s ?; apply Hany; cbn;
        now rewrite ?Hins.
    + split; [intros s|intros s ?]; apply Hany; cbn; now rewrite ?Hins.
    + apply inv_obtain_portfolio_value. intros _ s. now apply Hany.
  - split; [|split]; [intros s|intros s ?|intros s ?]; apply Hany; cbn;
      now rewrite ?Hins.
Qed.

(** X3.  Called with a position, [run] never touches what the buy branch
    keeps: stops, targets, anchors, buy audit records and the broker.  It
    never clears a whipsaw flag that is set.  Called with a short
    position it changes nothing at all. *)
Theorem run_with_a_position_keeps_buy_state
    (MACD : list float -> Z -> Z -> list float * list float * list float)
    (RSI : list float -> Z -> list float) (is_buy_time is_sell_time : Z -> bool)
    (market_open : Z) (risk : float) (symbol : string) (shortable : bool)
    (position : Z) (minute_history : list bar) (now : Z)
    (portfolio_value : option float) (trading_api : option (nat -> response))
    (debug backtesting : bool) (st : State) :
  position <> 0 ->
  let st' :=
    snd (run MACD RSI is_buy_time is_sell_time market_open risk symbol
           shortable position minute_history now portfolio_value trading_api
           debug backtesting st) in
  (stop_prices st' = stop_prices st
   /\ target_prices st' = target_prices st
   /\ down_cross st' = down_cross st
   /\ buy_indicators st' = buy_indicators st
   /\ api_calls st' = api_calls st)
  /\ (whipsawed st !! symbol = Some true ->
      whipsawed st' !! symbol = Some true)
  /\ (position < 0 -> st' = st).
Proof.
  intros Hnz. cbv zeta. split; [|split].
  - set (I := fun s : State =>
                stop_prices s = stop_prices st
                /\ target_prices s = target_prices st
                /\ down_cross s = down_cross st
                /\ buy_indicators s = buy_indicators st
                /\ api_calls s = api_calls st).
    apply (triple_snd I I); [|unfold I; auto].
    apply run_outcome; [auto|intros; contradiction|]. intros _.
    split; [|split]; [intros s|intros s ?|intros s ?]; exact (fun H => H).
  - intros Hset.
    set (I := fun s : State => whipsawed s !! symbol = Some true).
    apply (triple_snd I I); [|exact Hset].
    apply run_outcome; [auto|intros; contradiction|]. intros _.
    split; [|split].
    + intros s _. unfold I. cbn. apply lookup_insert_eq.
    + intros s t. exact (fun H => H).
    + intros s r. exact (fun H => H).
  - intros Hneg.
    apply (triple_snd (fun s => s = st) (fun s => s = st)); [|reflexivity].
    apply run_outcome; [auto|intros; lia|intros; lia].
Qed.

Lemma obtain_portfolio_value_bound (portfolio_value : option float)
    (trading_api : option (nat -> response)) (n : nat) :
  triple (fun s => api_calls s = n)
    (obtain_portfolio_value portfolio_value trading_api)
    (fun _ s => (n <= api_calls s <= n + 3)%nat)
    (fun _ s => (n <= api_calls s <= n + 3)%nat).
Proof.
  intros st Hst.
  destruct (obtain_portfolio_value_calls portfolio_value trading_api st)
    as (k & Hk & E).
  destruct (obtain_portfolio_value portfolio_value trading_api st)
    as [[a|e] st']; cbn [snd] in E; subst st';
    rewrite api_calls_called; lia.
Qed.

(** X4.  One call of [run] asks the broker at most three times, whatever
    its inputs and outcome, and not at all when a portfolio value is
    supplied. *)
Theorem run_calls_the_broker_at_most_three_times
    (MACD : list float -> Z -> Z -> list float * list float * list float)
    (RSI : list float -> Z -> list float) (is_buy_time is_sell_time : Z -> bool)
    (market_open : Z) (risk : float) (symbol : string) (shortable : bool)
    (position : Z) (minute_history : list bar) (now : Z)
    (portfolio_value : option float) (trading_api : option (nat -> response))
    (debug backtesting : bool) (st : State) :
  let st' :=
    snd (run MACD RSI is_buy_time is_sell_time market_open risk symbol
           shortable position minute_history now portfolio_value trading_api
           debug backtesting st) in
  (api_calls st <= api_calls st' <= api_calls st + 3)%nat
  /\ (forall pv, portfolio_value = Some pv -> api_calls st' = api_calls st).
Proof.
  cbv zeta. split.
  - apply (triple_snd (fun s => api_calls s = api_calls st)
             (fun s => (api_calls st <= api_calls s <= api_calls st + 3)%nat));
      [|reflexivity].
    apply run_outcome; [intros; lia| |]; intros _.
    + split; [|split; [|split]].
      * intros s. exact (fun H => H).
      * split; [|split; [|split]]; intros s ?; exact (fun H => H).
      * split; [intros s|intros s ?]; exact (fun H => H).
      * apply obtain_portfolio_value_bound.
    + split; [|split]; [intros s|intros s ?|intros s ?]; exact (fun H => H).
  - intros pv ->.
    apply (triple_snd (fun s => api_calls s = api_calls st)
             (fun s => api_calls s = api_calls st)); [|reflexivity].
    apply run_outcome; [auto| |]; intros _.
    + split; [|split; [|split]].
      * intros s. exact (fun H => H).
      * split; [|split; [|split]]; intros s ?; exact (fun H => H).
      * split; [intros s|intros s ?]; exact (fun H => H).
      * apply inv_obtain_portfolio_value. discriminate.
    + split; [|split]; [intros s|intros s ?|intros s ?]; exact (fun H => H).
Qed.


(** ** The shape of what [run] returns *)

Lemma yields_ret {A} (a : A) (Q : A -> Prop) : Q a -> yields (ret a) Q.
Proof. intros H. now apply triple_ret. Qed.

Lemma yields_bind {A B} (m : M A) (k : A -> M B) (R : A -> Prop)
    (Q : B -> Prop) :
  yields m R -> (forall a, R a -> yields (k a) Q) -> yields (bind m k) Q.
Proof.
  intros Hm Hk st _. specialize (Hm st Logic.I). unfold bind.
  destruct (m st) as [[a|e] st']; [|exact Logic.I].
  now apply (Hk a Hm st').
Qed.

Lemma yields_bind_any {A B} (m : M A) (k : A -> M B) (Q : B -> Prop) :
  (forall a, yields (k a) Q) -> yields (bind m k) Q.
Proof.
  intros Hk. apply (yields_bind m k (fun _ => True)); [|auto].
  intros st _. now destruct (m st) as [[a|e] st'].
Qed.

Lemma yields_idx {A} (l : list A) (k : nat) :
  yields (idx l k) (fun x => back l k = Ok x).
Proof. intros st _. unfold idx, lift. now destruct (back l k). Qed.

(** One step of a proof about the values a computation returns. *)
Ltac yields_step :=
  match goal with
  | |- yields (bind _ _) _ => apply yields_bind_any; intros ?
  | |- yields (if ?b then _ else _) _ => destruct b eqn:?
  | |- yields (match ?o with Some _ => _ | None => _ end) _ => destruct o
  | |- yields (let '(_, _) := ?p in _) _ => destruct p
  end.

Lemma sell_order_shaped (position : Z) (data : bar) (v : verdict) :
  0 < position -> sell_shaped position data (sell_order position data v).
Proof.
  intros Hpos. unfold sell_order, sell_shaped, priced_at.
  destruct (partial_sell v); cbn [negb].
  - repeat split; [|now right].
    destruct (position >? 1) eqn:E; eexists; split; try reflexivity; [|lia].
    apply Z.gtb_lt in E.
    pose proof (Z.quot_pos position 2 ltac:(lia) ltac:(lia)).
    assert (Z.quot position 2 <= position)
      by (apply Z.quot_le_upper_bound; lia).
    assert (Z.quot position 2 <> 0)
      by (intros E0; apply Z.quot_small_iff in E0; lia).
    lia.
  - destruct (limit_sell v); cbn [negb]; repeat split;
      try (exists position; split; [reflexivity|lia]); [now right|now left].
Qed.

Section Shape.
Variable MACD : list float -> Z -> Z -> list float * list float * list float.
Variable RSI : list float -> Z -> list float.
Variable is_buy_time is_sell_time : Z -> bool.
Variable market_open : Z.
Variable risk : float.

Lemma entry_yields (symbol : string) (minute_history : list bar) (data : bar)
    (now : Z) (portfolio_value : option float)
    (trading_api : option (nat -> response)) :
  yields (entry MACD RSI market_open risk symbol 0 minute_history data now
            portfolio_value trading_api)
    (well_formed 0 data).
Proof.
  unfold entry, risk_gate, size_and_buy.
  repeat yields_step; try (apply yields_ret; now left).
  apply yields_ret. right. eexists. split; [reflexivity|]. left.
  split; [reflexivity|]. unfold buy_shaped, priced_at.
  destruct (negb (morning_rush market_open now)); cbn; auto.
Qed.

Lemma exit_yields (symbol : string) (position : Z)
    (minute_history : list bar) (data : bar) (now : Z) :
  0 < position ->
  yields (exit MACD RSI market_open symbol position minute_history data now)
    (well_formed position data).
Proof.
  intros Hpos. unfold exit.
  repeat yields_step; try (apply yields_ret; now left).
  apply yields_ret. right. eexists. split; [reflexivity|]. right.
  split; [exact Hpos|]. now apply sell_order_shaped.
Qed.
End Shape.

(** X5.  Whatever [run] returns is no action or one order that fits the
    position: with no position, a buy of a positive quantity, at market or
    at a limit of the larger of close and VWAP; with a long position, a
    sell of at least one share and at most the position, at market or at
    a limit of the close.  With a short position [run] returns no order. *)
Theorem run_returns_a_well_formed_decision
    (MACD : list float -> Z -> Z -> list float * list float * list float)
    (RSI : list float -> Z -> list float) (is_buy_time is_sell_time : Z -> bool)
    (market_open : Z) (risk : float) (symbol : string) (shortable : bool)
    (position : Z) (minute_history : list bar) (now : Z)
    (portfolio_value : option float) (trading_api : option (nat -> response))
    (debug backtesting : bool) (st st' : State) (d : bool * option order) :
  run MACD RSI is_buy_time is_sell_time market_open risk symbol shortable
    position minute_history now portfolio_value trading_api debug backtesting
    st
  = (Ok d, st') ->
  exists data, back minute_history 1 = Ok data /\ well_formed position data d.
Proof.
  intros Hrun.
  assert (H : yields (run MACD RSI is_buy_time is_sell_time market_open risk
                        symbol shortable position minute_history now
                        portfolio_value trading_api debug backtesting)
                (fun d => exists data, back minute_history 1 = Ok data
                                       /\ well_formed position data d)).
  { unfold run.
    apply (yields_bind _ _ _ _ (yields_idx minute_history 1)).
    intros data Hd. apply yields_bind_any. intros prev_min.
    apply (yields_bind _ _ (fun a => a = true -> position = 0)).
    { eapply triple_weaken;
        [apply (buy_guard_outcome is_buy_time symbol (fun _ => True))|..];
        auto.
      - intros _ s _. exact Logic.I.
      - cbn. intros a s [_ Ha]. exact Ha. }
    intros buying Hbuy. destruct buying.
    - rewrite (Hbuy eq_refl).
      eapply triple_weaken; [apply entry_yields|..]; auto.
      cbn. intros a s Ha. now exists data.
    - apply (yields_bind _ _ (fun a => a = true -> 0 < position)).
      { eapply triple_weaken;
          [apply (sell_guard_outcome is_sell_time symbol (fun _ => True))|..];
          auto.
        cbn. intros a s [_ Ha]. exact Ha. }
      intros selling Hsell. destruct selling.
      + eapply triple_weaken; [apply (exit_yields _ _ _ _ _ _ _ _
                                        (Hsell eq_refl))|..]; auto.
        cbn. intros a s Ha. now exists data.
      + apply yields_ret. exists data. split; [exact Hd|now left]. }
  specialize (H st Logic.I). now rewrite Hrun in H.
Qed.

(** ** Bars on which [run] does not trade *)

(** X6.  A history of fewer than two bars makes [run] raise [IndexError]
    before it reads or writes anything. *)
Theorem run_needs_two_bars
    (MACD : list float -> Z -> Z -> list float * list float * list float)
    (RSI : list float -> Z -> list float) (is_buy_time is_sell_time : Z -> bool)
    (market_open : Z) (risk : float) (symbol : string) (shortable : bool)
    (position : Z) (minute_history : list bar) (now : Z)
    (portfolio_value : option float) (trading_api : option (nat -> response))
    (debug backtesting : bool) (st : State) :
  (length minute_history < 2)%nat ->
  run MACD RSI is_buy_time is_sell_time market_open risk symbol shortable
    position minute_history now portfolio_value trading_api debug backtesting
    st
  = (Raise IndexError, st).
Proof.
  intros Hlen. destruct minute_history as [|b [|b' rest]];
    [reflexivity|reflexivity|cbn in Hlen; lia].
Qed.

(** X7.  With an order pending for the symbol, [run] returns no order and
    changes nothing.  It returns no action, except that it raises
    [KeyError] when it is sell time, a position is held, a cost basis is
    recorded and no owning strategy is. *)
Theorem run_waits_for_a_pending_order
    (MACD : list float -> Z -> Z -> list float * list float * list float)
    (RSI : list float -> Z -> list float) (is_buy_time is_sell_time : Z -> bool)
    (market_open : Z) (risk : float) (symbol : string) (shortable : bool)
    (position : Z) (minute_history : list bar) (data prev_min : bar) (now : Z)
    (portfolio_value : option float) (trading_api : option (nat -> response))
    (debug backtesting : bool) (st : State) :
  back minute_history 1 = Ok data ->
  back minute_history 2 = Ok prev_min ->
  get_truthy (fun _ : Z => true) (open_orders st) symbol = true ->
  run MACD RSI is_buy_time is_sell_time market_open risk symbol shortable
    position minute_history now portfolio_value trading_api debug backtesting
    st
  = (if is_sell_time now && (position >? 0)
        && bool_decide (is_Some (latest_cost_basis st !! symbol))
     then match last_used_strategy st !! symbol with
          | Some _ => Ok no_action
          | None => Raise (KeyError "last_used_strategy" symbol)
          end
     else Ok no_action,
     st).
Proof.
  intros Hd Hp Hoo. unfold run.
  rewrite (bind_Ok _ _ data st st) by now apply idx_Ok.
  rewrite (bind_Ok _ _ prev_min st st) by now apply idx_Ok.
  rewrite (bind_Ok _ _ false st st).
  2:{ rewrite buy_guard_eval, Hoo. cbn [negb]. now rewrite andb_false_r. }
  unfold sell_guard, andM, has_open_order, bind, ret, gets, subscript.
  destruct (is_sell_time now); cbn [andb]; [|reflexivity].
  destruct (position >? 0); cbn [andb]; [|reflexivity].
  destruct (bool_decide _); [|reflexivity].
  destruct (last_used_strategy st !! symbol) as [owner|]; [|reflexivity].
  destruct (String.eqb owner name); [|reflexivity].
  now rewrite Hoo.
Qed.

(** X8.  [run] sells only positions its own strategy opened: when the
    recorded owner of the position is another strategy, it returns no
    action and changes nothing. *)
Theorem run_leaves_foreign_positions
    (MACD : list float -> Z -> Z -> list float * list float * list float)
    (RSI : list float -> Z -> list float) (is_buy_time is_sell_time : Z -> bool)
    (market_open : Z) (risk : float) (symbol owner : string)
    (shortable : bool) (position : Z) (minute_history : list bar)
    (data prev_min : bar) (now : Z) (portfolio_value : option float)
    (trading_api : option (nat -> response)) (debug backtesting : bool)
    (st : State) :
  back minute_history 1 = Ok data ->
  back minute_history 2 = Ok prev_min ->
  position <> 0 ->
  last_used_strategy st !! symbol = Some owner ->
  owner <> name ->
  run MACD RSI is_buy_time is_sell_time market_open risk symbol shortable
    position minute_history now portfolio_value trading_api debug backtesting
    st
  = (Ok no_action, st).
Proof.
  intros Hd Hp Hnz Hown Hne. unfold run.
  rewrite (bind_Ok _ _ data st st) by now apply idx_Ok.
  rewrite (bind_Ok _ _ prev_min st st) by now apply idx_Ok.
  rewrite (bind_Ok _ _ false st st).
  2:{ rewrite buy_guard_eval.
      replace (position =? 0) with false by (symmetry; now apply Z.eqb_neq).
      now rewrite andb_false_r. }
  unfold sell_guard, andM, has_open_order, bind, ret, gets, subscript.
  destruct (is_sell_time now); cbn [andb]; [|reflexivity].
  destruct (position >? 0); cbn [andb]; [|reflexivity].
  destruct (bool_decide _); [|reflexivity].
  rewrite Hown.
  replace (String.eqb owner name) with false; [reflexivity|].
  symmetry. now apply String.eqb_neq.
Qed.

(** X9.  With no position, no pending order, at buy time and with no
    cool-down in force, a bar whose volume is not above 500 gives no
    action; the symbol's cool-down entry is nevertheless reset to [None],
    because the cool-down is checked before the volume. *)
Theorem thin_bar_still_consumes_the_cool_down
    (MACD : list float -> Z -> Z -> list float * list float * list float)
    (RSI : list float -> Z -> list float) (is_buy_time is_sell_time : Z -> bool)
    (market_open : Z) (risk : float) (symbol : string) (shortable : bool)
    (minute_history : list bar) (data prev_min : bar) (now : Z)
    (portfolio_value : option float) (trading_api : option (nat -> response))
    (debug backtesting : bool) (st : State) :
  back minute_history 1 = Ok data ->
  back minute_history 2 = Ok prev_min ->
  is_buy_time now = true ->
  get_truthy (fun _ : Z => true) (open_orders st) symbol = false ->
  cooling (cool_down st) symbol now = false ->
  (volume data >? fin 500)%float = false ->
  run MACD RSI is_buy_time is_sell_time market_open risk symbol shortable 0
    minute_history now portfolio_value trading_api debug backtesting st
  = (Ok no_action, set_cool_down <[symbol := None]> st)
  /\ cool_down (set_cool_down <[symbol := None]> st) !! symbol = Some None.
Proof.
  intros Hd Hp Hbuy Hoo Hcool Hvol. split.
  - rewrite (run_flat MACD RSI is_buy_time is_sell_time market_open risk
               symbol shortable minute_history data prev_min now
               portfolio_value trading_api debug backtesting st Hd Hp).
    now rewrite Hbuy, Hoo, Hcool, Hvol.
  - cbn. apply lookup_insert_eq.
Qed.

(** ** The anchor *)

Section Anchor.
Variable MACD : list float -> Z -> Z -> list float * list float * list float.
Variable RSI : list float -> Z -> list float.
Variable market_open : Z.
Variable risk : float.

(** X10.  Without an anchor the buy branch never buys.  On a downward zero
    crossing of the five-minute oscillator (latest reading below zero, the
    one before at or above it) it stores the bar's close as the anchor;
    otherwise it changes nothing.  Either way it returns no action. *)
Theorem no_anchor_no_buy (symbol : string) (position : Z)
    (minute_history : list bar) (data : bar) (now : Z)
    (portfolio_value : option float) (trading_api : option (nat -> response))
    (macd macd_signal hist : list float) (m1 m2 : float) (st : State) :
  MACD (close_5min minute_history) 13 21 = (macd, macd_signal, hist) ->
  back macd 1 = Ok m1 ->
  back macd 2 = Ok m2 ->
  get_truthy Float.truthy (down_cross st) symbol = false ->
  entry MACD RSI market_open risk symbol position minute_history data now
    portfolio_value trading_api st
  = (Ok no_action,
     if (m1 <? fin 0)%float && (fin 0 <=? m2)%float
     then set_down_cross <[symbol := Some (close data)]> st
     else st).
Proof.
  intros HM H1 H2 Hdc. unfold entry.
  fold (close_5min minute_history). rewrite HM.
  erewrite bind_Ok.
  2:{ apply reads_andM.
      - apply (reads_chain _ _ _ _ _ _ m1 (fin 0) m2);
          [now apply reads_idx|apply reads_ret|intros; now apply reads_idx].
      - intros _. eapply reads_bind; [apply reads_down_cross_set|].
        apply reads_ret. }
  rewrite Hdc. cbn [negb]. rewrite andb_true_r.
  destruct ((m1 <? fin 0)%float && (fin 0 <=? m2)%float); [reflexivity|].
  erewrite (bind_Ok _ _ false st st).
  2:{ eapply reads_eq.
      - apply (reads_andM _ _ _
                 (get_truthy Float.truthy (down_cross st) symbol) false);
          [apply reads_down_cross_set|].
        intros E. rewrite Hdc in E. discriminate.
      - rewrite Hdc. reflexivity. }
  erewrite (bind_Ok _ _ false st st); [reflexivity|].
  unfold to_buy. erewrite (bind_Ok _ _ false st st); [reflexivity|].
  unfold trend_up.
  apply (reads_andM _ _ _ false false); [|discriminate].
  apply (reads_andM _ _ _ false false); [|discriminate].
  eapply reads_eq.
  - apply (reads_andM _ _ _
             (get_truthy Float.truthy (down_cross st) symbol) false);
      [apply reads_down_cross_set|].
    intros E. rewrite Hdc in E. discriminate.
  - rewrite Hdc. reflexivity.
Qed.

(** X11.  With an anchor set, a latest reading at or above zero clears it
    and returns no action, whatever the other readings are; after that the
    symbol has no anchor again.  So an anchor stored on one bar and
    followed by such a reading leaves the symbol where it started. *)
Theorem upward_crossing_clears_the_anchor (symbol : string) (position : Z)
    (minute_history : list bar) (data : bar) (now : Z)
    (portfolio_value : option float) (trading_api : option (nat -> response))
    (macd macd_signal hist : list float) (m1 anchor : float) (st : State) :
  MACD (close_5min minute_history) 13 21 = (macd, macd_signal, hist) ->
  back macd 1 = Ok m1 ->
  (m1 >=? fin 0)%float = true ->
  down_cross st !! symbol = Some (Some anchor) ->
  Float.truthy anchor = true ->
  let st' := set_down_cross <[symbol := None]> st in
  entry MACD RSI market_open risk symbol position minute_history data now
    portfolio_value trading_api st
  = (Ok no_action, st')
  /\ get_truthy Float.truthy (down_cross st') symbol = false.
Proof.
  intros HM H1 Hup Hdc Hset st'. split.
  - unfold entry. fold (close_5min minute_history). rewrite HM.
    assert (Hanch : get_truthy Float.truthy (down_cross st) symbol = true).
    { unfold get_truthy. now rewrite Hdc. }
    erewrite (bind_Ok _ _ false st st).
    2:{ apply (reads_andM _ _ _ false false); [|discriminate].
        eapply reads_eq.
        - apply (reads_chain _ _ _ _ _ _ m1 (fin 0) nan);
            [now apply reads_idx|apply reads_ret|].
          intros E. rewrite (geb_not_ltb _ _ Hup) in E. discriminate.
        - now rewrite (geb_not_ltb _ _ Hup). }
    erewrite (bind_Ok _ _ true st st); [reflexivity|].
    eapply reads_eq.
    + apply reads_andM; [apply reads_down_cross_set|]. intros _.
      apply reads_cmp; [apply reads_idx; eassumption|apply reads_ret].
    + now rewrite Hanch, Hup.
  - unfold get_truthy, st'. cbn. now rewrite lookup_insert_eq.
Qed.
End Anchor.

(** ** A portfolio worth nothing *)

(** X12.  A supplied portfolio value of zero still buys: the quotient is
    zero, the quantity becomes 1, and with no position the buy branch
    orders one share.  A portfolio value of zero fetched from the broker
    counts as not obtained, and the evaluation ends with no action. *)
Theorem zero_portfolio_value_supplied_or_fetched
    (market_open : Z) (risk close_price : Q) (symbol : string) (data : bar)
    (now : Z) (macd macd_signal : list float) (reason : list string)
    (anchor : float) (api : nat -> response) (st : State) :
  ~ (close_price == 0)%Q ->
  close data = fin close_price ->
  down_cross st !! symbol = Some (Some anchor) ->
  api (api_calls st) = account (fin 0) ->
  fst (size_and_buy market_open (fin risk) symbol 0 data now (Some (fin 0))
         None macd macd_signal reason st)
  = Ok (true, Some (buy_order market_open data now (qty_int 1)))
  /\ fst (size_and_buy market_open (fin risk) symbol 0 data now None
            (Some api) macd macd_signal reason st)
     = Ok no_action.
Proof.
  intros Hclose Hdata Hdc Hapi. split.
  - rewrite (size_and_buy_eval _ _ _ _ _ _ _ _ _ _ _ anchor st Hdc).
    cbn [obtain_portfolio_value ret]. cbv zeta. rewrite Hdata.
    assert (Hne : ~ (close_price - Qred (close_price * 0.96) == 0)%Q).
    { rewrite Qred_correct. intros E. apply Hclose.
      unfold Qeq, Qminus, Qplus, Qopp, Qmult in *. cbn in *. lia. }
    assert (Hs : shares_to_buy (fin risk) (fin 0) (fin close_price)
                   (fin close_price * fin 0.96)%float 0
                 = qty_int 1).
    { unfold shares_to_buy.
      change (fin close_price * fin 0.96)%float
        with (fin (Qred (close_price * 0.96))).
      rewrite (floordiv_fin _ _ _ _ Hne), truthy_of_Z.
      rewrite (Qfloor_comp (0 * risk / (close_price - Qred (close_price * 0.96)))
                 0).
      - reflexivity.
      - unfold Qdiv. now rewrite Qmult_0_l, Qmult_0_l. }
    rewrite Hs. reflexivity.
  - rewrite (size_and_buy_eval _ _ _ _ _ _ _ _ _ _ _ anchor st Hdc).
    rewrite obtain_portfolio_value_fetch.
    change (api_calls (priced symbol data anchor st)) with (api_calls st).
    rewrite Hapi. reflexivity.
Qed.

(** ** Morning rush *)

(** X13.  [morning_rush] holds exactly when the time since the open, taken
    modulo a day, is less than 30 minutes: not before the open on the same
    day, but again at the same clock time on any other day. *)
Theorem morning_rush_is_the_first_half_hour (market_open now : Z) :
  morning_rush market_open now
  = ((now - market_open) `mod` minutes (24 * 60) <? minutes 30).
Proof.
  unfold morning_rush, timedelta_seconds, minutes.
  set (d := now - market_open).
  change (24 * 60 * 60000000) with (86400 * 1000000).
  change (30 * 60000000) with (1800 * 1000000).
  assert (E : d `mod` (86400 * 1000000)
              = 1000000 * ((d `div` 1000000) `mod` 86400) + d `mod` 1000000).
  { rewrite (Z.mul_comm 86400 1000000).
    rewrite Z.rem_mul_r by lia. lia. }
  rewrite E.
  pose proof (Z.mod_pos_bound d 1000000 eq_refl) as Hb.
  set (s := (d `div` 1000000) `mod` 86400) in *.
  pose proof (Z.div_mod s 60 ltac:(lia)) as Hs.
  pose proof (Z.mod_pos_bound s 60 eq_refl) as Hs'.
  destruct (Z.ltb_spec (s `div` 60) 30) as [H|H];
    destruct (Z.ltb_spec (1000000 * s + d `mod` 1000000) (1800 * 1000000))
      as [H'|H']; try reflexivity; exfalso; lia.
Qed.


(** ** What a sale leaves behind *)

Section ExitState.
Variable MACD : list float -> Z -> Z -> list float * list float * list float.
Variable RSI : list float -> Z -> list float.
Variable market_open : Z.

(** The sell branch with all its reads in place, result and dictionaries. *)
Lemma exit_eval_state (symbol : string) (position : Z)
    (minute_history : list bar) (data : bar) (now : Z) (st : State)
    (cost_basis scalp_basis target stop : float) (bought_at : Z)
    (serie macd macd_signal hist : list float) (m1 m2 s1 r1 : float) :
  latest_cost_basis st !! symbol = Some cost_basis ->
  latest_scalp_basis st !! symbol = Some scalp_basis ->
  buy_time st !! symbol = Some bought_at ->
  target_prices st !! symbol = Some target ->
  stop_prices st !! symbol = Some stop ->
  exit_serie minute_history data = Ok serie ->
  MACD serie 13 21 = (macd, macd_signal, hist) ->
  back macd 1 = Ok m1 ->
  back macd 2 = Ok m2 ->
  back macd_signal 1 = Ok s1 ->
  back (RSI (session_close minute_history) 14) 1 = Ok r1 ->
  let x := readings_of market_open st symbol minute_history data now
             cost_basis scalp_basis target stop m1 m2 s1 r1 bought_at in
  exit MACD RSI market_open symbol position minute_history data now st
  = (Ok (first_match position x),
     exit_state symbol data now (RSI (session_close minute_history) 14)
       macd macd_signal x st).
Proof.
  intros Hcb Hsb Hbt Htg Hsp Hserie HM Hm1 Hm2 Hs1 Hr1 x.
  unfold exit, exit_state.
  erewrite bind_Ok by reflexivity.
  erewrite bind_Ok.
  2:{ apply reads_andM; [apply reads_ret|]. intros _.
      apply reads_cmp; [apply reads_ret|].
      eapply reads_bind; [apply reads_subscript, Hcb|apply reads_ret]. }
  change (x_cost_basis x) with cost_basis.
  set (slipped := negb (default false (whipsawed st !! symbol))
                  && (close data <? cost_basis * fin 0.99)%float).
  set (st1 := if slipped then set_whipsawed <[symbol := true]> st else st).
  erewrite (bind_Ok _ _ tt st st1) by (unfold st1; now destruct slipped).
  assert (Hcb1 : latest_cost_basis st1 !! symbol = Some cost_basis)
    by (unfold st1; now destruct slipped).
  assert (Hsb1 : latest_scalp_basis st1 !! symbol = Some scalp_basis)
    by (unfold st1; now destruct slipped).
  assert (Hbt1 : buy_time st1 !! symbol = Some bought_at)
    by (unfold st1; now destruct slipped).
  assert (Htg1 : target_prices st1 !! symbol = Some target)
    by (unfold st1; now destruct slipped).
  assert (Hsp1 : stop_prices st1 !! symbol = Some stop)
    by (unfold st1; now destruct slipped).
  assert (Hws1 : default false (whipsawed st1 !! symbol) = x_whipsawed x).
  { unfold st1, slipped, x, readings_of, whipsawed_now.
    cbn [x_whipsawed].
    destruct (default false (whipsawed st !! symbol)) eqn:F;
      cbn [negb andb orb]; [exact F|].
    destruct (close data <? cost_basis * fin 0.99)%float; [|exact F].
    cbn. now rewrite lookup_insert_eq. }
  clearbody st1. clear slipped.
  erewrite (bind_Ok _ _ serie st1 st1).
  2:{ unfold exit_serie in Hserie.
      destruct (Float.truthy (vwap data)); unfold lift, ret;
        [now rewrite Hserie|congruence]. }
  rewrite HM.
  erewrite bind_Ok by (apply reads_subscript, Hsb1).
  erewrite bind_Ok by (apply reads_subscript, Hbt1).
  erewrite bind_Ok by (apply reads_idx, Hm1).
  erewrite bind_Ok by (apply reads_idx, Hs1).
  erewrite bind_Ok by (apply reads_subscript, Htg1).
  erewrite bind_Ok by (apply reads_subscript, Hcb1).
  assert (Hfall : reads (macd_falling macd (round_factor m1 s1)) st1 (falling x)).
  { unfold macd_falling, falling. apply reads_cmp.
    - eapply reads_bind; [apply reads_idx, Hm1|apply reads_ret].
    - eapply reads_bind; [apply reads_idx, Hm2|apply reads_ret]. }
  erewrite (bind_Ok _ _ (holds x BailOut) st1 st1).
  2:{ cbn [holds]. repeat apply reads_andM; intros; try apply reads_ret.
      exact Hfall. }
  erewrite bind_Ok by reflexivity.
  erewrite (bind_Ok _ _ (holds x WhipsawBail) st1 st1).
  2:{ cbn [holds]. rewrite <- Hws1.
      repeat apply reads_andM; intros; try apply reads_ret. exact Hfall. }
  erewrite bind_Ok.
  2:{ apply (sell_cascade_eval market_open symbol data now macd
               (RSI (session_close minute_history) 14) x st1);
        try reflexivity; assumption. }
  unfold first_match.
  destruct (find (holds x) priority) as [r|] eqn:F; [|reflexivity].
  replace (to_sell (verdict_of (Some r))) with true by now destruct r.
  unfold bind, modify, ret.
  rewrite (sell_order_action position data x r eq_refl).
  f_equal. destruct r; reflexivity.
Qed.
End ExitState.

(** X14.  After the sell branch has run with its reads in place: a sale
    leaves the symbol's audit record, carrying the label of the rule that
    fired, the movement since the scalp basis and at most five oscillator
    values; the overbought sale alone sets the cool-down, to the current
    minute plus five; without a sale neither is touched.  The whipsaw flag
    is set exactly when it was set before or the close is more than 1%
    below the cost basis. *)
Theorem sale_leaves_audit_and_cool_down
    (MACD : list float -> Z -> Z -> list float * list float * list float)
    (RSI : list float -> Z -> list float) (is_buy_time is_sell_time : Z -> bool)
    (market_open : Z) (risk : float) (symbol : string) (shortable : bool)
    (position : Z) (minute_history : list bar) (data prev_min : bar) (now : Z)
    (portfolio_value : option float) (trading_api : option (nat -> response))
    (debug backtesting : bool) (st : State)
    (cost_basis scalp_basis target stop : float) (bought_at : Z)
    (serie macd macd_signal hist : list float) (m1 m2 s1 r1 : float) :
  back minute_history 1 = Ok data ->
  back minute_history 2 = Ok prev_min ->
  sell_preconditions is_sell_time st symbol position now ->
  latest_cost_basis st !! symbol = Some cost_basis ->
  latest_scalp_basis st !! symbol = Some scalp_basis ->
  buy_time st !! symbol = Some bought_at ->
  target_prices st !! symbol = Some target ->
  stop_prices st !! symbol = Some stop ->
  exit_serie minute_history data = Ok serie ->
  MACD serie 13 21 = (macd, macd_signal, hist) ->
  back macd 1 = Ok m1 ->
  back macd 2 = Ok m2 ->
  back macd_signal 1 = Ok s1 ->
  back (RSI (session_close minute_history) 14) 1 = Ok r1 ->
  let st' :=
    snd (run MACD RSI is_buy_time is_sell_time market_open risk symbol
           shortable position minute_history now portfolio_value trading_api
           debug backtesting st) in
  let x := readings_of market_open st symbol minute_history data now
             cost_basis scalp_basis target stop m1 m2 s1 r1 bought_at in
  match find (holds x) priority with
  | Some r =>
      (exists record,
         sell_indicators st' !! symbol = Some record
         /\ si_reasons record = label r
         /\ si_movement record = movement x
         /\ (length (si_sell_macd record) <= 5)%nat)
      /\ match r with
         | Overbought =>
             cool_down st' !! symbol
             = Some (Some (truncate_to_minute now + minutes 5))
         | _ => cool_down st' = cool_down st
         end
  | None =>
      sell_indicators st' = sell_indicators st
      /\ cool_down st' = cool_down st
  end
  /\ whipsawed st' !! symbol
     = if x_whipsawed x then Some true else whipsawed st !! symbol.
Proof.
  intros Hd Hp (Hsell & Hpos & Hhas & Hown & Hoo) Hcb Hsb Hbt Htg Hsp Hserie
    HM Hm1 Hm2 Hs1 Hr1 st' x.
  assert (E : st' = exit_state symbol data now
                      (RSI (session_close minute_history) 14) macd
                      macd_signal x st).
  { unfold st'.
    rewrite (run_sell_branch MACD RSI is_buy_time is_sell_time market_open
               risk symbol shortable position minute_history data prev_min
               now portfolio_value trading_api debug backtesting st)
      by assumption.
    now rewrite (exit_eval_state MACD RSI market_open symbol position
                   minute_history data now st cost_basis scalp_basis target
                   stop bought_at serie macd macd_signal hist m1 m2 s1 r1). }
  rewrite E. unfold exit_state.
  change (x_cost_basis x) with cost_basis.
  set (st1 := if negb (default false (whipsawed st !! symbol))
                 && (close data <? cost_basis * fin 0.99)%float
              then set_whipsawed <[symbol := true]> st else st).
  assert (Hcd1 : cool_down st1 = cool_down st)
    by (unfold st1; now destruct (negb _ && _)).
  assert (Hsi1 : sell_indicators st1 = sell_indicators st)
    by (unfold st1; now destruct (negb _ && _)).
  assert (Hws1 : whipsawed st1 !! symbol
                 = if x_whipsawed x then Some true else whipsawed st !! symbol).
  { unfold st1, x, readings_of, whipsawed_now. cbn [x_whipsawed].
    destruct (whipsawed st !! symbol) as [[|]|] eqn:F;
      cbn [default negb andb orb]; try reflexivity;
      destruct (close data <? cost_basis * fin 0.99)%float;
      cbn; rewrite ?lookup_insert_eq; auto. }
  clearbody st1.
  destruct (find (holds x) priority) as [r|].
  - split; [split|].
    + eexists. split; [cbn; apply lookup_insert_eq|].
      cbn. repeat split. unfold tail_slice. rewrite length_skipn. lia.
    + destruct r; cbn; rewrite ?Hcd1; try reflexivity.
      apply lookup_insert_eq.
    + destruct r; cbn; exact Hws1.
  - auto.
Qed.

(** ** How long a cool-down lasts *)

Lemma truncate_le_aligned (now until : Z) :
  until `mod` 60000000 = 0 ->
  (truncate_to_minute now <=? until) = (now <? until + 60000000).
Proof.
  intros Hal. unfold truncate_to_minute.
  pose proof (Z.div_mod now 60000000 ltac:(lia)) as Hn.
  pose proof (Z.mod_pos_bound now 60000000 eq_refl) as Hn'.
  pose proof (Z.div_mod until 60000000 ltac:(lia)) as Hu.
  destruct (Z.leb_spec (now - now `mod` 60000000) until);
    destruct (Z.ltb_spec now (until + 60000000)); try reflexivity; lia.
Qed.

(** X15.  A cool-down set at [now], by the overbought gate of the buy
    branch or by the overbought sale, keeps [run] from evaluating an entry
    at every later time before the minute of [now] plus six minutes, so
    for at least five minutes and for less than six; during that time
    [run] returns no action and leaves the entry in place.  From that
    moment on the first eligible call clears the entry and goes on. *)
Theorem cool_down_lasts_five_to_six_minutes
    (MACD : list float -> Z -> Z -> list float * list float * list float)
    (RSI : list float -> Z -> list float) (is_buy_time is_sell_time : Z -> bool)
    (market_open : Z) (risk : float) (symbol : string) (shortable : bool)
    (minute_history : list bar) (data prev_min : bar) (now later : Z)
    (portfolio_value : option float) (trading_api : option (nat -> response))
    (debug backtesting : bool) (st0 : State) :
  back minute_history 1 = Ok data ->
  back minute_history 2 = Ok prev_min ->
  is_buy_time later = true ->
  get_truthy (fun _ : Z => true) (open_orders st0) symbol = false ->
  let st := cooled symbol now st0 in
  let cleared := set_cool_down <[symbol := None]> st in
  run MACD RSI is_buy_time is_sell_time market_open risk symbol shortable 0
    minute_history later portfolio_value trading_api debug backtesting st
  = (if later <? truncate_to_minute now + minutes 6
     then (Ok no_action, st)
     else if (volume data >? fin 500)%float
          then entry MACD RSI market_open risk symbol 0 minute_history data
                 later portfolio_value trading_api cleared
          else (Ok no_action, cleared))
  /\ (later <= now + minutes 5 ->
      (later <? truncate_to_minute now + minutes 6) = true).
Proof.
  intros Hd Hp Hbuy Hoo st cleared. split.
  - rewrite (run_flat MACD RSI is_buy_time is_sell_time market_open risk
               symbol shortable minute_history data prev_min later
               portfolio_value trading_api debug backtesting st Hd Hp).
    rewrite Hbuy. change (open_orders st) with (open_orders st0).
    rewrite Hoo. cbn [andb negb].
    assert (E : cooling (cool_down st) symbol later
                = (later <? truncate_to_minute now + minutes 6)).
    { unfold cooling, st, cooled. cbn. rewrite lookup_insert_eq.
      rewrite truncate_le_aligned.
      - unfold minutes. f_equal. lia.
      - unfold minutes.
        destruct (truncate_to_minute_spec now) as [Hal _].
        rewrite Z.add_mod, Hal by lia. reflexivity. }
    rewrite E. reflexivity.
  - intros Hle. apply Z.ltb_lt.
    destruct (truncate_to_minute_spec now) as [_ Hb].
    unfold minutes in *. lia.
Qed.

(** ** What a buy leaves behind *)

Lemma triple_bind_any {A B} (m : M A) (k : A -> M B)
    (Q : B -> State -> Prop) :
  (forall a, triple (fun _ => True) (k a) Q (fun _ _ => True)) ->
  triple (fun _ => True) (bind m k) Q (fun _ _ => True).
Proof.
  intros Hk. apply (triple_bind _ m k (fun _ _ => True)); [|exact Hk].
  intros st _. now destruct (m st) as [[a|e] st'].
Qed.

Section BuyState.
Variable MACD : list float -> Z -> Z -> list float * list float * list float.
Variable RSI : list float -> Z -> list float.
Variable is_buy_time is_sell_time : Z -> bool.
Variable market_open : Z.
Variable risk : float.
Variable symbol : string.

Lemma size_and_buy_prepares (position : Z) (data : bar) (now : Z)
    (portfolio_value : option float) (trading_api : option (nat -> response))
    (macd macd_signal : list float) (reason : list string) :
  triple (fun _ => True)
    (size_and_buy market_open risk symbol position data now portfolio_value
       trading_api macd macd_signal reason)
    (fun d s => fst d = true -> prepared symbol data s) (fun _ _ => True).
Proof.
  unfold size_and_buy. apply triple_bind_any. intros anchor.
  set (J := fun s : State =>
              stop_prices s !! symbol = Some (close data * fin 0.96)%float
              /\ is_Some (target_prices s !! symbol)).
  apply (triple_bind _ _ _ (fun _ s => is_Some (target_prices s !! symbol))).
  { apply triple_modify. intros s _. cbn. rewrite lookup_insert_eq. eauto. }
  intros _. apply (triple_bind _ _ _ (fun _ => J)).
  { apply triple_modify. intros s Hs. split; [|exact Hs].
    cbn. apply lookup_insert_eq. }
  intros _. apply (triple_bind _ _ _ (fun _ => J)).
  { apply (triple_weaken J J _ (fun _ => J) (fun _ => J) (fun _ => J)); auto.
    apply inv_obtain_portfolio_value. intros _ s Hs. exact Hs. }
  intros [pv|]; [|apply triple_ret; discriminate].
  apply (triple_bind _ _ _ (fun _ => J)).
  { apply (triple_weaken J J _ (fun _ => J) (fun _ => J) (fun _ => J)); auto.
    apply inv_subscript. }
  intros stop. cbv zeta.
  destruct (positive _); [|apply triple_ret; discriminate].
  apply (triple_bind _ _ _
           (fun _ s => J s /\ whipsawed s !! symbol = Some false)).
  { apply triple_modify. intros s Hs. split; [exact Hs|].
    cbn. apply lookup_insert_eq. }
  intros _. apply (triple_bind _ _ _ (fun _ => prepared symbol data)).
  { apply triple_modify. intros s [[Hsp Htg] Hws]. repeat split; auto.
    cbn. rewrite lookup_insert_eq. eauto. }
  intros _. apply triple_ret. auto.
Qed.

Lemma entry_prepares (position : Z) (minute_history : list bar) (data : bar)
    (now : Z) (portfolio_value : option float)
    (trading_api : option (nat -> response)) :
  triple (fun _ => True)
    (entry MACD RSI market_open risk symbol position minute_history data now
       portfolio_value trading_api)
    (fun d s => fst d = true -> prepared symbol data s) (fun _ _ => True).
Proof.
  unfold entry, risk_gate.
  destruct (MACD _ 13 21) as [[macd macd_signal] hist].
  apply triple_bind_any. intros [|].
  { apply triple_bind_any. intros _. apply triple_ret. discriminate. }
  apply triple_bind_any. intros [|].
  { apply triple_bind_any. intros _. apply triple_ret. discriminate. }
  apply triple_bind_any. intros [|]; [|apply triple_ret; discriminate].
  apply triple_bind_any. intros latest.
  destruct (latest <? fin 75)%float.
  - apply size_and_buy_prepares.
  - apply triple_bind_any. intros _. apply triple_ret. discriminate.
Qed.

(** X16.  When [run], called with no position, returns an order, the
    dictionaries hold the symbol's stop (the close x 0.96) and target, a
    buy audit record and a whipsaw flag that is off.  Once [buy_callback]
    has recorded the fill, cost basis and scalp basis are both the fill
    price.  Of the entries the sell branch subscripts, only the buy time
    and the owning strategy are then left to the caller. *)
Theorem a_buy_prepares_the_sell_branch
    (shortable : bool) (minute_history : list bar) (data : bar) (now : Z)
    (portfolio_value : option float) (trading_api : option (nat -> response))
    (debug backtesting : bool) (st st1 : State) (o : order) (price : float)
    (qty : Z) :
  back minute_history 1 = Ok data ->
  run MACD RSI is_buy_time is_sell_time market_open risk symbol shortable 0
    minute_history now portfolio_value trading_api debug backtesting st
  = (Ok (true, Some o), st1) ->
  let st2 := snd (buy_callback symbol price qty st1) in
  fst (buy_callback symbol price qty st1) = Ok tt
  /\ prepared symbol data st2
  /\ latest_cost_basis st2 !! symbol = Some price
  /\ latest_scalp_basis st2 !! symbol = Some price.
Proof.
  intros Hd Hrun st2.
  assert (H : triple (fun _ => True)
                (run MACD RSI is_buy_time is_sell_time market_open risk symbol
                   shortable 0 minute_history now portfolio_value trading_api
                   debug backtesting)
                (fun d s => fst d = true -> prepared symbol data s)
                (fun _ _ => True)).
  { assert (Hrest : triple (fun _ => True)
      (let* prev_min := idx minute_history 2 in
       let* buying := buy_guard is_buy_time symbol 0 data now in
       if buying then
         entry MACD RSI market_open risk symbol 0 minute_history data now
           portfolio_value trading_api
       else
         let* selling := sell_guard is_sell_time symbol 0 now in
         if selling
         then exit MACD RSI market_open symbol 0 minute_history data now
         else ret no_action)
      (fun d s => fst d = true -> prepared symbol data s) (fun _ _ => True)).
    { apply triple_bind_any. intros prev_min.
      apply triple_bind_any. intros [|].
      - apply entry_prepares.
      - apply (triple_bind _ _ _ (fun a _ => a = false)).
        { intros s _. now rewrite sell_guard_flat by lia. }
        intros selling s Hs. subst selling. discriminate. }
    unfold run.
    apply (triple_bind _ _ _ (fun a _ => back minute_history 1 = Ok a)).
    { intros s _. unfold idx, lift. now destruct (back minute_history 1). }
    intros data' s Hd'. assert (data' = data) by congruence. subst data'.
    exact (Hrest s Logic.I). }
  specialize (H st Logic.I). rewrite Hrun in H. specialize (H eq_refl).
  destruct H as (Hsp & Htg & Hws & Hbi).
  split; [reflexivity|]. unfold st2, prepared. cbn.
  rewrite !lookup_insert_eq. auto.
Qed.
End BuyState.


(** ** The fill callbacks *)

(** X17.  [buy_callback] records the fill price as both cost basis and
    scalp basis; a later [sell_callback] moves the scalp basis to the sale
    price and leaves the cost basis at the buy price.  Neither raises, and
    neither touches another symbol or any other dictionary.  So the test
    "scalp basis above cost basis" of the bail-out rule is off after a buy
    and on after a sale above the buy price. *)
Theorem callbacks_keep_cost_and_move_scalp
    (symbol : string) (bought_at sold_at : float) (qty qty' : Z) (st : State) :
  let st1 := snd (buy_callback symbol bought_at qty st) in
  let st2 := snd (sell_callback symbol sold_at qty' st1) in
  (fst (buy_callback symbol bought_at qty st) = Ok tt
   /\ fst (sell_callback symbol sold_at qty' st1) = Ok tt)
  /\ (latest_cost_basis st1 !! symbol = Some bought_at
      /\ latest_scalp_basis st1 !! symbol = Some bought_at
      /\ (bought_at >? bought_at)%float = false)
  /\ (latest_cost_basis st2 !! symbol = Some bought_at
      /\ latest_scalp_basis st2 !! symbol = Some sold_at)
  /\ (forall other, other <> symbol ->
      latest_cost_basis st2 !! other = latest_cost_basis st !! other
      /\ latest_scalp_basis st2 !! other = latest_scalp_basis st !! other)
  /\ st2 = set_latest_scalp_basis (fun _ => latest_scalp_basis st2)
             (set_latest_cost_basis (fun _ => latest_cost_basis st2) st).
Proof.
  cbv zeta. cbn. rewrite !lookup_insert_eq.
  repeat split.
  - unfold Float.gtb, Float.ltb. destruct bought_at as [|q]; [reflexivity|].
    apply negb_false_iff, Qle_bool_iff, Qle_refl.
  - rewrite lookup_insert_ne by congruence. reflexivity.
  - rewrite !lookup_insert_ne by congruence. reflexivity.
Qed.

(** ** Worked examples *)

(** A sale for AAPL leaves MSFT's entries alone. *)
Lemma run_writes_only_its_symbol_witness :
  let st' := snd (Scenario.run_at_1015 Scenario.flat_macd [fin 50; fin 50] 10
                    (Scenario.bars (fin 46) (fin 1000)) None None
                    Scenario.held) in
  cool_down st' !! "MSFT"%string = cool_down Scenario.held !! "MSFT"%string
  /\ sell_indicators st' !! "MSFT"%string
     = sell_indicators Scenario.held !! "MSFT"%string.
Proof.
  intros st'.
  assert (Hne : "MSFT"%string <> "AAPL"%string) by discriminate.
  destruct (run_writes_only_its_symbol Scenario.flat_macd
              (Fixture.rsi_of [fin 50; fin 50]) (Fixture.always true)
              (Fixture.always true) Fixture.the_open (fin 0.01) "AAPL" "MSFT"
              false 10 (Scenario.bars (fin 46) (fin 1000))
              (Fixture.at_ 10 15 20) None None false false Scenario.held Hne)
    as (H1 & _ & _ & _ & _ & _ & H7).
  split; [exact H1|exact H7].
Defined.

(** A sale leaves stop and target as they were. *)
Lemma run_with_a_position_keeps_buy_state_witness :
  let st' := snd (Scenario.run_at_1015 Scenario.flat_macd [fin 50; fin 50] 10
                    (Scenario.bars (fin 46) (fin 1000)) None None
                    Scenario.held) in
  stop_prices st' = stop_prices Scenario.held
  /\ target_prices st' = target_prices Scenario.held.
Proof.
  intros st'.
  assert (Hnz : 10 <> 0) by lia.
  destruct (run_with_a_position_keeps_buy_state Scenario.flat_macd
              (Fixture.rsi_of [fin 50; fin 50]) (Fixture.always true)
              (Fixture.always true) Fixture.the_open (fin 0.01) "AAPL"
              false 10 (Scenario.bars (fin 46) (fin 1000))
              (Fixture.at_ 10 15 20) None None false false Scenario.held Hnz)
    as ((H1 & H2 & _) & _).
  split; [exact H1|exact H2].
Defined.

(** A buy sized from a supplied portfolio value makes no broker call. *)
Lemma run_calls_the_broker_at_most_three_times_witness :
  api_calls (snd (Scenario.run_at_1015 Scenario.rising_macd [fin 60] 0
                    (Scenario.bars (fin 50) (fin 1000)) (Some (fin 100000))
                    (Some (fun _ => fails ConnectionError))
                    Scenario.anchored))
  = api_calls Scenario.anchored.
Proof.
  destruct (run_calls_the_broker_at_most_three_times Scenario.rising_macd
              (Fixture.rsi_of [fin 60]) (Fixture.always true)
              (Fixture.always true) Fixture.the_open (fin 0.01) "AAPL"
              false 0 (Scenario.bars (fin 50) (fin 1000))
              (Fixture.at_ 10 15 20) (Some (fin 100000))
              (Some (fun _ => fails ConnectionError)) false false
              Scenario.anchored) as (_ & H).
  exact (H (fin 100000) eq_refl).
Defined.

(** The stop-hit sale of ten shares is well formed. *)
Lemma run_returns_a_well_formed_decision_witness :
  exists data,
    back (Scenario.bars (fin 46) (fin 1000)) 1 = Ok data
    /\ well_formed 10 data
         (true, Some (Order sell (qty_int 10) market None)).
Proof.
  apply (run_returns_a_well_formed_decision Scenario.flat_macd
           (Fixture.rsi_of [fin 50; fin 50]) (Fixture.always true)
           (Fixture.always true) Fixture.the_open (fin 0.01) "AAPL"
           false 10 (Scenario.bars (fin 46) (fin 1000))
           (Fixture.at_ 10 15 20) None None false false Scenario.held
           (snd (Scenario.run_at_1015 Scenario.flat_macd [fin 50; fin 50] 10
                   (Scenario.bars (fin 46) (fin 1000)) None None
                   Scenario.held))).
  apply injective_projections; [vm_compute; reflexivity|reflexivity].
Defined.

(** One bar is not enough. *)
Lemma run_needs_two_bars_witness :
  Scenario.run_at_1015 Scenario.flat_macd [fin 50] 10
    [Scenario.last_bar (fin 46) (fin 1000)] None None Scenario.held
  = (Raise IndexError, Scenario.held).
Proof.
  apply run_needs_two_bars. cbn. lia.
Defined.

(** A pending order for AAPL: no action, nothing changed. *)
Lemma run_waits_for_a_pending_order_witness :
  let st :=
    mkState ∅ {["AAPL"%string := fin 50]} {["AAPL"%string := fin 40]}
      {["AAPL"%string := Some 7]} ∅ ∅
      {["AAPL"%string := fin 47]} {["AAPL"%string := fin 44]}
      {["AAPL"%string := Fixture.at_ 10 0 0]} {["AAPL"%string := name]}
      ∅ ∅ 0 in
  Scenario.run_at_1015 Scenario.flat_macd [fin 50; fin 50] 10
    (Scenario.bars (fin 46) (fin 1000)) None None st
  = (Ok no_action, st).
Proof.
  intros st.
  exact (run_waits_for_a_pending_order Scenario.flat_macd
           (Fixture.rsi_of [fin 50; fin 50]) (Fixture.always true)
           (Fixture.always true) Fixture.the_open (fin 0.01) "AAPL"
           false 10 (Scenario.bars (fin 46) (fin 1000))
           (Scenario.last_bar (fin 46) (fin 1000))
           (Scenario.first_bar (fin 46) (fin 1000))
           (Fixture.at_ 10 15 20) None None false false st
           eq_refl eq_refl eq_refl).
Defined.

(** A position opened by another strategy is left alone, at its stop too. *)
Lemma run_leaves_foreign_positions_witness :
  let st :=
    mkState ∅ {["AAPL"%string := fin 50]} {["AAPL"%string := fin 40]} ∅ ∅ ∅
      {["AAPL"%string := fin 47]} {["AAPL"%string := fin 44]}
      {["AAPL"%string := Fixture.at_ 10 0 0]}
      {["AAPL"%string := "vwap_short"%string]} ∅ ∅ 0 in
  Scenario.run_at_1015 Scenario.flat_macd [fin 50; fin 50] 10
    (Scenario.bars (fin 46) (fin 1000)) None None st
  = (Ok no_action, st).
Proof.
  intros st.
  assert (Hnz : 10 <> 0) by lia.
  assert (Hne : "vwap_short"%string <> name) by discriminate.
  exact (run_leaves_foreign_positions Scenario.flat_macd
           (Fixture.rsi_of [fin 50; fin 50]) (Fixture.always true)
           (Fixture.always true) Fixture.the_open (fin 0.01) "AAPL"
           "vwap_short" false 10 (Scenario.bars (fin 46) (fin 1000))
           (Scenario.last_bar (fin 46) (fin 1000))
           (Scenario.first_bar (fin 46) (fin 1000))
           (Fixture.at_ 10 15 20) None None false false st
           eq_refl eq_refl Hnz eq_refl Hne).
Defined.

(** A bar of 100 shares: no action, and a cool-down entry of [None]. *)
Lemma thin_bar_still_consumes_the_cool_down_witness :
  Scenario.run_at_1015 Scenario.rising_macd [fin 60] 0
    (Scenario.bars (fin 50) (fin 100)) (Some (fin 100000)) None
    Scenario.anchored
  = (Ok no_action, set_cool_down <["AAPL"%string := None]> Scenario.anchored).
Proof.
  destruct (thin_bar_still_consumes_the_cool_down Scenario.rising_macd
              (Fixture.rsi_of [fin 60]) (Fixture.always true)
              (Fixture.always true) Fixture.the_open (fin 0.01) "AAPL"
              false (Scenario.bars (fin 50) (fin 100))
              (Scenario.last_bar (fin 50) (fin 100))
              (Scenario.first_bar (fin 50) (fin 100))
              (Fixture.at_ 10 15 20) (Some (fin 100000)) None false false
              Scenario.anchored eq_refl eq_refl eq_refl eq_refl eq_refl
              eq_refl) as (H & _).
  exact H.
Defined.

(** Readings 0.1 then -0.1 with no anchor: the close, 50, becomes the
    anchor. *)
Lemma no_anchor_no_buy_witness :
  entry (Fixture.macd_of [fin 0.1; fin (-0.1)] [fin 0; fin 0])
    (Fixture.rsi_of [fin 60]) Fixture.the_open (fin 0.01) "AAPL" 0
    (Scenario.bars (fin 50) (fin 1000)) (Scenario.last_bar (fin 50) (fin 1000))
    (Fixture.at_ 10 15 20) (Some (fin 100000)) None Fixture.empty
  = (Ok no_action,
     set_down_cross <["AAPL"%string := Some (fin 50)]> Fixture.empty).
Proof.
  exact (no_anchor_no_buy
           (Fixture.macd_of [fin 0.1; fin (-0.1)] [fin 0; fin 0])
           (Fixture.rsi_of [fin 60]) Fixture.the_open (fin 0.01) "AAPL" 0
           (Scenario.bars (fin 50) (fin 1000))
           (Scenario.last_bar (fin 50) (fin 1000)) (Fixture.at_ 10 15 20)
           (Some (fin 100000)) None [fin 0.1; fin (-0.1)] [fin 0; fin 0] []
           (fin (-0.1)) (fin 0.1) Fixture.empty
           eq_refl eq_refl eq_refl eq_refl).
Defined.

(** A reading of 0.2 with the anchor at 52: the anchor is cleared. *)
Lemma upward_crossing_clears_the_anchor_witness :
  entry (Fixture.macd_of [fin 0.2] [fin 0]) (Fixture.rsi_of [fin 60])
    Fixture.the_open (fin 0.01) "AAPL" 0 (Scenario.bars (fin 50) (fin 1000))
    (Scenario.last_bar (fin 50) (fin 1000)) (Fixture.at_ 10 15 20)
    (Some (fin 100000)) None Scenario.anchored
  = (Ok no_action, set_down_cross <["AAPL"%string := None]> Scenario.anchored).
Proof.
  destruct (upward_crossing_clears_the_anchor
              (Fixture.macd_of [fin 0.2] [fin 0]) (Fixture.rsi_of [fin 60])
              Fixture.the_open (fin 0.01) "AAPL" 0
              (Scenario.bars (fin 50) (fin 1000))
              (Scenario.last_bar (fin 50) (fin 1000)) (Fixture.at_ 10 15 20)
              (Some (fin 100000)) None [fin 0.2] [fin 0] [] (fin 0.2) (fin 52)
              Scenario.anchored eq_refl eq_refl eq_refl eq_refl eq_refl)
    as (H & _).
  exact H.
Defined.

(** Close 50, anchor 52, a broker reporting a portfolio of zero. *)
Lemma zero_portfolio_value_supplied_or_fetched_witness :
  let data := Scenario.last_bar (fin 50) (fin 1000) in
  fst (size_and_buy Fixture.the_open (fin 0.01) "AAPL" 0 data
         (Fixture.at_ 10 15 20) (Some (fin 0)) None [] [] []
         Scenario.anchored)
  = Ok (true, Some (Order buy (qty_int 1) limit (Some (fin 50))))
  /\ fst (size_and_buy Fixture.the_open (fin 0.01) "AAPL" 0 data
            (Fixture.at_ 10 15 20) None (Some (fun _ => account (fin 0)))
            [] [] [] Scenario.anchored)
     = Ok no_action.
Proof.
  intros data.
  assert (Hne : ~ (50 == 0)%Q) by (intros E; vm_compute in E; lia).
  exact (zero_portfolio_value_supplied_or_fetched Fixture.the_open 0.01 50
           "AAPL" data (Fixture.at_ 10 15 20) [] [] [] (fin 52)
           (fun _ => account (fin 0)) Scenario.anchored
           Hne eq_refl eq_refl eq_refl).
Defined.

(** The stop-hit sale of the ten shares: an audit record labelled
    "stopped", no cool-down. *)
Lemma sale_leaves_audit_and_cool_down_witness :
  let st' := snd (Scenario.run_at_1015 Scenario.flat_macd [fin 50; fin 50] 10
                    (Scenario.bars (fin 46) (fin 1000)) None None
                    Scenario.held) in
  (exists record,
     sell_indicators st' !! "AAPL"%string = Some record
     /\ si_reasons record = "stopped"%string)
  /\ cool_down st' = cool_down Scenario.held.
Proof.
  intros st'.
  assert (Hpre : sell_preconditions (Fixture.always true) Scenario.held
                   "AAPL" 10 (Fixture.at_ 10 15 20)).
  { unfold sell_preconditions. repeat split; try reflexivity.
    exists (fin 50). reflexivity. }
  destruct (sale_leaves_audit_and_cool_down Scenario.flat_macd
              (Fixture.rsi_of [fin 50; fin 50]) (Fixture.always true)
              (Fixture.always true) Fixture.the_open (fin 0.01) "AAPL" false
              10 (Scenario.bars (fin 46) (fin 1000))
              (Scenario.last_bar (fin 46) (fin 1000))
              (Scenario.first_bar (fin 46) (fin 1000))
              (Fixture.at_ 10 15 20) None None false false Scenario.held
              (fin 50) (fin 40) (fin 44) (fin 47) (Fixture.at_ 10 0 0)
              [fin 46; fin 46] [fin 0.1; fin 0.2] [fin 0.1; fin 0.1] []
              (fin 0.2) (fin 0.1) (fin 0.1) (fin 50)
              eq_refl eq_refl Hpre eq_refl eq_refl eq_refl eq_refl eq_refl
              eq_refl eq_refl eq_refl eq_refl eq_refl eq_refl)
    as ((Hrec & Hcd) & _).
  destruct Hrec as (record & Hr & Hl & _).
  split; [|exact Hcd]. exists record. split; [exact Hr|exact Hl].
Defined.

(** A cool-down set at 10:15:20 still holds at 10:20:59. *)
Lemma cool_down_lasts_five_to_six_minutes_witness :
  let st := cooled "AAPL" (Fixture.at_ 10 15 20) Scenario.anchored in
  run Scenario.rising_macd (Fixture.rsi_of [fin 60]) (Fixture.always true)
    (Fixture.always true) Fixture.the_open (fin 0.01) "AAPL" false 0
    (Scenario.bars (fin 50) (fin 1000)) (Fixture.at_ 10 20 59)
    (Some (fin 100000)) None false false st
  = (Ok no_action, st).
Proof.
  intros st.
  destruct (cool_down_lasts_five_to_six_minutes Scenario.rising_macd
              (Fixture.rsi_of [fin 60]) (Fixture.always true)
              (Fixture.always true) Fixture.the_open (fin 0.01) "AAPL" false
              (Scenario.bars (fin 50) (fin 1000))
              (Scenario.last_bar (fin 50) (fin 1000))
              (Scenario.first_bar (fin 50) (fin 1000))
              (Fixture.at_ 10 15 20) (Fixture.at_ 10 20 59)
              (Some (fin 100000)) None false false Scenario.anchored
              eq_refl eq_refl eq_refl eq_refl) as (H & _).
  exact H.
Defined.

(** The buy of 500 shares, filled at 50: stop 48, cost and scalp basis 50. *)
Lemma a_buy_prepares_the_sell_branch_witness :
  let st1 := snd (Scenario.run_at_1015 Scenario.rising_macd [fin 60] 0
                    (Scenario.bars (fin 50) (fin 1000)) (Some (fin 100000))
                    None Scenario.anchored) in
  let st2 := snd (buy_callback "AAPL" (fin 50) 500 st1) in
  stop_prices st2 !! "AAPL"%string = Some (fin 48)
  /\ latest_cost_basis st2 !! "AAPL"%string = Some (fin 50)
  /\ latest_scalp_basis st2 !! "AAPL"%string = Some (fin 50).
Proof.
  intros st1 st2.
  assert (E : Scenario.run_at_1015 Scenario.rising_macd [fin 60] 0
                (Scenario.bars (fin 50) (fin 1000)) (Some (fin 100000)) None
                Scenario.anchored
              = (Ok (true, Some (Order buy (qty_float (fin 500)) limit
                                   (Some (fin 50)))), st1)).
  { apply injective_projections; [vm_compute; reflexivity|reflexivity]. }
  destruct (a_buy_prepares_the_sell_branch Scenario.rising_macd
              (Fixture.rsi_of [fin 60]) (Fixture.always true)
              (Fixture.always true) Fixture.the_open (fin 0.01) "AAPL" false
              (Scenario.bars (fin 50) (fin 1000))
              (Scenario.last_bar (fin 50) (fin 1000)) (Fixture.at_ 10 15 20)
              (Some (fin 100000)) None false false Scenario.anchored st1
              (Order buy (qty_float (fin 500)) limit (Some (fin 50)))
              (fin 50) 500 eq_refl E) as (_ & (Hsp & _) & Hcb & Hsb).
  repeat split; assumption.
Defined.

(** Bought at 50, sold at 55: MSFT is untouched. *)
Lemma callbacks_keep_cost_and_move_scalp_witness :
  let st1 := snd (buy_callback "AAPL" (fin 50) 10 Scenario.held) in
  let st2 := snd (sell_callback "AAPL" (fin 55) 5 st1) in
  latest_cost_basis st2 !! "MSFT"%string
  = latest_cost_basis Scenario.held !! "MSFT"%string
  /\ latest_scalp_basis st2 !! "MSFT"%string
     = latest_scalp_basis Scenario.held !! "MSFT"%string.
Proof.
  intros st1 st2.
  assert (Hne : "MSFT"%string <> "AAPL"%string) by discriminate.
  destruct (callbacks_keep_cost_and_move_scalp "AAPL" (fin 50) (fin 55) 10 5
              Scenario.held) as (_ & _ & _ & H & _).
  exact (H "MSFT"%string Hne).
Defined.
